(** * Query logic of the dashboard widgets: data table, task list, issue list,
      kanban board and the task service.

    The widgets are TypeScript/React components.  Their derived values
    (sorted rows, filtered rows, groups, ordered group keys, column buckets,
    page counts) are pure functions of the props and of the component state;
    they are embedded here as Rocq functions, together with the part of the
    JavaScript semantics they rely on. *)

From Stdlib Require Import ZArith QArith Qround List String Ascii Bool Lia.
From Stdlib Require Import Permutation Sorted DecimalString.
From Stdlib Require DecimalPos DecimalZ.
Import ListNotations.

Close Scope Q_scope.
Open Scope string_scope.
Open Scope list_scope.

(* ===================================================================== *)
(** * The JavaScript fragment used by the widgets *)
(* ===================================================================== *)

Module JS.

(** ** Strings

    A JavaScript string is a sequence of UTF-16 code units.  The model uses
    [string], whose characters are read as the code units U+0000..U+00FF;
    on such strings the operations below are the ones of ECMAScript. *)

Definition code (c : ascii) : Z := Z.of_N (N_of_ascii c).

(** WhiteSpace and LineTerminator code points below U+0100. *)
Definition isWhiteSpace (c : ascii) : bool :=
  let n := code c in
  ((9 <=? n) && (n <=? 13) || (n =? 32) || (n =? 160))%Z.

Fixpoint trimStart (s : string) : string :=
  match s with
  | EmptyString => EmptyString
  | String c s' => if isWhiteSpace c then trimStart s' else s
  end.

Fixpoint trimEnd (s : string) : string :=
  match s with
  | EmptyString => EmptyString
  | String c s' =>
      match trimEnd s' with
      | EmptyString => if isWhiteSpace c then EmptyString else String c EmptyString
      | t => String c t
      end
  end.

(** [String.prototype.trim] *)
Definition trim (s : string) : string := trimEnd (trimStart s).

Definition lowerChar (c : ascii) : ascii :=
  let n := code c in
  if ((65 <=? n) && (n <=? 90)
      || (192 <=? n) && (n <=? 222) && negb (n =? 215))%Z
  then ascii_of_N (N_of_ascii c + 32)
  else c.

(** [String.prototype.toLowerCase] *)
Fixpoint toLowerCase (s : string) : string :=
  match s with
  | EmptyString => EmptyString
  | String c s' => String (lowerChar c) (toLowerCase s')
  end.

Fixpoint indexOfFrom (s sub : string) (pos : Z) : Z :=
  if prefix sub s then pos
  else match s with
       | EmptyString => (-1)%Z
       | String _ s' => indexOfFrom s' sub (pos + 1)%Z
       end.

(** [String.prototype.indexOf], from position 0: the first index at which
    [sub] occurs in [s], or -1. *)
Definition indexOf (s sub : string) : Z := indexOfFrom s sub 0%Z.

(** [String.prototype.includes] *)
Definition includes (s sub : string) : bool := negb (indexOf s sub =? -1)%Z.

(** ** Numbers

    Comparison of two Number values is the comparison of the reals they
    denote, NaN being unordered.  [number] keeps that denotation: the finite
    values as rationals, the two infinities and NaN.  Rounding to binary64
    and the sign of zero are not represented. *)

Inductive number : Type :=
  | NaN
  | NegInfinity
  | Finite (q : Q)
  | PosInfinity.

Definition Qltb (p q : Q) : bool :=
  (Qnum p * Zpos (Qden q) <? Qnum q * Zpos (Qden p))%Z.

(** [Number::lessThan]; [false] also stands for the undefined result that
    a NaN operand gives. *)
Definition number_lt (x y : number) : bool :=
  match x, y with
  | NaN, _ | _, NaN => false
  | _, NegInfinity => false
  | NegInfinity, _ => true
  | PosInfinity, _ => false
  | Finite _, PosInfinity => true
  | Finite p, Finite q => Qltb p q
  end.

(** [Number::subtract] *)
Definition number_sub (x y : number) : number :=
  match x, y with
  | NaN, _ | _, NaN => NaN
  | PosInfinity, PosInfinity | NegInfinity, NegInfinity => NaN
  | PosInfinity, _ | _, NegInfinity => PosInfinity
  | NegInfinity, _ | _, PosInfinity => NegInfinity
  | Finite p, Finite q => Finite (Qred (Qminus p q))
  end.

(** [Number::divide] *)
Definition number_div (x y : number) : number :=
  match x, y with
  | NaN, _ | _, NaN => NaN
  | Finite p, Finite q =>
      if (Qnum q =? 0)%Z then
        if (Qnum p =? 0)%Z then NaN
        else if (0 <? Qnum p)%Z then PosInfinity else NegInfinity
      else Finite (Qred (Qdiv p q))
  | Finite _, _ => Finite 0%Q
  | _, Finite q =>
      match x with
      | PosInfinity => if (Qnum q <? 0)%Z then NegInfinity else PosInfinity
      | _ => if (Qnum q <? 0)%Z then PosInfinity else NegInfinity
      end
  | _, _ => NaN
  end.

(** [Math.ceil] *)
Definition Math_ceil (x : number) : number :=
  match x with
  | Finite q => Finite (inject_Z (Qceiling q))
  | _ => x
  end.

Definition ofZ (z : Z) : number := Finite (inject_Z z).

(** *** StringToNumber: the StringNumericLiteral grammar *)

Definition digitOf (radix : Z) (c : ascii) : option Z :=
  let n := code c in
  let v := if ((48 <=? n) && (n <=? 57))%Z then Some (n - 48)%Z
           else if ((97 <=? n) && (n <=? 102))%Z then Some (n - 87)%Z
           else if ((65 <=? n) && (n <=? 70))%Z then Some (n - 55)%Z
           else None in
  match v with
  | Some d => if (d <? radix)%Z then Some d else None
  | None => None
  end.

(** Reads the longest prefix of decimal digits: the value accumulated on
    [acc], the number of digits read added to [n], and the rest. *)
Fixpoint spanDigits (s : string) (acc n : Z) : Z * Z * string :=
  match s with
  | EmptyString => (acc, n, s)
  | String c s' =>
      match digitOf 10 c with
      | Some d => spanDigits s' (10 * acc + d)%Z (n + 1)%Z
      | None => (acc, n, s)
      end
  end.

(** All of [s] as digits of the given radix; [None] on any other character. *)
Fixpoint radixDigits (radix : Z) (s : string) (acc : Z) : option Z :=
  match s with
  | EmptyString => Some acc
  | String c s' =>
      match digitOf radix c with
      | Some d => radixDigits radix s' (radix * acc + d)%Z
      | None => None
      end
  end.

Definition pow10 (k : Z) : Q :=
  if (0 <=? k)%Z then inject_Z (10 ^ k) else (1 # Z.to_pos (10 ^ (- k))).

(** ExponentPart, or nothing. *)
Definition exponentPart (s : string) : option Z :=
  match s with
  | EmptyString => Some 0%Z
  | String c r =>
      if ((code c =? 101) || (code c =? 69))%Z then
        let '(neg, r') :=
          match r with
          | String "-" t => (true, t)
          | String "+" t => (false, t)
          | _ => (false, r)
          end in
        match spanDigits r' 0 0 with
        | (v, n, EmptyString) =>
            if (0 <? n)%Z then Some (if neg then (- v)%Z else v) else None
        | _ => None
        end
      else None
  end.

(** StrUnsignedDecimalLiteral *)
Definition strUnsignedDecimal (s : string) : number :=
  if (s =? "Infinity")%string then PosInfinity
  else
    let '(i, ni, r1) := spanDigits s 0 0 in
    let '(m, nf, r2) :=
      match r1 with
      | String "." t => spanDigits t i 0
      | _ => (i, 0%Z, r1)
      end in
    if (ni + nf =? 0)%Z then NaN
    else match exponentPart r2 with
         | Some e => Finite (Qred (Qmult (inject_Z m) (pow10 (e - nf))))
         | None => NaN
         end.

Definition number_neg (x : number) : number :=
  match x with
  | NaN => NaN
  | NegInfinity => PosInfinity
  | PosInfinity => NegInfinity
  | Finite q => Finite (Qopp q)
  end.

Definition nonDecimal (radix : Z) (digits : string) : number :=
  match digits with
  | EmptyString => NaN
  | _ => match radixDigits radix digits 0 with
         | Some v => ofZ v
         | None => NaN
         end
  end.

(** [StringToNumber] *)
Definition StringToNumber (s : string) : number :=
  match trim s with
  | EmptyString => ofZ 0
  | String "0" (String "x" d) | String "0" (String "X" d) => nonDecimal 16 d
  | String "0" (String "o" d) | String "0" (String "O" d) => nonDecimal 8 d
  | String "0" (String "b" d) | String "0" (String "B" d) => nonDecimal 2 d
  | String "-" t => number_neg (strUnsignedDecimal t)
  | String "+" t => strUnsignedDecimal t
  | t => strUnsignedDecimal t
  end.

(** ** Values

    The cells of a record are scalars or absent.  Numeric cells are the
    integers that a Number holds exactly (the safe integers), NaN and the
    infinities; on these [Number::toString] is the decimal numeral. *)

Inductive numeric : Type :=
  | NNaN
  | NInt (z : Z)
  | NInfinity (negative : bool).

Inductive value : Type :=
  | VUndefined
  | VNull
  | VBoolean (b : bool)
  | VNumber (n : numeric)
  | VString (s : string).

Definition numeric_denote (n : numeric) : number :=
  match n with
  | NNaN => NaN
  | NInt z => ofZ z
  | NInfinity true => NegInfinity
  | NInfinity false => PosInfinity
  end.

Definition Number_toString (n : numeric) : string :=
  match n with
  | NNaN => "NaN"
  | NInt z => NilZero.string_of_int (Z.to_int z)
  | NInfinity true => "-Infinity"
  | NInfinity false => "Infinity"
  end.

(** [String(v)] *)
Definition ToString (v : value) : string :=
  match v with
  | VUndefined => "undefined"
  | VNull => "null"
  | VBoolean true => "true"
  | VBoolean false => "false"
  | VNumber n => Number_toString n
  | VString s => s
  end.

(** [ToNumber] *)
Definition ToNumber (v : value) : number :=
  match v with
  | VUndefined => NaN
  | VNull => ofZ 0
  | VBoolean true => ofZ 1
  | VBoolean false => ofZ 0
  | VNumber n => numeric_denote n
  | VString s => StringToNumber s
  end.

(** Truthiness of a string: [s ? .. : ..], [s && ..], [!s]. *)
Definition truthy (s : string) : bool :=
  match s with
  | EmptyString => false
  | _ => true
  end.

Definition isNullish (v : value) : bool :=
  match v with
  | VUndefined | VNull => true
  | _ => false
  end.

(** [x < y] on primitives (IsLessThan): two strings are compared by code
    units, any other pair after conversion of both sides to numbers. *)
Definition lessThan (x y : value) : bool :=
  match x, y with
  | VString s, VString t => String.ltb s t
  | _, _ => number_lt (ToNumber x) (ToNumber y)
  end.

(** [x > y] is [y < x]. *)
Definition greaterThan (x y : value) : bool := lessThan y x.

(** ** Completions *)

Inductive error : Type :=
  | TypeError (message : string).

Inductive completion (A : Type) : Type :=
  | Normal (a : A)
  | Throw (e : error).

Arguments Normal {A} a.
Arguments Throw {A} e.

Definition bind {A B : Type} (c : completion A) (k : A -> completion B)
  : completion B :=
  match c with
  | Normal a => k a
  | Throw e => Throw e
  end.

(** ** Array.prototype.sort

    The comparator's result [v] is used through its sign, NaN counting as
    +0 (SortCompare).  ECMAScript requires the sort to be stable and fixes
    the result whenever the comparator is consistent; with an inconsistent
    comparator the order is left to the implementation.  [Array_sort] is
    an insertion sort: the elements are taken from left to right, and each
    one, the pivot, moves towards the front past the elements already
    placed for as long as [comparefn pivot element < 0].  It gives the
    order that ECMAScript fixes.  Where a comparator of the widgets is not
    consistent (a column that mixes numbers and text, a sort value that is
    NaN), engines order the array in their own ways; the statements below
    that turn on the order are made for the inputs on which they agree,
    and [ArrayTimSort] further down gives the order of one engine. *)

Definition SortCompare (v : number) : Z :=
  match v with
  | NaN => 0%Z
  | NegInfinity => (-1)%Z
  | PosInfinity => 1%Z
  | Finite q => Z.sgn (Qnum q)
  end.

Section ArraySort.
Context {A : Type}.
Variable comparefn : A -> A -> Z.

(** [placed] is the sorted prefix, last element first. *)
Fixpoint insertPivot (pivot : A) (placed : list A) : list A :=
  match placed with
  | [] => [pivot]
  | e :: rest =>
      if (comparefn pivot e <? 0)%Z then e :: insertPivot pivot rest
      else pivot :: placed
  end.

Definition sortInto (placed : list A) (l : list A) : list A :=
  fold_left (fun acc x => insertPivot x acc) l placed.

Definition Array_sort (l : list A) : list A := rev (sortInto [] l).
End ArraySort.

(** *** The sort of V8

    V8 sorts an array of fewer than 64 elements as a single run
    ([ArrayTimSortImpl] with a minimal run length equal to the length):
    [CountAndMakeRun] takes the longest prefix that is ascending, or
    strictly descending and then reversed, and [BinaryInsertionSort] puts
    the remaining elements into it one by one, at the place found by
    bisection.  Longer arrays are cut into several runs that are merged;
    that part is left out, and [ArrayTimSort] has no result for them. *)

Section TimSort.
Context {A : Type}.
Variable comparefn : A -> A -> Z.

(** The loop of [CountAndMakeRun]: the elements that continue the run, and
    the elements after the run. *)
Fixpoint continueRun (isDescending : bool) (previousElement : A) (l : list A)
  : list A * list A :=
  match l with
  | [] => ([], [])
  | currentElement :: l' =>
      let order := comparefn currentElement previousElement in
      if (if isDescending then (0 <=? order)%Z else (order <? 0)%Z)
      then ([], l)
      else
        let (run, rest) := continueRun isDescending currentElement l' in
        (currentElement :: run, rest)
  end.

(** The run at the start of the array, made ascending, and the elements
    that follow it. *)
Definition CountAndMakeRun (l : list A) : list A * list A :=
  match l with
  | elementHigh :: elementLow :: l' =>
      let isDescending := (comparefn elementLow elementHigh <? 0)%Z in
      let (run, rest) := continueRun isDescending elementLow l' in
      let whole := elementHigh :: elementLow :: run in
      (if isDescending then rev whole else whole, rest)
  | _ => (l, [])
  end.

(** The bisection of [BinaryInsertionSort]: where the pivot belongs among
    the elements [sorted]; [steps] bounds the number of halvings. *)
Fixpoint insertionPoint (steps : nat) (pivot : A) (sorted : list A)
  (left right : nat) : nat :=
  match steps with
  | O => left
  | S steps' =>
      if (left <? right)%nat then
        let mid := (left + Nat.div2 (right - left))%nat in
        match nth_error sorted mid with
        | Some element =>
            if (comparefn pivot element <? 0)%Z
            then insertionPoint steps' pivot sorted left mid
            else insertionPoint steps' pivot sorted (S mid) right
        | None => left
        end
      else left
  end.

Definition insertSorted (sorted : list A) (pivot : A) : list A :=
  let left := insertionPoint (S (List.length sorted)) pivot sorted 0
                             (List.length sorted) in
  firstn left sorted ++ pivot :: skipn left sorted.

Definition BinaryInsertionSort (run rest : list A) : list A :=
  fold_left insertSorted rest run.

Definition ArrayTimSort (l : list A) : option (list A) :=
  if (List.length l <? 64)%nat then
    let (run, rest) := CountAndMakeRun l in
    Some (BinaryInsertionSort run rest)
  else None.
End TimSort.

(** ** Ordinary objects used as dictionaries

    An object made by [{}] has its own properties, kept in creation order,
    and inherits the members of [Object.prototype].  A property read finds
    an own property first and an inherited member next. *)

Definition ObjectPrototypeNames : list string :=
  [ "constructor"; "__defineGetter__"; "__defineSetter__"; "hasOwnProperty";
    "__lookupGetter__"; "__lookupSetter__"; "isPrototypeOf";
    "propertyIsEnumerable"; "toString"; "valueOf"; "__proto__";
    "toLocaleString" ].

Definition inherited (k : string) : bool :=
  existsb (String.eqb k) ObjectPrototypeNames.

Definition object (V : Type) : Type := list (string * V).

Inductive property (V : Type) : Type :=
  | Own (v : V)
  | Inherited (name : string)
  | Absent.

Arguments Own {V} v.
Arguments Inherited {V} name.
Arguments Absent {V}.

Fixpoint getOwn {V : Type} (o : object V) (k : string) : option V :=
  match o with
  | [] => None
  | (k', v) :: o' => if (k' =? k)%string then Some v else getOwn o' k
  end.

(** [o[k]] *)
Definition Get {V : Type} (o : object V) (k : string) : property V :=
  match getOwn o k with
  | Some v => Own v
  | None => if inherited k then Inherited k else Absent
  end.

(** [o[k] = v] for a key that [o] does not have: a new own property, last
    in creation order. *)
Definition define {V : Type} (o : object V) (k : string) (v : V) : object V :=
  o ++ [(k, v)].

(** In-place change of the value held by the own property [k]. *)
Fixpoint update {V : Type} (o : object V) (k : string) (f : V -> V)
  : object V :=
  match o with
  | [] => []
  | (k', v) :: o' =>
      if (k' =? k)%string then (k', f v) :: o' else (k', v) :: update o' k f
  end.

(** An array index is the canonical numeral of an integer in
    [0, 2^32 - 2]. *)
Definition arrayIndex (k : string) : option Z :=
  match k with
  | EmptyString => None
  | String c r =>
      match spanDigits k 0 0 with
      | (v, _, EmptyString) =>
          if (negb (code c =? 48) || (k =? "0")%string)%Z
             && (v <=? 4294967294)%Z
          then Some v else None
      | _ => None
      end
  end.

Fixpoint insertIndex (i : Z) (k : string) (l : list (Z * string))
  : list (Z * string) :=
  match l with
  | [] => [(i, k)]
  | (j, k') :: l' =>
      if (i <? j)%Z then (i, k) :: l else (j, k') :: insertIndex i k l'
  end.

Fixpoint indexKeys {V : Type} (o : object V) : list (Z * string) :=
  match o with
  | [] => []
  | (k, _) :: o' =>
      match arrayIndex k with
      | Some i => insertIndex i k (indexKeys o')
      | None => indexKeys o'
      end
  end.

Fixpoint nameKeys {V : Type} (o : object V) : list string :=
  match o with
  | [] => []
  | (k, _) :: o' =>
      match arrayIndex k with
      | Some _ => nameKeys o'
      | None => k :: nameKeys o'
      end
  end.

(** [Object.keys]: array indices in ascending order, then the other keys
    in creation order. *)
Definition Object_keys {V : Type} (o : object V) : list string :=
  map snd (indexKeys o) ++ nameKeys o.

(** The body shared by the grouping reductions,
    [if (!groups[key]) groups[key] = []; groups[key].push(x)]: the bucket is
    created when the read of [groups[key]] is falsy, and [push] is then
    called on what [groups[key]] reads. *)
Definition pushInto {T : Type} (groups : object (list T)) (k : string) (x : T)
  : completion (object (list T)) :=
  let groups' :=
    match Get groups k with
    | Absent => define groups k []
    | _ => groups
    end in
  match Get groups' k with
  | Own _ => Normal (update groups' k (fun bucket => bucket ++ [x]))
  | Inherited m => Throw (TypeError "groups[key].push is not a function")
  | Absent => Throw (TypeError "Cannot read properties of undefined")
  end.

(** [Array.prototype.reduce] with a callback that may throw. *)
Fixpoint reduce {T B : Type} (f : B -> T -> completion B) (l : list T)
  (init : B) : completion B :=
  match l with
  | [] => Normal init
  | x :: l' => bind (f init x) (reduce f l')
  end.

End JS.

(* ===================================================================== *)
(** * components/tambo/data-table.tsx *)
(* ===================================================================== *)

Module DataTable.
Import JS.

Inductive ColumnFormat : Type :=
  | currency | percentage | date | number_ | text.

Record DataTableColumn : Type := {
  key : string;
  label : string;
  sortable : option bool;
  filterable : option bool;
  format : option ColumnFormat;
  width : option string
}.

(** A row is a record of scalar cells.  The keys that columns, filters and
    the sort configuration name are field names of the rows, none of them
    the name of a member of [Object.prototype]; a read of a field that the
    row does not have gives [undefined]. *)
Definition DataTableRow : Type := object value.

(** [row[k]] *)
Definition field (row : DataTableRow) (k : string) : value :=
  match getOwn row k with
  | Some v => v
  | None => VUndefined
  end.

Inductive SortDirection : Type := asc | desc.

(** The state [sortConfig]: [null], or a key with a direction that is
    ["asc"], ["desc"] or [null]. *)
Record SortConfig : Type := {
  sortKey : string;
  direction : option SortDirection
}.

(** The comparator handed to [sort]: the chain of tests on [aValue] and
    [bValue]. *)
Definition compareValues (d : SortDirection) (aValue bValue : value) : Z :=
  if isNullish aValue then 1%Z
  else if isNullish bValue then (-1)%Z
  else if lessThan aValue bValue then
         match d with asc => (-1)%Z | desc => 1%Z end
  else if greaterThan aValue bValue then
         match d with asc => 1%Z | desc => (-1)%Z end
  else 0%Z.

Definition compareRows (k : string) (d : SortDirection)
  (a b : DataTableRow) : Z :=
  compareValues d (field a k) (field b k).

Definition sortedData (data : list DataTableRow) (sortConfig : option SortConfig)
  : list DataTableRow :=
  match sortConfig with
  | None => data
  | Some cfg =>
      match direction cfg with
      | None => data
      | Some d => Array_sort (compareRows (sortKey cfg) d) data
      end
  end.

(** One pass of the loop over [Object.entries(filters)]: does this entry
    reject the row? *)
Definition rejects (row : DataTableRow) (entry : string * string) : bool :=
  let '(k, v) := entry in
  truthy v
  && (indexOf (toLowerCase (ToString (field row k))) (toLowerCase v) =? -1)%Z.

Definition matchesSearch (columns : list DataTableColumn) (searchTerm : string)
  (row : DataTableRow) : bool :=
  let searchLower := toLowerCase searchTerm in
  existsb (fun col =>
             negb (indexOf (toLowerCase (ToString (field row (key col))))
                           searchLower =? -1)%Z)
          columns.

(** The predicate of [sortedData.filter]. *)
Definition keeps (filters : object string) (searchTerm : string)
  (columns : list DataTableColumn) (row : DataTableRow) : bool :=
  if existsb (rejects row) filters then false
  else if truthy searchTerm then matchesSearch columns searchTerm row
  else true.

Definition filteredData (sortedData : list DataTableRow)
  (filters : object string) (searchTerm : string)
  (columns : list DataTableColumn) : list DataTableRow :=
  filter (keeps filters searchTerm columns) sortedData.

(** The [pagination] prop; the schema declares the three as numbers and the
    model takes integers. *)
Record Pagination : Type := {
  page : Z;
  pageSize : Z;
  total : Z
}.

(** [Math.ceil(pagination.total / pagination.pageSize)] *)
Definition totalPages (p : Pagination) : number :=
  Math_ceil (number_div (ofZ (total p)) (ofZ (pageSize p))).

(** What the footer shows when [pagination] is given: the page, the page
    count, and whether Previous and Next are disabled. *)
Record PaginationFooter : Type := {
  shownPage : Z;
  shownPages : number;
  previousDisabled : bool;
  nextDisabled : bool
}.

(** [page >= pages] *)
Definition number_ge (x y : number) : bool :=
  match x, y with
  | NaN, _ | _, NaN => false
  | _, _ => negb (number_lt x y)
  end.

Definition paginationFooter (pagination : option Pagination)
  : completion (option PaginationFooter) :=
  match pagination with
  | None => Normal None
  | Some p =>
      Normal (Some {| shownPage := page p;
                      shownPages := totalPages p;
                      previousDisabled := (page p =? 1)%Z;
                      nextDisabled := number_ge (ofZ (page p)) (totalPages p) |})
  end.

End DataTable.

(* ===================================================================== *)
(** * components/tambo/task-list.tsx *)
(* ===================================================================== *)

Module TaskList.
Import JS.

(** The functions of this file take the status and the priority as
    [string]s, so the record keeps them as strings. *)
Record Task : Type := {
  id : string;
  title : string;
  description : option string;
  status : string;
  priority : string;
  assignee : option string;
  dueDate : option string;
  createdDate : string;
  updatedDate : string;
  project : string;
  tags : option (list string);
  estimatedHours : option Z;
  actualHours : option Z
}.

(** The values of the prop and of the state [groupBy]: "status",
    "priority", "assignee", "project" and "none". *)
Inductive GroupBy : Type :=
  | byStatus | byPriority | byAssignee | byProject | none.

Inductive ViewMode : Type := grid | list_.

Record TaskListState : Type := {
  searchQuery : string;
  viewMode : ViewMode;
  groupBy : GroupBy;
  selectedTaskIds : list string
}.

(** [task[groupBy]] for the four grouping fields. *)
Definition groupField (task : Task) (g : GroupBy) : option string :=
  match g with
  | byStatus => Some (status task)
  | byPriority => Some (priority task)
  | byAssignee => assignee task
  | byProject => Some (project task)
  | none => None
  end.

(** [x || fallback] for an optional string. *)
Definition orElse (x : option string) (fallback : string) : string :=
  match x with
  | Some s => if truthy s then s else fallback
  | None => fallback
  end.

Definition groupTasks (tasks : list Task) (g : GroupBy)
  : completion (object (list Task)) :=
  match g with
  | none => Normal [("All Tasks", tasks)]
  | _ =>
      reduce (fun groups task =>
                pushInto groups (orElse (groupField task g) "Uncategorized") task)
             tasks []
  end.

(** [s && s.toLowerCase().includes(query)] for an optional string. *)
Definition optIncludes (s : option string) (query : string) : bool :=
  match s with
  | Some s' => truthy s' && includes (toLowerCase s') query
  | None => false
  end.

Definition matchesQuery (query : string) (task : Task) : bool :=
  includes (toLowerCase (title task)) query
  || optIncludes (description task) query
  || optIncludes (assignee task) query
  || optIncludes (Some (project task)) query
  || match tags task with
     | Some ts => existsb (fun tag => includes (toLowerCase tag) query) ts
     | None => false
     end.

Definition filterTasks (tasks : list Task) (searchQuery : string) : list Task :=
  if negb (truthy (trim searchQuery)) then tasks
  else filter (matchesQuery (toLowerCase searchQuery)) tasks.

(** What a read of a rank table gives after [|| 999]: a number, or a member
    of [Object.prototype] (an object, hence truthy). *)
Inductive rank : Type :=
  | RankNumber (n : Z)
  | RankMember (name : string).

Definition rankOr999 (table : object Z) (k : string) : rank :=
  match Get table k with
  | Own n => if (n =? 0)%Z then RankNumber 999 else RankNumber n
  | Inherited m => RankMember m
  | Absent => RankNumber 999
  end.

Definition getPriorityOrder (priority : string) : rank :=
  rankOr999 [("critical", 0); ("high", 1); ("medium", 2); ("low", 3)]%Z
            priority.

Definition getStatusOrder (status : string) : rank :=
  rankOr999 [("todo", 0); ("in-progress", 1); ("review", 2); ("done", 3)]%Z
            status.

(** ToNumber of a rank: a function or prototype object converts to NaN. *)
Definition rankNumber (r : rank) : number :=
  match r with
  | RankNumber n => ofZ n
  | RankMember _ => NaN
  end.

Section Component.
(** [String.prototype.localeCompare] depends on the host's locale. *)
Variable localeCompare : string -> string -> Z.

(** The comparator of [sortedGroupKeys]; [g] is [state?.groupBy]. *)
Definition compareGroupKeys (g : option GroupBy) (a b : string) : Z :=
  match g with
  | Some byPriority =>
      SortCompare (number_sub (rankNumber (getPriorityOrder a))
                              (rankNumber (getPriorityOrder b)))
  | Some byStatus =>
      SortCompare (number_sub (rankNumber (getStatusOrder a))
                              (rankNumber (getStatusOrder b)))
  | _ => localeCompare a b
  end.

Record View : Type := {
  filteredTasks : list Task;
  groupedTasks : object (list Task);
  sortedGroupKeys : list string
}.

(** The values derived in the body of the component from the props
    [tasks] and [groupBy] and from the component state. *)
Definition derive (tasks : list Task) (groupByProp : GroupBy)
  (state : option TaskListState) : completion View :=
  let filtered :=
    filterTasks tasks (match state with
                       | Some st => searchQuery st
                       | None => ""
                       end) in
  let g := match state with
           | Some st => groupBy st
           | None => groupByProp
           end in
  bind (groupTasks filtered g) (fun grouped =>
  Normal {| filteredTasks := filtered;
            groupedTasks := grouped;
            sortedGroupKeys :=
              Array_sort (compareGroupKeys (option_map groupBy state))
                         (Object_keys grouped) |}).
End Component.

End TaskList.

(* ===================================================================== *)
(** * components/tambo/linear-issue-list.tsx *)
(* ===================================================================== *)

Module LinearIssueList.
Import JS.

Record Named : Type := {
  name : string;
  decoration : option string      (* [avatarUrl] or [color] *)
}.

Record LinearIssueProps : Type := {
  id : string;
  identifier : string;
  title : string;
  description : option string;
  status : string;
  priority : string;
  assignee : option Named;
  project : option Named;
  labels : option (list Named);
  createdAt : string;
  updatedAt : string;
  dueDate : option string;
  estimate : option Z
}.

(** [x?.name || fallback] *)
Definition nameOr (x : option Named) (fallback : string) : string :=
  match x with
  | Some n => if truthy (name n) then name n else fallback
  | None => fallback
  end.

(** The [switch] on [groupBy]. *)
Definition groupKey (groupBy : string) (issue : LinearIssueProps) : string :=
  if (groupBy =? "status")%string then status issue
  else if (groupBy =? "priority")%string then priority issue
  else if (groupBy =? "project")%string then nameOr (project issue) "No Project"
  else if (groupBy =? "assignee")%string then nameOr (assignee issue) "Unassigned"
  else "Other".

Definition groupIssues (issues : list LinearIssueProps) (groupBy : string)
  : completion (object (list LinearIssueProps)) :=
  if (groupBy =? "none")%string then Normal [("All Issues", issues)]
  else reduce (fun groups issue => pushInto groups (groupKey groupBy issue) issue)
              issues [].

End LinearIssueList.

(* ===================================================================== *)
(** * components/tambo/kanban-board.tsx *)
(* ===================================================================== *)

Module KanbanBoard.
Import JS.

Definition Task : Type := TaskList.Task.

Definition defaultColumns : list string :=
  ["To Do"; "In Progress"; "In Review"; "Done"].

Definition statusToColumn (status : string) : string :=
  if (status =? "todo")%string then "To Do"
  else if (status =? "in-progress")%string then "In Progress"
  else if (status =? "review")%string then "In Review"
  else if (status =? "done")%string then "Done"
  else "To Do".

Definition tasksByColumn (tasks : list Task)
  : completion (object (list Task)) :=
  reduce (fun acc task => pushInto acc (statusToColumn (TaskList.status task)) task)
         tasks [].

(** [tasksByColumn[column] || []]: a bucket, or the member of
    [Object.prototype] that the column name reads. *)
Inductive columnValue : Type :=
  | Bucket (tasks : list Task)
  | Member (name : string).

Definition columnTasks (byColumn : object (list Task)) (column : string)
  : columnValue :=
  match Get byColumn column with
  | Own bucket => Bucket bucket
  | Inherited m => Member m
  | Absent => Bucket []
  end.

(** The [length] of a member of [Object.prototype]: the arity of the
    function; [__proto__] reads the prototype object, which has none. *)
Definition memberLength (m : string) : value :=
  if (m =? "__proto__")%string then VUndefined
  else if existsb (String.eqb m) ["toString"; "valueOf"; "toLocaleString"]
       then VNumber (NInt 0)
  else if existsb (String.eqb m) ["__defineGetter__"; "__defineSetter__"]
       then VNumber (NInt 2)
  else VNumber (NInt 1).

(** [columnTasks.length] *)
Definition columnLength (c : columnValue) : value :=
  match c with
  | Bucket l => VNumber (NInt (Z.of_nat (List.length l)))
  | Member m => memberLength m
  end.

(** One rendered column: its name, the count in its header and the cards
    in its body.  The body maps over [columnTasks] unless its length is 0. *)
Record Column : Type := {
  columnName : string;
  count : value;
  cards : list Task
}.

Definition renderColumn (byColumn : object (list Task)) (column : string)
  : completion Column :=
  let c := columnTasks byColumn column in
  match c with
  | Bucket l =>
      Normal {| columnName := column; count := columnLength c; cards := l |}
  | Member m =>
      match columnLength c with
      | VNumber (NInt 0) =>
          Normal {| columnName := column; count := columnLength c; cards := [] |}
      | _ => Throw (TypeError "columnTasks.map is not a function")
      end
  end.

(** [columns.map(...)] with a callback that may throw. *)
Fixpoint mapM {T U : Type} (f : T -> completion U) (l : list T)
  : completion (list U) :=
  match l with
  | [] => Normal []
  | x :: l' => bind (f x) (fun y => bind (mapM f l') (fun ys => Normal (y :: ys)))
  end.

(** The board: [columns] is the prop, [defaultColumns] when it is not
    given. *)
Definition KanbanBoard (tasks : list Task) (columns : option (list string))
  : completion (list Column) :=
  let cols := match columns with Some c => c | None => defaultColumns end in
  bind (tasksByColumn tasks) (fun byColumn => mapM (renderColumn byColumn) cols).

End KanbanBoard.

(* ===================================================================== *)
(** * services/project-management.ts: the types, the dates and the initial
      contents of the store *)
(* ===================================================================== *)

Module ProjectManagement.
Import JS.

Inductive Status : Type := todo | in_progress | review | done.
Inductive Priority : Type := low | medium | high | critical.

Record Task : Type := {
  id : string;
  title : string;
  description : option string;
  status : Status;
  priority : Priority;
  assignee : option string;
  dueDate : option string;
  createdDate : string;
  updatedDate : string;
  project : string;
  tags : option (list string);
  estimatedHours : option Z;
  actualHours : option Z
}.

Inductive SortBy : Type := byDueDate | byPriority | byCreatedDate.
Inductive SortOrder : Type := asc | desc.

Record Filters : Type := {
  forStatus : option Status;
  forPriority : option Priority;
  forAssignee : option string;
  forProject : option string;
  overdue : option bool;
  sortBy : option SortBy;
  sortOrder : option SortOrder
}.

(** ** Dates

    [new Date(s)] parses [s] as [Date.parse] does; the time value is a
    number of milliseconds since the epoch, or NaN.  ECMAScript fixes the
    result for the strings of the Date Time String Format that carry a UTC
    offset or no time, and leaves to the host the time zone of the other
    strings of the format and the reading of every string outside it.  The
    functions that read dates therefore take the parser of the host as a
    parameter.  [Date_parse_UTC] below is the parser of one host: its time
    zone is UTC and it reads the Date Time String Format and nothing
    else.  It runs the examples. *)

Fixpoint readDigits (n : nat) (s : string) (acc : Z) : option (Z * string) :=
  match n with
  | O => Some (acc, s)
  | S n' =>
      match s with
      | EmptyString => None
      | String c s' =>
          match digitOf 10 c with
          | Some d => readDigits n' s' (10 * acc + d)%Z
          | None => None
          end
      end
  end.

Definition expect (c : ascii) (s : string) : option string :=
  match s with
  | String c' s' => if Ascii.eqb c c' then Some s' else None
  | EmptyString => None
  end.

Definition isLeap (y : Z) : bool :=
  ((y mod 4 =? 0) && negb (y mod 100 =? 0) || (y mod 400 =? 0))%Z.

Definition daysInMonth (y m : Z) : Z :=
  if (m =? 2)%Z then (if isLeap y then 29 else 28)%Z
  else if ((m =? 4) || (m =? 6) || (m =? 9) || (m =? 11))%Z then 30%Z
  else 31%Z.

(** Days from 1970-01-01 to the given day of the proleptic Gregorian
    calendar. *)
Definition daysFromCivil (y m d : Z) : Z :=
  let y' := (if m <=? 2 then y - 1 else y)%Z in
  let era := (y' / 400)%Z in
  let yoe := (y' - era * 400)%Z in
  let mp := (if 2 <? m then m - 3 else m + 9)%Z in
  let doy := ((153 * mp + 2) / 5 + d - 1)%Z in
  let doe := (yoe * 365 + yoe / 4 - yoe / 100 + doy)%Z in
  (era * 146097 + doe - 719468)%Z.

Definition optBind {A B : Type} (x : option A) (k : A -> option B) : option B :=
  match x with
  | Some a => k a
  | None => None
  end.

(** A field that may be left out: the separator and [n] digits, or
    nothing. *)
Definition optionalField (separator : ascii) (n : nat) (s : string)
  : option (option Z * string) :=
  match s with
  | String c s' =>
      if Ascii.eqb c separator
      then optBind (readDigits n s' 0) (fun '(v, rest) => Some (Some v, rest))
      else Some (None, s)
  | EmptyString => Some (None, s)
  end.

Definition orDefault (x : option Z) (default : Z) : Z :=
  match x with
  | Some v => v
  | None => default
  end.

(** [YYYY] or the expanded year [+YYYYYY], [-YYYYYY]; -000000 is not a
    year. *)
Definition parseYear (s : string) : option (Z * string) :=
  match s with
  | String c s' =>
      if Ascii.eqb c "+" then readDigits 6 s' 0
      else if Ascii.eqb c "-" then
        optBind (readDigits 6 s' 0) (fun '(y, rest) =>
        if (y =? 0)%Z then None else Some ((- y)%Z, rest))
      else readDigits 4 s 0
  | EmptyString => None
  end.

(** The date forms [YYYY], [YYYY-MM] and [YYYY-MM-DD]: the day number and
    what follows the date. *)
Definition parseDay (s : string) : option (Z * string) :=
  optBind (parseYear s) (fun '(y, s1) =>
  optBind (optionalField "-" 2 s1) (fun '(month, s2) =>
  optBind (match month with
           | Some _ => optionalField "-" 2 s2
           | None => Some (None, s2)
           end) (fun '(day, s3) =>
  let m := orDefault month 1 in
  let d := orDefault day 1 in
  if ((1 <=? m) && (m <=? 12) && (1 <=? d) && (d <=? daysInMonth y m))%Z
  then Some (daysFromCivil y m d, s3)
  else None))).

(** The UTC offset in minutes: none (local time, which is UTC on this
    host), [Z], [+HH:mm] or [-HH:mm]. *)
Definition parseOffset (s : string) : option Z :=
  match s with
  | EmptyString => Some 0%Z
  | "Z" => Some 0%Z
  | String c s' =>
      let sign := if Ascii.eqb c "+" then Some 1%Z
                  else if Ascii.eqb c "-" then Some (-1)%Z else None in
      optBind sign (fun sg =>
      optBind (readDigits 2 s' 0) (fun '(h, s1) =>
      optBind (expect ":" s1) (fun s2 =>
      optBind (readDigits 2 s2 0) (fun '(mi, s3) =>
      match s3 with
      | EmptyString =>
          if ((h <=? 23) && (mi <=? 59))%Z then Some (sg * (h * 60 + mi))%Z
          else None
      | _ => None
      end))))
  end.

(** The time forms [THH:mm], [THH:mm:ss] and [THH:mm:ss.sss] with their
    offset: the milliseconds to add to the day. *)
Definition parseClock (s : string) : option Z :=
  optBind (expect "T" s) (fun s1 =>
  optBind (readDigits 2 s1 0) (fun '(h, s2) =>
  optBind (expect ":" s2) (fun s3 =>
  optBind (readDigits 2 s3 0) (fun '(mi, s4) =>
  optBind (optionalField ":" 2 s4) (fun '(seconds, s5) =>
  optBind (match seconds with
           | Some _ => optionalField "." 3 s5
           | None => Some (None, s5)
           end) (fun '(millis, s6) =>
  optBind (parseOffset s6) (fun offset =>
  let sec := orDefault seconds 0 in
  let ms := orDefault millis 0 in
  if ((h <=? 23) && (mi <=? 59) && (sec <=? 59)
      || (h =? 24) && (mi =? 0) && (sec =? 0) && (ms =? 0))%Z
  then Some (h * 3600000 + mi * 60000 + sec * 1000 + ms - offset * 60000)%Z
  else None))))))).

(** TimeClip *)
Definition TimeClip (t : Z) : number :=
  if (Z.abs t <=? 8640000000000000)%Z then ofZ t else NaN.

(** The time value of [new Date(s)] on the host described above. *)
Definition Date_parse_UTC (s : string) : number :=
  match parseDay s with
  | Some (days, EmptyString) => TimeClip (days * 86400000)
  | Some (days, rest) =>
      match parseClock rest with
      | Some ms => TimeClip (days * 86400000 + ms)
      | None => NaN
      end
  | None => NaN
  end.

(** [priorityOrder[p]] *)
Definition priorityOrder (p : Priority) : Z :=
  match p with
  | low => 1 | medium => 2 | high => 3 | critical => 4
  end.

Definition Status_eqb (a b : Status) : bool :=
  match a, b with
  | todo, todo | in_progress, in_progress | review, review | done, done => true
  | _, _ => false
  end.

Definition Priority_eqb (a b : Priority) : bool :=
  match a, b with
  | low, low | medium, medium | high, high | critical, critical => true
  | _, _ => false
  end.

(** [x === s] for an optional string [x] and a string [s]. *)
Definition isString (x : option string) (s : string) : bool :=
  match x with
  | Some s' => (s' =? s)%string
  | None => false
  end.

(** The initial contents of the store. *)
Definition mkTask (id title : string) (description : option string)
  (status : Status) (priority : Priority) (assignee : string)
  (dueDate : option string) (createdDate updatedDate project : string)
  (tags : list string) (estimatedHours : Z) (actualHours : option Z) : Task :=
  {| id := id; title := title; description := description; status := status;
     priority := priority; assignee := Some assignee; dueDate := dueDate;
     createdDate := createdDate; updatedDate := updatedDate;
     project := project; tags := Some tags;
     estimatedHours := Some estimatedHours; actualHours := actualHours |}.

Definition mockTasks : list Task :=
  [ mkTask "task-1" "Design homepage mockup"
      (Some "Create high-fidelity mockup for the new homepage")
      in_progress high "Alice Chen" (Some "2024-03-15") "2024-03-01"
      "2024-03-10" "Website Redesign" ["design"; "ui/ux"] 16 (Some 12%Z);
    mkTask "task-2" "Implement user authentication"
      (Some "Add login/signup functionality to the app")
      todo critical "Bob Smith" (Some "2024-03-20") "2024-03-05"
      "2024-03-05" "Mobile App Launch" ["backend"; "security"] 24 None;
    mkTask "task-3" "Write API documentation" None
      review medium "Carol Johnson" (Some "2024-03-18") "2024-03-02"
      "2024-03-12" "Website Redesign" ["documentation"] 8 (Some 6%Z);
    mkTask "task-4" "Database optimization"
      (Some "Optimize database queries for better performance")
      done medium "David Kim" (Some "2024-03-10") "2024-03-01"
      "2024-03-09" "Mobile App Launch" ["backend"; "performance"] 12
      (Some 10%Z);
    mkTask "task-5" "User testing session" None
      todo low "Eva Martinez" (Some "2024-03-25") "2024-03-08"
      "2024-03-08" "Website Redesign" ["testing"; "research"] 6 None ].

End ProjectManagement.

(* ===================================================================== *)
(** * Vocabulary of the statements and sample inputs *)
(* ===================================================================== *)

Module Samples.
Import JS.

Definition numeric_eqb (a b : numeric) : bool :=
  match a, b with
  | NNaN, NNaN => true
  | NInt x, NInt y => (x =? y)%Z
  | NInfinity s, NInfinity t => Bool.eqb s t
  | _, _ => false
  end.

(** The two cells hold the same value. *)
Definition value_eqb (a b : value) : bool :=
  match a, b with
  | VUndefined, VUndefined | VNull, VNull => true
  | VBoolean x, VBoolean y => Bool.eqb x y
  | VNumber x, VNumber y => numeric_eqb x y
  | VString x, VString y => (x =? y)%string
  | _, _ => false
  end.

(** The record has no value for the field: the cell is [null] or
    [undefined]. *)
Definition missing (k : string) (row : DataTable.DataTableRow) : bool :=
  isNullish (DataTable.field row k).



(** The sort configuration after a click on the header of column [k]:
    the key with a direction. *)
Definition sortedOn (k : string) (d : DataTable.SortDirection)
  : option DataTable.SortConfig :=
  Some {| DataTable.sortKey := k; DataTable.direction := Some d |}.

(** A column descriptor with its key only. *)
Definition column (k : string) : DataTable.DataTableColumn :=
  {| DataTable.key := k; DataTable.label := k; DataTable.sortable := None;
     DataTable.filterable := None; DataTable.format := None;
     DataTable.width := None |}.



Definition num (z : Z) : value := VNumber (NInt z).


(** [[{id:1, p:"low"}, {id:2, p:"low"}, {id:3, p:"high"}]] *)
Definition priorityRows : list DataTable.DataTableRow :=
  [ [("id", num 1); ("p", VString "low")];
    [("id", num 2); ("p", VString "low")];
    [("id", num 3); ("p", VString "high")] ].


(** [[{name:"Alice", city:"Paris"}, {name:"Bob", city:"Rome"},
     {name:"Alma", city:"Rome"}]] *)
Definition people : list DataTable.DataTableRow :=
  [ [("name", VString "Alice"); ("city", VString "Paris")];
    [("name", VString "Bob"); ("city", VString "Rome")];
    [("name", VString "Alma"); ("city", VString "Rome")] ].

(** The bucket that [groups] holds under [k], empty if it holds none. *)
Definition bucket {T : Type} (groups : object (list T)) (k : string) : list T :=
  match getOwn groups k with
  | Some b => b
  | None => []
  end.

(** What one step of a grouping reduction does when it does not throw: the
    element goes to the end of its bucket, a new bucket going to the end
    of the object. *)
Definition pushed {T : Type} (groups : object (list T)) (k : string) (x : T)
  : object (list T) :=
  match getOwn groups k with
  | Some _ => update groups k (fun b => b ++ [x])
  | None => groups ++ [(k, [x])]
  end.

(** All the records of all the buckets. *)
Definition allBuckets {T : Type} (groups : object (list T)) : list T :=
  List.concat (map snd groups).

(** The label under which the task list groups a task. *)
Definition taskLabel (g : TaskList.GroupBy) (task : TaskList.Task) : string :=
  TaskList.orElse (TaskList.groupField task g) "Uncategorized".

(** A task as the task list and the board receive it. *)
Definition boardTask (id title status priority project : string)
  : TaskList.Task :=
  {| TaskList.id := id; TaskList.title := title; TaskList.description := None;
     TaskList.status := status; TaskList.priority := priority;
     TaskList.assignee := None; TaskList.dueDate := None;
     TaskList.createdDate := "2024-03-01"; TaskList.updatedDate := "2024-03-10";
     TaskList.project := project; TaskList.tags := None;
     TaskList.estimatedHours := None; TaskList.actualHours := None |}.

(** The five tasks of the mock store: their ids, titles, statuses,
    priorities and projects, the optional fields left out. *)
Definition fiveTasks : list TaskList.Task :=
  [ boardTask "task-1" "Design homepage mockup" "in-progress" "high"
      "Website Redesign";
    boardTask "task-2" "Implement user authentication" "todo" "critical"
      "Mobile App Launch";
    boardTask "task-3" "Write API documentation" "review" "medium"
      "Website Redesign";
    boardTask "task-4" "Database optimization" "done" "medium"
      "Mobile App Launch";
    boardTask "task-5" "User testing session" "todo" "low"
      "Website Redesign" ].

Definition groupedBy (g : TaskList.GroupBy) : option TaskList.TaskListState :=
  Some {| TaskList.searchQuery := ""; TaskList.viewMode := TaskList.grid;
          TaskList.groupBy := g; TaskList.selectedTaskIds := [] |}.

(** A task of a project that is named "constructor". *)
Definition constructorTask : TaskList.Task :=
  boardTask "task-6" "Write the constructor" "todo" "low" "constructor".

(** The tasks of the board that belong to a column. *)
Definition inColumn (column : string) (tasks : list TaskList.Task)
  : list TaskList.Task :=
  filter (fun t => (KanbanBoard.statusToColumn (TaskList.status t) =? column)%string)
         tasks.

Definition shownColumn (column : string) (tasks : list TaskList.Task)
  : KanbanBoard.Column :=
  {| KanbanBoard.columnName := column;
     KanbanBoard.count :=
       VNumber (NInt (Z.of_nat (List.length (inColumn column tasks))));
     KanbanBoard.cards := inColumn column tasks |}.

(** An issue whose status is named "constructor". *)
Definition constructorIssue : LinearIssueList.LinearIssueProps :=
  {| LinearIssueList.id := "i-1"; LinearIssueList.identifier := "ENG-1";
     LinearIssueList.title := "Rename the constructor";
     LinearIssueList.description := None;
     LinearIssueList.status := "constructor";
     LinearIssueList.priority := "low";
     LinearIssueList.assignee := None; LinearIssueList.project := None;
     LinearIssueList.labels := None;
     LinearIssueList.createdAt := "2024-03-01";
     LinearIssueList.updatedAt := "2024-03-02";
     LinearIssueList.dueDate := None; LinearIssueList.estimate := None |}.

(** The rank by which the task list orders a priority key: the number that
    [getPriorityOrder] returns. *)
Definition shownPriorityRank (k : string) : Z :=
  match TaskList.getPriorityOrder k with
  | TaskList.RankNumber n => n
  | TaskList.RankMember _ => 0%Z
  end.

End Samples.

(* ===================================================================== *)
(** * The rest of components/tambo/data-table.tsx: the state handlers *)
(* ===================================================================== *)

Module DataTableState.
Import JS.


(** [{...o, [k]: v}]: the value of an own property is replaced where it
    is, a new property comes last. *)
Fixpoint setProperty {V : Type} (o : object V) (k : string) (v : V) : object V :=
  match o with
  | [] => [(k, v)]
  | (k', v') :: o' =>
      if (k' =? k)%string then (k, v) :: o' else (k', v') :: setProperty o' k v
  end.

(** [handleFilter(key, value)]: the state update of [filters]. *)
Definition handleFilter (prev : object string) (k value : string)
  : object string :=
  setProperty prev k value.

(** The state of the component. *)
Record State : Type := {
  sortConfig : option DataTable.SortConfig;
  filters : object string;
  searchTerm : string
}.

(** The state of a table that has just been mounted. *)
Definition initial : State :=
  {| sortConfig := None; filters := []; searchTerm := "" |}.

(** The rows of the table body: [filteredData], computed from
    [sortedData]. *)
Definition rows (data : list DataTable.DataTableRow)
  (columns : list DataTable.DataTableColumn) (st : State)
  : list DataTable.DataTableRow :=
  DataTable.filteredData (DataTable.sortedData data (sortConfig st))
                         (filters st) (searchTerm st) columns.

End DataTableState.

(* ===================================================================== *)
(** * components/tambo/task-card.tsx *)
(* ===================================================================== *)

Module TaskCard.
Import JS.

Section Host.
(** The parser of the host: the time value of [new Date(s)]. *)
Variable Date_parse : string -> number.

(** [isOverdue(dueDate, status)], with [now] the time value of
    [new Date()]. *)
Definition isOverdue (dueDate status : option string) (now : Z) : bool :=
  match dueDate with
  | None => false
  | Some d =>
      if negb (truthy d) || ProjectManagement.isString status "done" then false
      else number_lt (Date_parse d) (ofZ now)
  end.
End Host.

End TaskCard.

(* ===================================================================== *)
(** * The rest of components/tambo/linear-issue-list.tsx: the component *)
(* ===================================================================== *)

Module LinearIssueListView.
Import JS.

(** [l.slice(0, end)] for an integer [end]: a negative [end] counts from
    the end of the array. *)
Definition slice0 {A : Type} (l : list A) (end_ : Z) : list A :=
  let len := Z.of_nat (List.length l) in
  let final := if (end_ <? 0)%Z then Z.max (len + end_) 0 else Z.min end_ len in
  firstn (Z.to_nat final) l.

(** [maxItems ? issues.slice(0, maxItems) : issues]; the prop is optional,
    and the model takes the integers among the numbers. *)
Definition displayIssues {A : Type} (issues : list A) (maxItems : option Z)
  : list A :=
  match maxItems with
  | Some m => if (m =? 0)%Z then issues else slice0 issues m
  | None => issues
  end.

(** What [{maxItems && issues.length > maxItems && (...)}] renders:
    nothing for [undefined] and [false], the text 0 for the number 0, and
    the line "Showing m of n issues". *)
Inductive indicator : Type :=
  | NoIndicator
  | TextZero
  | ShowingOf (shown total : Z).

Definition showMore {A : Type} (issues : list A) (maxItems : option Z)
  : indicator :=
  match maxItems with
  | None => NoIndicator
  | Some m =>
      if (m =? 0)%Z then TextZero
      else if (m <? Z.of_nat (List.length issues))%Z
           then ShowingOf m (Z.of_nat (List.length issues))
           else NoIndicator
  end.

(** The list: the issues one after the other when [groupBy] is "none",
    and otherwise the groups in the order of [Object.keys], each with its
    issues. *)
Inductive listing : Type :=
  | SimpleList (issues : list LinearIssueList.LinearIssueProps)
  | Groups (groups : list (string * list LinearIssueList.LinearIssueProps)).

Record View : Type := {
  body : listing;
  more : indicator
}.

(** The component; [groupBy] defaults to "none". *)
Definition LinearIssueList (issues : list LinearIssueList.LinearIssueProps)
  (groupBy : option string) (maxItems : option Z) : completion View :=
  let g := match groupBy with Some g => g | None => "none" end in
  let shown := displayIssues issues maxItems in
  bind (LinearIssueList.groupIssues shown g) (fun groupedIssues =>
  Normal {| body :=
              if (g =? "none")%string then SimpleList shown
              else Groups (map (fun k => (k, Samples.bucket groupedIssues k))
                               (Object_keys groupedIssues));
            more := showMore issues maxItems |}).

End LinearIssueListView.

(* ===================================================================== *)
(** * services/project-management.ts: the store at run time, with
      [getTasks], [updateTaskStatus] and [createTask], and the tool of
      lib/tambo.ts that updates it *)
(* ===================================================================== *)

Module TaskStore.
Import JS.

(** A task as the store holds it at run time.  The interface [Task]
    declares a status and a priority for every task; the tools pass
    [undefined] for the ones they were not given, and the store keeps what
    it is passed. *)
Record StoredTask : Type := {
  id : string;
  title : string;
  description : option string;
  status : option ProjectManagement.Status;
  priority : option ProjectManagement.Priority;
  assignee : option string;
  dueDate : option string;
  createdDate : string;
  updatedDate : string;
  project : string;
  tags : option (list string);
  estimatedHours : option Z;
  actualHours : option Z
}.

(** A task of the declared interface, in the store. *)
Definition ofTask (t : ProjectManagement.Task) : StoredTask :=
  {| id := ProjectManagement.id t;
     title := ProjectManagement.title t;
     description := ProjectManagement.description t;
     status := Some (ProjectManagement.status t);
     priority := Some (ProjectManagement.priority t);
     assignee := ProjectManagement.assignee t;
     dueDate := ProjectManagement.dueDate t;
     createdDate := ProjectManagement.createdDate t;
     updatedDate := ProjectManagement.updatedDate t;
     project := ProjectManagement.project t;
     tags := ProjectManagement.tags t;
     estimatedHours := ProjectManagement.estimatedHours t;
     actualHours := ProjectManagement.actualHours t |}.

(** ** [getTasks] *)

Section Host.
(** The parser of the host: the time value of [new Date(s)]. *)
Variable Date_parse : string -> number.

(** [d ? new Date(d) : new Date(0)], as a time value. *)
Definition dateOrEpoch (d : option string) : number :=
  match d with
  | Some s => if truthy s then Date_parse s else ofZ 0
  | None => ofZ 0
  end.

(** [aValue] and [bValue] of the comparator, as the numbers that [<] and
    [>] compare: the time value of the date, or the rank
    [priorityOrder[a.priority]], which is [undefined], and compares as
    NaN, for a task without a priority.  The last branch of the source,
    for any other key, is not reachable with the declared type of
    [sortBy]. *)
Definition sortValue (by_ : ProjectManagement.SortBy) (t : StoredTask)
  : number :=
  match by_ with
  | ProjectManagement.byPriority =>
      match priority t with
      | Some p => ofZ (ProjectManagement.priorityOrder p)
      | None => NaN
      end
  | ProjectManagement.byDueDate => dateOrEpoch (dueDate t)
  | ProjectManagement.byCreatedDate => dateOrEpoch (Some (createdDate t))
  end.

Definition compareTasks (by_ : ProjectManagement.SortBy)
  (o : option ProjectManagement.SortOrder) (a b : StoredTask) : Z :=
  let aValue := sortValue by_ a in
  let bValue := sortValue by_ b in
  let order := match o with
               | Some ProjectManagement.desc => (-1)%Z
               | _ => 1%Z
               end in
  if number_lt bValue aValue then order
  else if number_lt aValue bValue then (- order)%Z
  else 0%Z.

(** One [if (filters?.f) filteredTasks = filteredTasks.filter(...)]. *)
Definition narrow {F : Type} (f : option F) (active : F -> bool)
  (test : F -> StoredTask -> bool) (tasks : list StoredTask)
  : list StoredTask :=
  match f with
  | Some v => if active v then filter (test v) tasks else tasks
  | None => tasks
  end.

(** [task.status === s] *)
Definition hasStatus (task : StoredTask) (s : ProjectManagement.Status)
  : bool :=
  match status task with
  | Some s' => ProjectManagement.Status_eqb s' s
  | None => false
  end.

(** [task.priority === p] *)
Definition hasPriority (task : StoredTask) (p : ProjectManagement.Priority)
  : bool :=
  match priority task with
  | Some p' => ProjectManagement.Priority_eqb p' p
  | None => false
  end.

(** [getTasks(filters)], on the current contents [mockTasks] of the store
    and with [now] the time value of [new Date()]. *)
Definition getTasks (mockTasks : list StoredTask) (now : Z)
  (filters : option ProjectManagement.Filters) : list StoredTask :=
  match filters with
  | None => mockTasks
  | Some f =>
      let t1 := narrow (ProjectManagement.forStatus f) (fun _ => true)
                  (fun v task => hasStatus task v) mockTasks in
      let t2 := narrow (ProjectManagement.forPriority f) (fun _ => true)
                  (fun v task => hasPriority task v) t1 in
      let t3 := narrow (ProjectManagement.forAssignee f) truthy
                  (fun v task => ProjectManagement.isString (assignee task) v)
                  t2 in
      let t4 := narrow (ProjectManagement.forProject f) truthy
                  (fun v task => (project task =? v)%string) t3 in
      let t5 := narrow (ProjectManagement.overdue f) (fun b => b)
                  (fun _ task =>
                     match dueDate task with
                     | Some d =>
                         truthy d
                         && number_lt (Date_parse d) (ofZ now)
                         && negb (hasStatus task ProjectManagement.done)
                     | None => false
                     end) t4 in
      match ProjectManagement.sortBy f with
      | Some by_ =>
          Array_sort (compareTasks by_ (ProjectManagement.sortOrder f)) t5
      | None => t5
      end
  end.
End Host.

(** ** [updateTaskStatus] and [createTask] *)

(** One key of the object [updates]: not there, or there with a value
    that may be [undefined]. *)
Inductive entry (A : Type) : Type :=
  | Omitted
  | Given (v : option A).

Arguments Omitted {A}.
Arguments Given {A} v.

Record Updates : Type := {
  newStatus : entry ProjectManagement.Status;
  newPriority : entry ProjectManagement.Priority;
  newAssignee : entry string;
  newDueDate : entry string
}.

(** What the spread [{...old, ...updates}] leaves under one key. *)
Definition spread {A : Type} (old : option A) (e : entry A) : option A :=
  match e with
  | Omitted => old
  | Given v => v
  end.

(** [{...task, ...updates, updatedDate: now}] *)
Definition updated (task : StoredTask) (updates : Updates) (now : string)
  : StoredTask :=
  {| id := id task;
     title := title task;
     description := description task;
     status := spread (status task) (newStatus updates);
     priority := spread (priority task) (newPriority updates);
     assignee := spread (assignee task) (newAssignee updates);
     dueDate := spread (dueDate task) (newDueDate updates);
     createdDate := createdDate task;
     updatedDate := now;
     project := project task;
     tags := tags task;
     estimatedHours := estimatedHours task;
     actualHours := actualHours task |}.

(** [Array.prototype.findIndex]: the index of the first element that
    passes the test, or -1. *)
Fixpoint findIndexFrom {A : Type} (test : A -> bool) (l : list A) (i : Z) : Z :=
  match l with
  | [] => (-1)%Z
  | x :: l' => if test x then i else findIndexFrom test l' (i + 1)%Z
  end.

Definition findIndex {A : Type} (test : A -> bool) (l : list A) : Z :=
  findIndexFrom test l 0%Z.

(** [l[i] = x] for an index of the array. *)
Fixpoint assignAt {A : Type} (l : list A) (i : nat) (x : A) : list A :=
  match l, i with
  | [], _ => []
  | _ :: l', O => x :: l'
  | y :: l', S i' => y :: assignAt l' i' x
  end.

(** How the promise of an async function settles. *)
Inductive settled (A : Type) : Type :=
  | Fulfilled (a : A)
  | Rejected (message : string).

Arguments Fulfilled {A} a.
Arguments Rejected {A} message.

(** [updateTaskStatus(taskId, updates)] on the contents [mockTasks] of the
    store, with [now] the text of [new Date().toISOString()]: how the
    promise settles, and the contents of the store afterwards. *)
Definition updateTaskStatus (mockTasks : list StoredTask) (taskId : string)
  (updates : Updates) (now : string)
  : settled StoredTask * list StoredTask :=
  let taskIndex := findIndex (fun task => (id task =? taskId)%string) mockTasks in
  if (taskIndex =? -1)%Z then
    (Rejected ("Task with ID " ++ taskId ++ " not found"), mockTasks)
  else
    match nth_error mockTasks (Z.to_nat taskIndex) with
    | Some task =>
        (Fulfilled (updated task updates now),
         assignAt mockTasks (Z.to_nat taskIndex) (updated task updates now))
    | None =>
        (* not reached: [findIndex] returns -1 or an index of the array *)
        (Rejected ("Task with ID " ++ taskId ++ " not found"), mockTasks)
    end.

(** The argument of the tool "updateTaskStatus", as its input schema lets
    it through. *)
Record UpdateParams : Type := {
  taskId : string;
  toStatus : option ProjectManagement.Status;
  toPriority : option ProjectManagement.Priority;
  toAssignee : option string;
  toDueDate : option string
}.

(** The tool: it calls [updateTaskStatus] with an object that has all four
    keys, each with the parameter or [undefined]. *)
Definition updateTaskStatusTool (mockTasks : list StoredTask)
  (params : UpdateParams) (now : string)
  : settled StoredTask * list StoredTask :=
  updateTaskStatus mockTasks (taskId params)
    {| newStatus := Given (toStatus params);
       newPriority := Given (toPriority params);
       newAssignee := Given (toAssignee params);
       newDueDate := Given (toDueDate params) |}
    now.

(** The argument of [createTask]: a task without [id], [createdDate] and
    [updatedDate].  The schema of the tool "createTask" makes the status
    and the priority optional. *)
Record TaskData : Type := {
  withTitle : string;
  withDescription : option string;
  withStatus : option ProjectManagement.Status;
  withPriority : option ProjectManagement.Priority;
  withAssignee : option string;
  withDueDate : option string;
  withProject : string;
  withTags : option (list string);
  withEstimatedHours : option Z;
  withActualHours : option Z
}.

(** The three readings of the clock in [createTask]: [Date.now()] and
    twice [new Date().toISOString()]. *)
Record Clock : Type := {
  nowMs : Z;
  createdAt : string;
  updatedAt : string
}.

(** [createTask(taskData)]: the new task, and the contents of the store
    afterwards. *)
Definition createTask (mockTasks : list StoredTask) (taskData : TaskData)
  (clock : Clock) : StoredTask * list StoredTask :=
  let newTask :=
    {| id := "task-" ++ Number_toString (NInt (nowMs clock));
       title := withTitle taskData;
       description := withDescription taskData;
       status := withStatus taskData;
       priority := withPriority taskData;
       assignee := withAssignee taskData;
       dueDate := withDueDate taskData;
       createdDate := createdAt clock;
       updatedDate := updatedAt clock;
       project := withProject taskData;
       tags := withTags taskData;
       estimatedHours := withEstimatedHours taskData;
       actualHours := withActualHours taskData |} in
  (newTask, mockTasks ++ [newTask]).

End TaskStore.

(* ===================================================================== *)
(** * components/tambo/insight-card.tsx: the list of insights *)
(* ===================================================================== *)

Module InsightList.
Import JS.

Inductive Impact : Type := high | medium | low.

(** The data of one card.  The confidence is a number; the finite ones are
    taken as the rationals they denote, on which [b - a] has the sign of
    the difference of the two floating-point numbers. *)
Record InsightCardData : Type := {
  title : string;
  description : string;
  type : string;
  confidence : number;
  impact : Impact;
  actionable : bool;
  suggestedActions : option (list string);
  relatedMetrics : option (list string)
}.

Inductive SortBy : Type := byConfidence | byImpact | byType.

(** [impactOrder[i]] *)
Definition impactOrder (i : Impact) : Z :=
  match i with
  | high => 3 | medium => 2 | low => 1
  end.

Section Component.
(** [a.localeCompare(b)], which depends on the locale of the host. *)
Variable localeCompare : string -> string -> Z.

(** The comparator of the sort. *)
Definition compareInsights (sortBy : SortBy) (a b : InsightCardData) : Z :=
  match sortBy with
  | byConfidence => SortCompare (number_sub (confidence b) (confidence a))
  | byImpact =>
      SortCompare (number_sub (ofZ (impactOrder (impact b)))
                              (ofZ (impactOrder (impact a))))
  | byType => localeCompare (type a) (type b)
  end.

(** [sortedInsights]; [sortBy] defaults to 'confidence', and [maxItems] is
    read as in the issue list. *)
Definition sortedInsights (insights : list InsightCardData)
  (sortBy : option SortBy) (maxItems : option Z) : list InsightCardData :=
  let by_ := match sortBy with Some s => s | None => byConfidence end in
  let sorted := Array_sort (compareInsights by_) insights in
  match maxItems with
  | Some m => if (m =? 0)%Z then sorted else LinearIssueListView.slice0 sorted m
  | None => sorted
  end.
End Component.

End InsightList.

(* ===================================================================== *)
(** * Vocabulary of the further statements *)
(* ===================================================================== *)

Module Notions.
Import JS.

Definition isText (v : value) : bool :=
  match v with
  | VString _ => true
  | _ => false
  end.

Definition isInteger (v : value) : bool :=
  match v with
  | VNumber (NInt _) => true
  | _ => false
  end.

(** Every record holds a value of the kind under [k], or none. *)
Definition columnOf (kind : value -> bool) (k : string)
  (data : list DataTable.DataTableRow) : bool :=
  forallb (fun r => Samples.missing k r || kind (DataTable.field r k)) data.

(** [a] may stand before [b] in a column sorted in direction [d]: [b]
    misses the field, or both have it and the value of [b] is not on the
    wrong side of the value of [a]. *)
Definition inDirection (d : DataTable.SortDirection) (k : string)
  (a b : DataTable.DataTableRow) : Prop :=
  Samples.missing k b = true
  \/ (Samples.missing k a = false /\ Samples.missing k b = false
      /\ match d with
         | DataTable.asc =>
             lessThan (DataTable.field b k) (DataTable.field a k) = false
         | DataTable.desc =>
             lessThan (DataTable.field a k) (DataTable.field b k) = false
         end).

(** The entries of the filters that are not under [k]. *)
Definition others (k : string) (filters : object string) : object string :=
  filter (fun entry => negb (fst entry =? k)%string) filters.

(** The keys in the order in which they first occur. *)
Definition firstOccurrences (keys : list string) : list string :=
  fold_left (fun seen k => if existsb (String.eqb k) seen then seen
                           else seen ++ [k])
            keys [].

(** Some label of the list is the name of a member of
    [Object.prototype]. *)
Definition someInherited {T : Type} (label : T -> string) (l : list T) : bool :=
  existsb (fun x => inherited (label x)) l.

(** A column name that makes the board throw: the name of a member of
    [Object.prototype] whose [length] is not 0. *)
Definition throwsAsColumn (column : string) : bool :=
  inherited column
  && negb (Samples.value_eqb (KanbanBoard.memberLength column)
                             (VNumber (NInt 0))).

(** The text of a status. *)
Definition statusName (s : ProjectManagement.Status) : string :=
  match s with
  | ProjectManagement.todo => "todo"
  | ProjectManagement.in_progress => "in-progress"
  | ProjectManagement.review => "review"
  | ProjectManagement.done => "done"
  end.

(** The task passes every filter that is given and truthy; for the filter
    [overdue] the test is the one of the task card. *)
Definition selects (Date_parse : string -> number) (now : Z)
  (f : ProjectManagement.Filters) (t : TaskStore.StoredTask) : bool :=
  match ProjectManagement.forStatus f with
  | Some v => TaskStore.hasStatus t v
  | None => true
  end
  && match ProjectManagement.forPriority f with
     | Some v => TaskStore.hasPriority t v
     | None => true
     end
  && match ProjectManagement.forAssignee f with
     | Some v => negb (truthy v)
                 || ProjectManagement.isString (TaskStore.assignee t) v
     | None => true
     end
  && match ProjectManagement.forProject f with
     | Some v => negb (truthy v) || (TaskStore.project t =? v)%string
     | None => true
     end
  && match ProjectManagement.overdue f with
     | Some true =>
         TaskCard.isOverdue Date_parse (TaskStore.dueDate t)
           (option_map statusName (TaskStore.status t)) now
     | _ => true
     end.

(** The order in which [getTasks] leaves two tasks: by the sort value,
    ascending unless the order is ["desc"]. *)
Definition inOrder (Date_parse : string -> number)
  (by_ : ProjectManagement.SortBy) (o : option ProjectManagement.SortOrder)
  (a b : TaskStore.StoredTask) : Prop :=
  match o with
  | Some ProjectManagement.desc =>
      number_lt (TaskStore.sortValue Date_parse by_ a)
                (TaskStore.sortValue Date_parse by_ b) = false
  | _ =>
      number_lt (TaskStore.sortValue Date_parse by_ b)
                (TaskStore.sortValue Date_parse by_ a) = false
  end.

(** Two numbers are the same value: both NaN, the same infinity, or equal
    rationals. *)
Definition sameValue (v w : number) : bool :=
  match v, w with
  | NaN, NaN | NegInfinity, NegInfinity | PosInfinity, PosInfinity => true
  | Finite p, Finite q => Qeq_bool p q
  | _, _ => false
  end.

(** The insights of one impact. *)
Definition ofImpact (i : InsightList.Impact) (c : InsightList.InsightCardData)
  : bool :=
  match i, InsightList.impact c with
  | InsightList.high, InsightList.high
  | InsightList.medium, InsightList.medium
  | InsightList.low, InsightList.low => true
  | _, _ => false
  end.

(** The key is an array index. *)
Definition isArrayIndex (k : string) : bool :=
  match arrayIndex k with
  | Some _ => true
  | None => false
  end.

Definition indexValue (k : string) : Z :=
  match arrayIndex k with
  | Some i => i
  | None => 0%Z
  end.

(** [keys] lists each of the labels once: first the labels that are array
    indices, in ascending order, then the other labels in the order in
    which they first occur. *)
Definition keysInOrder (labels keys : list string) : Prop :=
  exists indices,
    keys = indices
           ++ firstOccurrences (filter (fun k => negb (isArrayIndex k)) labels)
    /\ Permutation indices (firstOccurrences (filter isArrayIndex labels))
    /\ StronglySorted (fun a b => (indexValue a <= indexValue b)%Z) indices.

(** The comparator sends [x] before [y]: every sort reads the result of
    the comparator through this test. *)
Definition below {A : Type} (comparefn : A -> A -> Z) (x y : A) : Prop :=
  (comparefn x y < 0)%Z.

(** On the elements of [l] the test is a strict weak order: no element is
    before itself, and both "before" and "not before" are transitive. *)
Definition strictWeakOrder {A : Type} (comparefn : A -> A -> Z) (l : list A)
  : Prop :=
  (forall x, In x l -> ~ below comparefn x x)
  /\ (forall x y z, In x l -> In y l -> In z l ->
                    below comparefn x y -> below comparefn y z ->
                    below comparefn x z)
  /\ (forall x y z, In x l -> In y l -> In z l ->
                    ~ below comparefn x y -> ~ below comparefn y z ->
                    ~ below comparefn x z).

End Notions.

(* ===================================================================== *)
(** * Further sample inputs *)
(* ===================================================================== *)

Module Instances.
Import JS.

(** The overdue tasks of one project, with an empty assignee filter. *)
Definition overdueInRedesign : ProjectManagement.Filters :=
  {| ProjectManagement.forStatus := None;
     ProjectManagement.forPriority := None;
     ProjectManagement.forAssignee := Some "";
     ProjectManagement.forProject := Some "Website Redesign";
     ProjectManagement.overdue := Some true;
     ProjectManagement.sortBy := None;
     ProjectManagement.sortOrder := None |}.

Definition byPriorityDescending : ProjectManagement.Filters :=
  {| ProjectManagement.forStatus := None;
     ProjectManagement.forPriority := None;
     ProjectManagement.forAssignee := None;
     ProjectManagement.forProject := None;
     ProjectManagement.overdue := None;
     ProjectManagement.sortBy := Some ProjectManagement.byPriority;
     ProjectManagement.sortOrder := Some ProjectManagement.desc |}.


(** The store with its initial contents. *)
Definition store : list TaskStore.StoredTask :=
  map TaskStore.ofTask ProjectManagement.mockTasks.



(** The tool called with a task id and a status, and nothing else. *)
Definition markDone : TaskStore.UpdateParams :=
  {| TaskStore.taskId := "task-1";
     TaskStore.toStatus := Some ProjectManagement.done;
     TaskStore.toPriority := None;
     TaskStore.toAssignee := None;
     TaskStore.toDueDate := None |}.

Definition reassign : TaskStore.Updates :=
  {| TaskStore.newStatus := TaskStore.Omitted;
     TaskStore.newPriority := TaskStore.Omitted;
     TaskStore.newAssignee := TaskStore.Given (Some "Bob Smith");
     TaskStore.newDueDate := TaskStore.Omitted |}.



Definition insight (title : string) (confidence : Q)
  (impact : InsightList.Impact) : InsightList.InsightCardData :=
  {| InsightList.title := title;
     InsightList.description := "";
     InsightList.type := "trend";
     InsightList.confidence := Finite confidence;
     InsightList.impact := impact;
     InsightList.actionable := false;
     InsightList.suggestedActions := None;
     InsightList.relatedMetrics := None |}.

Definition insights : list InsightList.InsightCardData :=
  [ insight "churn" (7 # 10) InsightList.low;
    insight "signups" (9 # 10) InsightList.medium;
    insight "latency" (7 # 10) InsightList.high;
    insight "revenue" (8 # 10) InsightList.medium ].

(** Tasks of the projects "b", "10", "9" and "b". *)
Definition numberedProjects : list TaskList.Task :=
  [ Samples.boardTask "task-1" "Draft" "todo" "low" "b";
    Samples.boardTask "task-2" "Review" "todo" "low" "10";
    Samples.boardTask "task-3" "Ship" "todo" "low" "9";
    Samples.boardTask "task-4" "Announce" "todo" "low" "b" ].

Definition issueIn (id status : string) : LinearIssueList.LinearIssueProps :=
  {| LinearIssueList.id := id; LinearIssueList.identifier := id;
     LinearIssueList.title := "Triage";
     LinearIssueList.description := None;
     LinearIssueList.status := status;
     LinearIssueList.priority := "low";
     LinearIssueList.assignee := None; LinearIssueList.project := None;
     LinearIssueList.labels := None;
     LinearIssueList.createdAt := "2024-03-01";
     LinearIssueList.updatedAt := "2024-03-02";
     LinearIssueList.dueDate := None; LinearIssueList.estimate := None |}.

(** Issues of the statuses "b", "10", "9" and "0". *)
Definition numberedStatuses : list LinearIssueList.LinearIssueProps :=
  [ issueIn "i-1" "b"; issueIn "i-2" "10"; issueIn "i-3" "9";
    issueIn "i-4" "0" ].

End Instances.

(* ===================================================================== *)
(** * Facts about the JavaScript fragment *)
(* ===================================================================== *)

Import JS.

Section ArraySortFacts.
Context {A : Type}.
Variable comparefn : A -> A -> Z.

Lemma insertPivot_perm (x : A) (placed : list A) :
  Permutation (insertPivot comparefn x placed) (x :: placed).
Proof.
  induction placed as [|e rest IH]; simpl.
  - apply Permutation_refl.
  - destruct (comparefn x e <? 0)%Z.
    + apply perm_trans with (e :: x :: rest).
      * now apply perm_skip.
      * apply perm_swap.
    + apply Permutation_refl.
Qed.

Lemma sortInto_perm (l placed : list A) :
  Permutation (sortInto comparefn placed l) (l ++ placed).
Proof.
  revert placed.
  induction l as [|x l IH]; intros placed; simpl.
  - apply Permutation_refl.
  - unfold sortInto in *. simpl.
    eapply perm_trans; [apply IH|].
    eapply perm_trans.
    + apply Permutation_app_head. apply insertPivot_perm.
    + apply Permutation_sym, Permutation_middle.
Qed.

(** The sort returns the elements it was given. *)
Lemma Array_sort_perm (l : list A) : Permutation (Array_sort comparefn l) l.
Proof.
  unfold Array_sort.
  eapply perm_trans; [apply Permutation_sym, Permutation_rev|].
  rewrite <- (app_nil_r l) at 2.
  apply sortInto_perm.
Qed.

(** *** Stability: elements that never compare below one another keep
    their order. *)
Section Stable.
Variable sel : A -> bool.
Hypothesis sel_tied :
  forall x y, sel x = true -> sel y = true -> (0 <= comparefn x y)%Z.

Lemma insertPivot_filter (x : A) (placed : list A) :
  filter sel (insertPivot comparefn x placed) = filter sel (x :: placed).
Proof.
  induction placed as [|e rest IH]; [reflexivity|].
  simpl insertPivot.
  destruct (comparefn x e <? 0)%Z eqn:Hlt; [|reflexivity].
  apply Z.ltb_lt in Hlt.
  change (filter sel (e :: insertPivot comparefn x rest))
    with (if sel e then e :: filter sel (insertPivot comparefn x rest)
          else filter sel (insertPivot comparefn x rest)).
  rewrite IH. simpl.
  destruct (sel x) eqn:Hx, (sel e) eqn:He; try reflexivity.
  specialize (sel_tied x e Hx He). lia.
Qed.

Lemma sortInto_filter (l placed : list A) :
  filter sel (sortInto comparefn placed l)
  = rev (filter sel l) ++ filter sel placed.
Proof.
  revert placed.
  induction l as [|x l IH]; intros placed; [reflexivity|].
  unfold sortInto in *. simpl fold_left.
  rewrite IH, insertPivot_filter. simpl.
  destruct (sel x); simpl; [|reflexivity].
  now rewrite <- app_assoc.
Qed.

Lemma Array_sort_filter (l : list A) :
  filter sel (Array_sort comparefn l) = filter sel l.
Proof.
  unfold Array_sort.
  rewrite filter_rev, sortInto_filter. simpl.
  now rewrite app_nil_r, rev_involutive.
Qed.
End Stable.

(** *** Elements that the comparator always sends to the end *)
Section Last.
Variable last : A -> bool.
Hypothesis last_stays :
  forall x e, last x = true -> (comparefn x e <? 0)%Z = false.
Hypothesis others_pass :
  forall x e, last x = false -> last e = true ->
              (comparefn x e <? 0)%Z = true.




End Last.

(** *** Order: on elements among which the comparator follows a
    transitive relation, the result is in that order. *)
Section Ordered.
Variable ok : A -> Prop.
Variable le : A -> A -> Prop.
Hypothesis below : forall x e, ok x -> ok e ->
                               (comparefn x e < 0)%Z -> le x e.
Hypothesis not_below : forall x e, ok x -> ok e ->
                                   ~ (comparefn x e < 0)%Z -> le e x.
Hypothesis le_trans : forall x y z, ok x -> ok y -> ok z ->
                                    le x y -> le y z -> le x z.

Lemma insertPivot_ordered (x : A) (placed : list A) :
  ok x -> Forall ok placed ->
  StronglySorted (fun a b => le b a) placed ->
  StronglySorted (fun a b => le b a) (insertPivot comparefn x placed).
Proof.
  intros Hx Hok Hs.
  induction Hs as [|e rest Hs IH Hall]; simpl.
  - constructor; constructor.
  - inversion Hok as [|? ? He Hrest]; subst.
    destruct (comparefn x e <? 0)%Z eqn:Hlt.
    + apply Z.ltb_lt in Hlt.
      constructor; [now apply IH|].
      eapply Permutation_Forall.
      * apply Permutation_sym, insertPivot_perm.
      * constructor; [now apply below|assumption].
    + apply Z.ltb_ge in Hlt.
      assert (Hex : le e x) by (apply not_below; [assumption..|lia]).
      constructor; [now constructor|].
      constructor; [exact Hex|].
      rewrite Forall_forall in *.
      intros b Hb.
      apply le_trans with e; auto; now apply Hall.
Qed.

Lemma sortInto_ordered (l placed : list A) :
  Forall ok l -> Forall ok placed ->
  StronglySorted (fun a b => le b a) placed ->
  StronglySorted (fun a b => le b a) (sortInto comparefn placed l).
Proof.
  revert placed.
  induction l as [|x l IH]; intros placed Hl Hp Hs; [exact Hs|].
  inversion Hl; subst.
  unfold sortInto in *. simpl.
  apply IH; [assumption| |now apply insertPivot_ordered].
  eapply Permutation_Forall.
  - apply Permutation_sym, insertPivot_perm.
  - now constructor.
Qed.

Lemma StronglySorted_snoc (R : A -> A -> Prop) (l : list A) (x : A) :
  StronglySorted R l -> Forall (fun a => R a x) l ->
  StronglySorted R (l ++ [x]).
Proof.
  intros Hs. induction Hs as [|a l Hs IH Hall]; intros Hx; simpl.
  - constructor; constructor.
  - inversion Hx; subst.
    constructor; [now apply IH|].
    apply Forall_app; split; [assumption|].
    now constructor.
Qed.

Lemma StronglySorted_rev (R : A -> A -> Prop) (l : list A) :
  StronglySorted R l -> StronglySorted (fun a b => R b a) (rev l).
Proof.
  intros Hs. induction Hs as [|a l Hs IH Hall]; simpl.
  - constructor.
  - apply StronglySorted_snoc; [assumption|].
    now apply Forall_rev.
Qed.

Lemma Array_sort_ordered (l : list A) :
  Forall ok l -> StronglySorted le (Array_sort comparefn l).
Proof.
  intros Hl. unfold Array_sort.
  apply (StronglySorted_rev (fun a b => le b a)).
  apply sortInto_ordered; [assumption|constructor|constructor].
Qed.
End Ordered.
End ArraySortFacts.

Import Samples.






(* ===================================================================== *)
(** * The sort of the data table *)
(* ===================================================================== *)




Lemma compareValues_range (d : DataTable.SortDirection) (a b : value) :
  DataTable.compareValues d a b = (-1)%Z
  \/ DataTable.compareValues d a b = 0%Z
  \/ DataTable.compareValues d a b = 1%Z.
Proof.
  unfold DataTable.compareValues.
  destruct (isNullish a); [auto|].
  destruct (isNullish b); [auto|].
  destruct (lessThan a b); [destruct d; auto|].
  destruct (greaterThan a b); [destruct d; auto|auto].
Qed.


Lemma sortedData_perm (data : list DataTable.DataTableRow)
  (cfg : option DataTable.SortConfig) :
  Permutation (DataTable.sortedData data cfg) data.
Proof.
  unfold DataTable.sortedData.
  destruct cfg as [cfg|]; [|apply Permutation_refl].
  destruct (DataTable.direction cfg); [|apply Permutation_refl].
  apply Array_sort_perm.
Qed.


(* ===================================================================== *)
(** * The sort of the task service *)
(* ===================================================================== *)

Lemma number_lt_ofZ (a b : Z) : number_lt (ofZ a) (ofZ b) = (a <? b)%Z.
Proof.
  unfold ofZ, number_lt, Qltb, inject_Z. simpl.
  now rewrite !Z.mul_1_r.
Qed.

Lemma Qltb_lt (p q : Q) : Qltb p q = true <-> (p < q)%Q.
Proof. unfold Qltb, Qlt. apply Z.ltb_lt. Qed.

Lemma number_lt_asym (x y : number) :
  number_lt x y = true -> number_lt y x = false.
Proof.
  destruct x, y; simpl; try reflexivity; try discriminate.
  intros H. apply Qltb_lt in H.
  destruct (Qltb q0 q) eqn:E; [|reflexivity].
  apply Qltb_lt in E. exfalso. exact (Qlt_irrefl _ (Qlt_trans _ _ _ H E)).
Qed.

Lemma number_ge_trans (x y z : number) :
  x <> NaN -> y <> NaN -> z <> NaN ->
  number_lt x y = false -> number_lt y z = false -> number_lt x z = false.
Proof.
  destruct x, y, z; simpl; intros Hx Hy Hz; try congruence.
  intros H1 H2.
  destruct (Qltb q q1) eqn:E; [|reflexivity].
  apply Qltb_lt in E.
  assert (~ (q < q0)%Q) by (intros C; apply Qltb_lt in C; congruence).
  assert (~ (q0 < q1)%Q) by (intros C; apply Qltb_lt in C; congruence).
  exfalso. apply (Qlt_irrefl q).
  eapply Qlt_le_trans; [exact E|].
  eapply Qle_trans; apply Qnot_lt_le; eassumption.
Qed.

Lemma narrow_incl {F : Type} (f : option F) (active : F -> bool)
  (test : F -> TaskStore.StoredTask -> bool)
  (tasks : list TaskStore.StoredTask) :
  incl (TaskStore.narrow f active test tasks) tasks.
Proof.
  unfold TaskStore.narrow.
  destruct f as [v|]; [|apply incl_refl].
  destruct (active v); [|apply incl_refl].
  intros t Ht. now apply filter_In in Ht.
Qed.

(** The comparator of [getTasks] follows the sort values: below 0 exactly
    when the first task goes strictly before the second. *)
Lemma compareTasks_below (Date_parse : string -> number)
  (by_ : ProjectManagement.SortBy) (o : option ProjectManagement.SortOrder)
  (x e : TaskStore.StoredTask) :
  (TaskStore.compareTasks Date_parse by_ o x e < 0)%Z ->
  Notions.inOrder Date_parse by_ o x e.
Proof.
  unfold TaskStore.compareTasks, Notions.inOrder.
  destruct (number_lt (TaskStore.sortValue Date_parse by_ e)
                      (TaskStore.sortValue Date_parse by_ x)) eqn:E1;
    destruct (number_lt (TaskStore.sortValue Date_parse by_ x)
                        (TaskStore.sortValue Date_parse by_ e)) eqn:E2;
    destruct o as [[|]|]; intros H; try lia; try reflexivity;
    try (apply number_lt_asym in E1; congruence).
Qed.

Lemma compareTasks_not_below (Date_parse : string -> number)
  (by_ : ProjectManagement.SortBy) (o : option ProjectManagement.SortOrder)
  (x e : TaskStore.StoredTask) :
  ~ (TaskStore.compareTasks Date_parse by_ o x e < 0)%Z ->
  Notions.inOrder Date_parse by_ o e x.
Proof.
  unfold TaskStore.compareTasks, Notions.inOrder.
  destruct (number_lt (TaskStore.sortValue Date_parse by_ e)
                      (TaskStore.sortValue Date_parse by_ x)) eqn:E1;
    destruct (number_lt (TaskStore.sortValue Date_parse by_ x)
                        (TaskStore.sortValue Date_parse by_ e)) eqn:E2;
    destruct o as [[|]|]; intros H; try lia; try reflexivity;
    try (apply number_lt_asym in E1; congruence).
Qed.

(** When every sort value is a number, [getTasks] returns the tasks in the
    order of their sort values. *)
Lemma getTasks_in_order (Date_parse : string -> number)
  (store : list TaskStore.StoredTask) (now : Z)
  (f : ProjectManagement.Filters) (by_ : ProjectManagement.SortBy) :
  ProjectManagement.sortBy f = Some by_ ->
  Forall (fun t => TaskStore.sortValue Date_parse by_ t <> NaN) store ->
  StronglySorted (Notions.inOrder Date_parse by_ (ProjectManagement.sortOrder f))
                 (TaskStore.getTasks Date_parse store now (Some f)).
Proof.
  intros Hby Hvalid.
  unfold TaskStore.getTasks. rewrite Hby.
  set (t5 := TaskStore.narrow (ProjectManagement.overdue f) _ _ _).
  assert (Hsub : incl t5 store).
  { unfold t5.
    repeat (eapply incl_tran; [apply narrow_incl|]). apply incl_refl. }
  assert (Hok : Forall (fun t => TaskStore.sortValue Date_parse by_ t <> NaN)
                       t5).
  { apply Forall_forall. intros t Ht.
    rewrite Forall_forall in Hvalid. exact (Hvalid t (Hsub t Ht)). }
  clearbody t5.
  apply Array_sort_ordered
    with (ok := fun t => TaskStore.sortValue Date_parse by_ t <> NaN);
    [| | |exact Hok].
  - intros x e _ _. apply compareTasks_below.
  - intros x e _ _. apply compareTasks_not_below.
  - intros x y z Hx Hy Hz. unfold Notions.inOrder.
    destruct (ProjectManagement.sortOrder f) as [[|]|]; intros H1 H2;
      first [exact (number_ge_trans _ _ _ Hz Hy Hx H2 H1)
            |exact (number_ge_trans _ _ _ Hx Hy Hz H1 H2)].
Qed.

(* ===================================================================== *)
(** * Placement of records that miss the sort field *)
(* ===================================================================== *)



(* ===================================================================== *)
(** * Stability of the sort *)
(* ===================================================================== *)


(* ===================================================================== *)
(** * Values of mixed types *)
(* ===================================================================== *)





(* ===================================================================== *)
(** * Column filters and search of the data table *)
(* ===================================================================== *)

Lemma rejects_spec (row : DataTable.DataTableRow) (k v : string) :
  DataTable.rejects row (k, v)
  = truthy v
    && negb (includes (toLowerCase (ToString (DataTable.field row k)))
                      (toLowerCase v)).
Proof.
  unfold DataTable.rejects, includes. now rewrite negb_involutive.
Qed.

Lemma no_entry_rejects (filters : object string) (row : DataTable.DataTableRow) :
  existsb (DataTable.rejects row) filters = false
  <-> forall k v, In (k, v) filters -> truthy v = true ->
                  includes (toLowerCase (ToString (DataTable.field row k)))
                           (toLowerCase v) = true.
Proof.
  split.
  - intros H k v Hin Hv.
    destruct (includes _ _) eqn:Hinc; [reflexivity|].
    assert (Hex : existsb (DataTable.rejects row) filters = true).
    { apply existsb_exists. exists (k, v). split; [assumption|].
      rewrite rejects_spec, Hv, Hinc. reflexivity. }
    congruence.
  - intros H.
    destruct (existsb (DataTable.rejects row) filters) eqn:Hex; [|reflexivity].
    apply existsb_exists in Hex. destruct Hex as [[k v] [Hin Hrej]].
    rewrite rejects_spec in Hrej. apply andb_true_iff in Hrej.
    destruct Hrej as [Hv Hno].
    rewrite (H k v Hin Hv) in Hno. discriminate.
Qed.

Lemma keeps_spec (filters : object string) (searchTerm : string)
  (columns : list DataTable.DataTableColumn) (row : DataTable.DataTableRow) :
  DataTable.keeps filters searchTerm columns row = true
  <-> (forall k v, In (k, v) filters -> truthy v = true ->
                   includes (toLowerCase (ToString (DataTable.field row k)))
                            (toLowerCase v) = true)
      /\ (truthy searchTerm = true ->
          DataTable.matchesSearch columns searchTerm row = true).
Proof.
  rewrite <- no_entry_rejects. unfold DataTable.keeps.
  destruct (existsb (DataTable.rejects row) filters).
  - split; [discriminate|]. intros [H _]. discriminate.
  - destruct (truthy searchTerm).
    + split; [intros H; split; auto|]. intros [_ H]. now apply H.
    + split; [intros _; split; [reflexivity|discriminate]|reflexivity].
Qed.

(** C3.  Let [F'] hold no non-empty constraint that [F] does not hold.
    Then every record retained under [F] is retained under [F'], for every
    record set, search term and column list.  A record is retained exactly
    when it matches every filter entry whose value is not empty (and the
    search term, if there is one); entries with an empty value do not
    constrain. *)
Theorem column_filters_monotone (data : list DataTable.DataTableRow)
  (F F' : object string) (searchTerm : string)
  (columns : list DataTable.DataTableColumn) :
  (forall k v, In (k, v) F' -> truthy v = true -> In (k, v) F) ->
  (forall row,
      In row (DataTable.filteredData data F searchTerm columns) ->
      In row (DataTable.filteredData data F' searchTerm columns))
  /\ (forall row,
         In row (DataTable.filteredData data F searchTerm columns)
         <-> In row data
             /\ (forall k v, In (k, v) F -> truthy v = true ->
                   includes (toLowerCase (ToString (DataTable.field row k)))
                            (toLowerCase v) = true)
             /\ (truthy searchTerm = true ->
                 DataTable.matchesSearch columns searchTerm row = true)).
Proof.
  intros Hsub. split.
  - intros row Hrow. unfold DataTable.filteredData in *.
    apply filter_In in Hrow. destruct Hrow as [Hin Hk].
    apply filter_In. split; [assumption|].
    apply keeps_spec in Hk. destruct Hk as [Hf Hs].
    apply keeps_spec. split; [|assumption].
    intros k v Hkv Hv. apply Hf; [|assumption]. now apply Hsub.
  - intros row. unfold DataTable.filteredData.
    rewrite filter_In, keeps_spec. tauto.
Qed.

Lemma column_filters_monotone_witness :
  In [("name", VString "Alma"); ("city", VString "Rome")]
     (DataTable.filteredData people [("name", "al"); ("city", "")]
        "" [column "name"; column "city"]).
Proof.
  refine (proj1 (column_filters_monotone people
                   [("name", "al"); ("city", "rome")]
                   [("name", "al"); ("city", "")]
                   "" [column "name"; column "city"] _) _ _).
  - intros k v [H|[H|[]]] Hv; inversion H; subst.
    + left. reflexivity.
    + discriminate.
  - left. reflexivity.
Defined.

(** With no search term and no filter the table shows every record. *)
Lemma filteredData_no_query (data : list DataTable.DataTableRow)
  (columns : list DataTable.DataTableColumn) :
  DataTable.filteredData data [] "" columns = data.
Proof.
  unfold DataTable.filteredData.
  induction data as [|r data IH]; [reflexivity|].
  simpl. now rewrite IH.
Qed.

(** The task list returns its tasks unchanged when the query is blank. *)
Lemma filterTasks_blank (tasks : list TaskList.Task) (searchQuery : string) :
  trim searchQuery = "" -> TaskList.filterTasks tasks searchQuery = tasks.
Proof.
  intros H. unfold TaskList.filterTasks. now rewrite H.
Qed.

(** C5: the data table at a search term of one space.  The term is not
    trimmed: it is looked for as it is, no cell of the three records
    contains a space, and no record is shown.  The claim wants all three. *)
Theorem search_term_of_one_space :
  trim " " = ""
  /\ DataTable.filteredData people [] " " [column "name"; column "city"] = []
  /\ DataTable.filteredData people [] "" [column "name"; column "city"]
     = people.
Proof. repeat split. Qed.

(** C6: a record without the field [name], searched for "undefined" in the
    column [name].  The absent cell is turned into the text "undefined",
    and the record is a match; as the empty string it would not be. *)
Theorem absent_field_matches :
  DataTable.field [("id", num 1)] "name" = VUndefined
  /\ DataTable.filteredData [[("id", num 1)]] [] "undefined" [column "name"]
     = [[("id", num 1)]]
  /\ DataTable.filteredData [[("id", num 1)]] [] "Def" [column "name"]
     = [[("id", num 1)]]
  /\ includes (toLowerCase "") (toLowerCase "undefined") = false.
Proof. repeat split. Qed.

(* ===================================================================== *)
(** * The page count *)
(* ===================================================================== *)

Lemma number_div_ofZ (t s : Z) :
  s <> 0%Z ->
  number_div (ofZ t) (ofZ s) = Finite (Qred (inject_Z t / inject_Z s)).
Proof.
  intros Hs. unfold number_div, ofZ.
  change (Qnum (inject_Z s)) with s.
  destruct (s =? 0)%Z eqn:E; [apply Z.eqb_eq in E; contradiction|].
  reflexivity.
Qed.

Lemma totalPages_nonzero (p : DataTable.Pagination) :
  DataTable.pageSize p <> 0%Z ->
  DataTable.totalPages p
  = ofZ (- ((- DataTable.total p) / DataTable.pageSize p))%Z.
Proof.
  intros Hs. unfold DataTable.totalPages.
  rewrite number_div_ofZ by assumption.
  unfold Math_ceil, ofZ. do 2 f_equal.
  rewrite (Qceiling_comp _ _ (Qred_correct _)).
  unfold Qceiling. f_equal.
  rewrite Zdiv_Qdiv. apply Qfloor_comp.
  rewrite inject_Z_opp. unfold Qdiv. ring.
Qed.

(** C9, as stated, fails: with [pageSize] 0 nothing is raised; the footer
    is rendered with the page count Infinity. *)
Lemma page_size_zero_renders :
  DataTable.paginationFooter
    (Some {| DataTable.page := 1; DataTable.pageSize := 0;
             DataTable.total := 10 |})
  = Normal (Some {| DataTable.shownPage := 1;
                    DataTable.shownPages := PosInfinity;
                    DataTable.previousDisabled := true;
                    DataTable.nextDisabled := false |}).
Proof. reflexivity. Qed.

(** C9, amended.  Pagination raises for no input: the footer always shows
    [Math.ceil(total / pageSize)] as it evaluates.  For [pageSize > 0] and
    [total >= 0] that is the number of pages ceil(total / pageSize), which
    is 0 when there are zero records.  For [pageSize = 0] it is Infinity
    when [total > 0] and NaN when [total = 0] (and -Infinity when
    [total < 0]); for [pageSize < 0] it is again the ceiling of the
    quotient, a number not above 0 when [total >= 0]. *)
Theorem page_count :
  (forall p : DataTable.Pagination,
      exists footer,
        DataTable.paginationFooter (Some p) = Normal (Some footer)
        /\ DataTable.shownPages footer = DataTable.totalPages p)
  /\ (forall p : DataTable.Pagination,
         (0 < DataTable.pageSize p)%Z -> (0 <= DataTable.total p)%Z ->
         exists n,
           DataTable.totalPages p = ofZ n
           /\ ((n - 1) * DataTable.pageSize p < DataTable.total p
               <= n * DataTable.pageSize p)%Z
           /\ (DataTable.total p = 0%Z -> n = 0%Z))
  /\ (forall p : DataTable.Pagination,
         DataTable.pageSize p = 0%Z ->
         DataTable.totalPages p
         = if (DataTable.total p =? 0)%Z then NaN
           else if (0 <? DataTable.total p)%Z then PosInfinity
                else NegInfinity)
  /\ (forall p : DataTable.Pagination,
         (DataTable.pageSize p < 0)%Z ->
         exists n,
           DataTable.totalPages p = ofZ n
           /\ (n * DataTable.pageSize p <= DataTable.total p
               < (n - 1) * DataTable.pageSize p)%Z
           /\ ((0 <= DataTable.total p)%Z -> (n <= 0)%Z)).
Proof.
  repeat split.
  - intros p. eexists. split; reflexivity.
  - intros p Hs Ht.
    exists (- ((- DataTable.total p) / DataTable.pageSize p))%Z.
    split; [apply totalPages_nonzero; lia|].
    pose proof (Z.div_mod (- DataTable.total p) (DataTable.pageSize p)
                  ltac:(lia)) as Hdm.
    pose proof (Z.mod_pos_bound (- DataTable.total p) (DataTable.pageSize p)
                  Hs) as Hb.
    split; [nia|].
    intros H0. rewrite H0. change (- 0)%Z with 0%Z.
    now rewrite Zdiv_0_l.
  - intros p Hs. unfold DataTable.totalPages, number_div, ofZ.
    change (Qnum (inject_Z (DataTable.pageSize p))) with (DataTable.pageSize p).
    change (Qnum (inject_Z (DataTable.total p))) with (DataTable.total p).
    rewrite Hs. simpl.
    destruct (DataTable.total p =? 0)%Z; [reflexivity|].
    destruct (0 <? DataTable.total p)%Z; reflexivity.
  - intros p Hs.
    exists (- ((- DataTable.total p) / DataTable.pageSize p))%Z.
    split; [apply totalPages_nonzero; lia|].
    pose proof (Z.div_mod (- DataTable.total p) (DataTable.pageSize p)
                  ltac:(lia)) as Hdm.
    pose proof (Z.mod_neg_bound (- DataTable.total p) (DataTable.pageSize p)
                  Hs) as Hb.
    split; [nia|]. intros Ht.
    assert (0 <= (- DataTable.total p) / DataTable.pageSize p)%Z; [|lia].
    nia.
Qed.

Lemma page_count_witness :
  exists n,
    DataTable.totalPages {| DataTable.page := 1; DataTable.pageSize := 3;
                            DataTable.total := 10 |} = ofZ n
    /\ ((n - 1) * 3 < 10 <= n * 3)%Z
    /\ (10 = 0 -> n = 0)%Z.
Proof.
  apply (proj1 (proj2 page_count)
           {| DataTable.page := 1; DataTable.pageSize := 3;
              DataTable.total := 10 |}).
  - simpl. lia.
  - simpl. lia.
Defined.

(* ===================================================================== *)
(** * Grouping reductions *)
(* ===================================================================== *)

Section Grouping.
Context {T : Type}.

Lemma getOwn_app_new (g : object (list T)) (k k' : string) (v : list T) :
  getOwn (g ++ [(k, v)]) k'
  = match getOwn g k' with
    | Some b => Some b
    | None => if (k =? k')%string then Some v else None
    end.
Proof.
  induction g as [|[k0 b0] g IH]; simpl; [reflexivity|].
  destruct (k0 =? k')%string; [reflexivity|exact IH].
Qed.

Lemma update_app_new (g : object (list T)) (k : string) (v : list T)
  (f : list T -> list T) :
  getOwn g k = None -> update (g ++ [(k, v)]) k f = g ++ [(k, f v)].
Proof.
  induction g as [|[k0 b0] g IH]; simpl; intros H.
  - now rewrite String.eqb_refl.
  - destruct (k0 =? k)%string; [discriminate|]. now rewrite IH.
Qed.

Lemma getOwn_update (g : object (list T)) (k k' : string)
  (f : list T -> list T) :
  getOwn (update g k f) k'
  = if (k =? k')%string then option_map f (getOwn g k') else getOwn g k'.
Proof.
  induction g as [|[k0 b0] g IH]; simpl.
  - now destruct (k =? k')%string.
  - destruct (k0 =? k)%string eqn:E0; simpl.
    + apply String.eqb_eq in E0. subst k0.
      destruct (k =? k')%string; reflexivity.
    + destruct (k0 =? k')%string eqn:E1; [|exact IH].
      destruct (k =? k')%string eqn:E2; [|reflexivity].
      apply String.eqb_eq in E1, E2. subst.
      rewrite String.eqb_refl in E0. discriminate.
Qed.

(** A step on a label that is not a member of [Object.prototype] does
    not throw. *)
Lemma pushInto_ok (g : object (list T)) (k : string) (x : T) :
  inherited k = false -> pushInto g k x = Normal (pushed g k x).
Proof.
  intros Hk. unfold pushInto, pushed, Get.
  destruct (getOwn g k) as [b|] eqn:Hg.
  - now rewrite Hg.
  - rewrite Hk. unfold define.
    rewrite getOwn_app_new, Hg, String.eqb_refl.
    now rewrite update_app_new.
Qed.

(** A step on a label that is one throws, unless the object has the
    label as an own property already, which no step creates. *)
Lemma pushInto_inherited (g : object (list T)) (k : string) (x : T) :
  inherited k = true -> getOwn g k = None ->
  pushInto g k x = Throw (TypeError "groups[key].push is not a function").
Proof.
  intros Hk Hg.
  assert (HG : Get g k = Inherited k) by (unfold Get; now rewrite Hg, Hk).
  unfold pushInto. rewrite HG. cbv iota. now rewrite HG.
Qed.

Lemma bucket_pushed (g : object (list T)) (k k' : string) (x : T) :
  bucket (pushed g k x) k'
  = if (k =? k')%string then bucket g k' ++ [x] else bucket g k'.
Proof.
  unfold bucket, pushed.
  destruct (getOwn g k) as [b|] eqn:Hg.
  - rewrite getOwn_update.
    destruct (k =? k')%string eqn:E; [|reflexivity].
    apply String.eqb_eq in E. subst k'. now rewrite Hg.
  - rewrite getOwn_app_new.
    destruct (k =? k')%string eqn:E.
    + apply String.eqb_eq in E. subst k'. now rewrite Hg.
    + now destruct (getOwn g k').
Qed.

Lemma allBuckets_update (g : object (list T)) (k : string) (x : T) :
  getOwn g k <> None ->
  Permutation (allBuckets (update g k (fun b => b ++ [x])))
              (x :: allBuckets g).
Proof.
  unfold allBuckets.
  induction g as [|[k0 b0] g IH]; simpl; intros H; [congruence|].
  destruct (k0 =? k)%string; simpl.
  - rewrite <- app_assoc. simpl.
    apply Permutation_sym, Permutation_middle.
  - eapply perm_trans.
    + apply Permutation_app_head. now apply IH.
    + apply Permutation_sym, Permutation_middle.
Qed.

Lemma allBuckets_pushed (g : object (list T)) (k : string) (x : T) :
  Permutation (allBuckets (pushed g k x)) (x :: allBuckets g).
Proof.
  unfold pushed.
  destruct (getOwn g k) as [b|] eqn:Hg.
  - apply allBuckets_update. congruence.
  - unfold allBuckets. rewrite map_app, concat_app. simpl.
    apply Permutation_sym, Permutation_cons_append.
Qed.

Variable label : T -> string.

Lemma reduce_pushed (l : list T) (g : object (list T)) :
  (forall x, In x l -> inherited (label x) = false) ->
  reduce (fun g x => pushInto g (label x) x) l g
  = Normal (fold_left (fun g x => pushed g (label x) x) l g).
Proof.
  revert g.
  induction l as [|x l IH]; intros g H; [reflexivity|].
  simpl.
  rewrite pushInto_ok by (apply H; now left).
  simpl. apply IH. intros y Hy. apply H. now right.
Qed.

Lemma bucket_fold (l : list T) (g : object (list T)) (k : string) :
  bucket (fold_left (fun g x => pushed g (label x) x) l g) k
  = bucket g k ++ filter (fun x => (label x =? k)%string) l.
Proof.
  revert g.
  induction l as [|x l IH]; intros g; simpl.
  - now rewrite app_nil_r.
  - rewrite IH, bucket_pushed.
    destruct (label x =? k)%string; [|reflexivity].
    now rewrite <- app_assoc.
Qed.

Lemma allBuckets_fold (l : list T) (g : object (list T)) :
  Permutation (allBuckets (fold_left (fun g x => pushed g (label x) x) l g))
              (allBuckets g ++ l).
Proof.
  revert g.
  induction l as [|x l IH]; intros g; simpl.
  - rewrite app_nil_r. apply Permutation_refl.
  - eapply perm_trans; [apply IH|].
    eapply perm_trans.
    + apply Permutation_app_tail. apply allBuckets_pushed.
    + simpl. apply Permutation_middle.
Qed.

(** A grouping reduction over labels of which none is a member of
    [Object.prototype] returns buckets that hold the input records, each
    once. *)
Lemma reduce_partition (l : list T) :
  (forall x, In x l -> inherited (label x) = false) ->
  exists groups,
    reduce (fun g x => pushInto g (label x) x) l [] = Normal groups
    /\ Permutation (allBuckets groups) l
    /\ forall k, bucket groups k = filter (fun x => (label x =? k)%string) l.
Proof.
  intros H. eexists. split; [now apply reduce_pushed|]. split.
  - apply (allBuckets_fold l []).
  - intros k. apply (bucket_fold l [] k).
Qed.
End Grouping.

(** For every task list whose group labels are not members of
    [Object.prototype], [groupTasks] returns buckets whose union is the
    input; grouped by "none", one bucket "All Tasks" holds them all. *)
Lemma groupTasks_partition (tasks : list TaskList.Task) (g : TaskList.GroupBy) :
  (forall t, In t tasks -> inherited (taskLabel g t) = false) ->
  exists groups,
    TaskList.groupTasks tasks g = Normal groups
    /\ Permutation (allBuckets groups) tasks.
Proof.
  intros H.
  destruct g;
    try (destruct (reduce_partition (taskLabel _) tasks H) as [gr [H1 [H2 _]]];
         exists gr; split; [exact H1|exact H2]).
  exists [("All Tasks", tasks)]. split; [reflexivity|].
  unfold allBuckets. simpl. rewrite app_nil_r. apply Permutation_refl.
Qed.

Lemma groupTasks_none (tasks : list TaskList.Task) :
  TaskList.groupTasks tasks TaskList.none = Normal [("All Tasks", tasks)].
Proof. reflexivity. Qed.

Lemma groupIssues_partition (issues : list LinearIssueList.LinearIssueProps)
  (groupBy : string) :
  (forall i, In i issues ->
             inherited (LinearIssueList.groupKey groupBy i) = false) ->
  exists groups,
    LinearIssueList.groupIssues issues groupBy = Normal groups
    /\ Permutation (allBuckets groups) issues.
Proof.
  intros H. unfold LinearIssueList.groupIssues.
  destruct (groupBy =? "none")%string.
  - exists [("All Issues", issues)]. split; [reflexivity|].
    unfold allBuckets. simpl. rewrite app_nil_r. apply Permutation_refl.
  - destruct (reduce_partition (LinearIssueList.groupKey groupBy) issues H)
      as [gr [H1 [H2 _]]].
    exists gr. split; [exact H1|exact H2].
Qed.

(** C4: a task of the project "constructor", grouped by project.  The read
    [groups["constructor"]] finds the member that [{}] inherits, no bucket
    is made, [push] is not a function of that member, and the reduction
    throws: there are no buckets, and the task is in none.  The same
    happens in the issue list for an issue whose status is "constructor".
    The claim wants the buckets to hold every record. *)
Theorem grouping_throws_on_inherited_label :
  taskLabel TaskList.byProject constructorTask = "constructor"
  /\ TaskList.groupTasks [constructorTask] TaskList.byProject
     = Throw (TypeError "groups[key].push is not a function")
  /\ TaskList.groupTasks (fiveTasks ++ [constructorTask]) TaskList.byProject
     = Throw (TypeError "groups[key].push is not a function")
  /\ LinearIssueList.groupIssues [constructorIssue] "status"
     = Throw (TypeError "groups[key].push is not a function").
Proof. repeat split. Qed.

(* ===================================================================== *)
(** * Order of the group keys *)
(* ===================================================================== *)

Lemma sgn_Qnum_Qred (q : Q) : Z.sgn (Qnum (Qred q)) = Z.sgn (Qnum q).
Proof.
  pose proof (Qred_correct q) as H. unfold Qeq in H.
  assert (H1 : Z.sgn (Qnum (Qred q) * Zpos (Qden q))
               = Z.sgn (Qnum q * Zpos (Qden (Qred q)))) by now rewrite H.
  rewrite !Z.sgn_mul in H1. simpl in H1.
  now rewrite !Z.mul_1_r in H1.
Qed.

Lemma SortCompare_sub (m n : Z) :
  SortCompare (number_sub (ofZ m) (ofZ n)) = Z.sgn (m - n).
Proof.
  unfold ofZ, number_sub, SortCompare.
  rewrite sgn_Qnum_Qred. simpl. f_equal. lia.
Qed.

Lemma getPriorityOrder_number (k : string) :
  inherited k = false ->
  TaskList.getPriorityOrder k = TaskList.RankNumber (shownPriorityRank k).
Proof.
  intros H. unfold shownPriorityRank, TaskList.getPriorityOrder,
    TaskList.rankOr999, Get.
  destruct (getOwn _ k) as [n|]; [now destruct (n =? 0)%Z|].
  now rewrite H.
Qed.

(** Grouped by priority, keys that are not members of [Object.prototype]
    are put in the order of the number that [getPriorityOrder] returns for
    them, and keys with the same number keep the order of [Object.keys]. *)
Lemma priority_keys_by_rank (localeCompare : string -> string -> Z)
  (keys : list string) :
  Forall (fun k => inherited k = false) keys ->
  StronglySorted (fun a b => (shownPriorityRank a <= shownPriorityRank b)%Z)
    (Array_sort (TaskList.compareGroupKeys localeCompare
                   (Some TaskList.byPriority)) keys)
  /\ forall n,
       filter (fun k => (shownPriorityRank k =? n)%Z)
         (Array_sort (TaskList.compareGroupKeys localeCompare
                        (Some TaskList.byPriority)) keys)
       = filter (fun k => (shownPriorityRank k =? n)%Z) keys.
Proof.
  intros Hkeys.
  assert (Hcmp : forall a b, inherited a = false -> inherited b = false ->
            TaskList.compareGroupKeys localeCompare (Some TaskList.byPriority) a b
            = Z.sgn (shownPriorityRank a - shownPriorityRank b)).
  { intros a b Ha Hb. unfold TaskList.compareGroupKeys.
    rewrite (getPriorityOrder_number a Ha), (getPriorityOrder_number b Hb).
    apply SortCompare_sub. }
  split.
  - apply Array_sort_ordered with (ok := fun k => inherited k = false);
      [| | |exact Hkeys].
    + intros x e Hx He. rewrite (Hcmp x e Hx He). lia.
    + intros x e Hx He. rewrite (Hcmp x e Hx He). lia.
    + intros x y z _ _ _. lia.
  - intros n. apply Array_sort_filter.
    intros x y Hx Hy. apply Z.eqb_eq in Hx, Hy.
    unfold TaskList.compareGroupKeys.
    destruct (TaskList.getPriorityOrder x) as [m|m] eqn:Ex,
             (TaskList.getPriorityOrder y) as [m'|m'] eqn:Ey;
      try (simpl; lia).
    cbn [TaskList.rankNumber]. rewrite SortCompare_sub.
    unfold shownPriorityRank in Hx, Hy. rewrite Ex in Hx. rewrite Ey in Hy.
    subst. rewrite Z.sub_diag. simpl. lia.
Qed.

(** C1: the five tasks of the mock store, grouped by priority and by
    status.  Rank 0 of "critical" and of "todo" is falsy, so [|| 999]
    replaces it by 999: the group "critical" is shown last, after "low",
    and the group "todo" last, after "done".  The claim wants them
    first. *)
Theorem critical_and_todo_sort_last (localeCompare : string -> string -> Z) :
  (exists view,
      TaskList.derive localeCompare fiveTasks TaskList.byPriority
                      (groupedBy TaskList.byPriority) = Normal view
      /\ Object_keys (TaskList.groupedTasks view)
         = ["high"; "critical"; "medium"; "low"]
      /\ TaskList.sortedGroupKeys view
         = ["high"; "medium"; "low"; "critical"])
  /\ (exists view,
         TaskList.derive localeCompare fiveTasks TaskList.byStatus
                         (groupedBy TaskList.byStatus) = Normal view
         /\ Object_keys (TaskList.groupedTasks view)
            = ["in-progress"; "todo"; "review"; "done"]
         /\ TaskList.sortedGroupKeys view
            = ["in-progress"; "review"; "done"; "todo"])
  /\ TaskList.getPriorityOrder "critical" = TaskList.RankNumber 999
  /\ TaskList.getStatusOrder "todo" = TaskList.RankNumber 999.
Proof.
  split; [|split; [|split]].
  - eexists. split; [reflexivity|]. split; reflexivity.
  - eexists. split; [reflexivity|]. split; reflexivity.
  - reflexivity.
  - reflexivity.
Qed.

(* ===================================================================== *)
(** * The kanban board *)
(* ===================================================================== *)

Lemma statusToColumn_cases (status : string) :
  KanbanBoard.statusToColumn status = "To Do"
  \/ KanbanBoard.statusToColumn status = "In Progress"
  \/ KanbanBoard.statusToColumn status = "In Review"
  \/ KanbanBoard.statusToColumn status = "Done".
Proof.
  unfold KanbanBoard.statusToColumn.
  destruct (status =? "todo")%string; [auto|].
  destruct (status =? "in-progress")%string; [auto|].
  destruct (status =? "review")%string; [auto|].
  destruct (status =? "done")%string; auto.
Qed.

Lemma statusToColumn_own (status : string) :
  inherited (KanbanBoard.statusToColumn status) = false.
Proof.
  destruct (statusToColumn_cases status) as [H|[H|[H|H]]];
    rewrite H; reflexivity.
Qed.

Lemma statusToColumn_other (status : string) :
  status <> "todo" -> status <> "in-progress" ->
  status <> "review" -> status <> "done" ->
  KanbanBoard.statusToColumn status = "To Do".
Proof.
  intros H1 H2 H3 H4. unfold KanbanBoard.statusToColumn.
  apply String.eqb_neq in H1, H2, H3, H4.
  now rewrite H1, H2, H3, H4.
Qed.

Lemma tasksByColumn_buckets (tasks : list KanbanBoard.Task) :
  exists byColumn,
    KanbanBoard.tasksByColumn tasks = Normal byColumn
    /\ forall column, bucket byColumn column = inColumn column tasks.
Proof.
  destruct (reduce_partition
              (fun t => KanbanBoard.statusToColumn (TaskList.status t)) tasks)
    as [byColumn [H1 [_ H3]]].
  - intros t _. apply statusToColumn_own.
  - exists byColumn. split; [exact H1|exact H3].
Qed.

Lemma renderColumn_bucket (byColumn : object (list KanbanBoard.Task))
  (column : string) :
  inherited column = false ->
  KanbanBoard.renderColumn byColumn column
  = Normal {| KanbanBoard.columnName := column;
              KanbanBoard.count :=
                VNumber (NInt (Z.of_nat (List.length (bucket byColumn column))));
              KanbanBoard.cards := bucket byColumn column |}.
Proof.
  intros H.
  unfold KanbanBoard.renderColumn, KanbanBoard.columnTasks, Get, bucket.
  destruct (getOwn byColumn column); [reflexivity|].
  now rewrite H.
Qed.

Lemma inColumn_cons (column : string) (t : TaskList.Task)
  (tasks : list TaskList.Task) :
  inColumn column (t :: tasks)
  = if (KanbanBoard.statusToColumn (TaskList.status t) =? column)%string
    then t :: inColumn column tasks
    else inColumn column tasks.
Proof. reflexivity. Qed.

(** The four buckets of the default columns hold every task once. *)
Lemma default_columns_partition (tasks : list TaskList.Task) :
  Permutation
    (inColumn "To Do" tasks ++ inColumn "In Progress" tasks
     ++ inColumn "In Review" tasks ++ inColumn "Done" tasks)
    tasks.
Proof.
  induction tasks as [|t tasks IH]; [apply Permutation_refl|].
  rewrite !inColumn_cons.
  destruct (statusToColumn_cases (TaskList.status t)) as [H|[H|[H|H]]];
    rewrite H; simpl String.eqb; cbv iota.
  - simpl. now apply perm_skip.
  - apply Permutation_sym, Permutation_cons_app, Permutation_sym, IH.
  - rewrite app_assoc.
    apply Permutation_sym, Permutation_cons_app, Permutation_sym.
    rewrite <- app_assoc. exact IH.
  - rewrite !app_assoc.
    apply Permutation_sym, Permutation_cons_app, Permutation_sym.
    rewrite <- !app_assoc. exact IH.
Qed.

(** C10.  With the default column list the board renders, for every task
    list, the four columns "To Do", "In Progress", "In Review" and "Done",
    each with the tasks whose status maps to it, in input order, and with
    their number as its count.  The four buckets together hold every task
    exactly once, so the counts add up to the number of tasks; a status
    that is none of "todo", "in-progress", "review", "done" maps to
    "To Do". *)
Theorem kanban_columns (tasks : list TaskList.Task) :
  KanbanBoard.KanbanBoard tasks None
  = Normal (map (fun column => shownColumn column tasks)
                KanbanBoard.defaultColumns)
  /\ Permutation
       (inColumn "To Do" tasks ++ inColumn "In Progress" tasks
        ++ inColumn "In Review" tasks ++ inColumn "Done" tasks)
       tasks
  /\ (List.length (inColumn "To Do" tasks)
      + List.length (inColumn "In Progress" tasks)
      + List.length (inColumn "In Review" tasks)
      + List.length (inColumn "Done" tasks)
      = List.length tasks)%nat
  /\ (forall t, In t tasks ->
        TaskList.status t <> "todo" -> TaskList.status t <> "in-progress" ->
        TaskList.status t <> "review" -> TaskList.status t <> "done" ->
        In t (inColumn "To Do" tasks)).
Proof.
  split; [|split; [|split]].
  - unfold KanbanBoard.KanbanBoard.
    destruct (tasksByColumn_buckets tasks) as [byColumn [H1 H2]].
    rewrite H1. simpl.
    rewrite !renderColumn_bucket by reflexivity. simpl.
    unfold shownColumn. now rewrite !H2.
  - apply default_columns_partition.
  - pose proof (Permutation_length (default_columns_partition tasks)) as H.
    rewrite !length_app in H. lia.
  - intros t Hin H1 H2 H3 H4. unfold inColumn.
    apply filter_In. split; [assumption|].
    now rewrite statusToColumn_other.
Qed.

Lemma kanban_columns_witness :
  In (boardTask "task-7" "Triage inbox" "blocked" "low" "Website Redesign")
     (inColumn "To Do"
        [boardTask "task-7" "Triage inbox" "blocked" "low" "Website Redesign"]).
Proof.
  apply (proj2 (proj2 (proj2 (kanban_columns
           [boardTask "task-7" "Triage inbox" "blocked" "low"
                      "Website Redesign"])))).
  - left. reflexivity.
  - discriminate.
  - discriminate.
  - discriminate.
  - discriminate.
Defined.

(* ===================================================================== *)
(** * The state of the data table *)
(* ===================================================================== *)



(* ===================================================================== *)
(** * The rows of the data table *)
(* ===================================================================== *)

Lemma Permutation_filter {A : Type} (f : A -> bool) (l l' : list A) :
  Permutation l l' -> Permutation (filter f l) (filter f l').
Proof.
  induction 1 as [|x l l' _ IH|x y l|l l' l'' _ IH1 _ IH2]; simpl.
  - apply Permutation_refl.
  - destruct (f x); [now apply perm_skip|assumption].
  - destruct (f x), (f y); try apply Permutation_refl. apply perm_swap.
  - now apply perm_trans with (filter f l').
Qed.

Lemma filter_length_le {A : Type} (f : A -> bool) (l : list A) :
  (List.length (filter f l) <= List.length l)%nat.
Proof.
  induction l as [|x l IH]; simpl; [lia|].
  destruct (f x); simpl; lia.
Qed.

(** X2.  Whatever the sort, the filters and the search term, the rows of
    the table are the records of the input that pass the filters and the
    search, each as often as it is in the input; the footer never shows
    more rows than records. *)
Theorem rows_are_the_matching_records (data : list DataTable.DataTableRow)
  (columns : list DataTable.DataTableColumn) (st : DataTableState.State) :
  Permutation
    (DataTableState.rows data columns st)
    (filter (DataTable.keeps (DataTableState.filters st)
                             (DataTableState.searchTerm st) columns) data)
  /\ (List.length (DataTableState.rows data columns st)
      <= List.length data)%nat.
Proof.
  assert (H : Permutation
    (DataTableState.rows data columns st)
    (filter (DataTable.keeps (DataTableState.filters st)
                             (DataTableState.searchTerm st) columns) data)).
  { unfold DataTableState.rows, DataTable.filteredData.
    apply Permutation_filter, sortedData_perm. }
  split; [exact H|].
  rewrite (Permutation_length H). apply filter_length_le.
Qed.

(* ===================================================================== *)
(** * Order of a sorted column *)
(* ===================================================================== *)

Lemma Ascii_compare_lt_trans (a b c : ascii) :
  Ascii.compare a b = Lt -> Ascii.compare b c = Lt -> Ascii.compare a c = Lt.
Proof. unfold Ascii.compare. rewrite !N.compare_lt_iff. lia. Qed.

Lemma String_compare_lt_trans (s : string) :
  forall t u, String.compare s t = Lt -> String.compare t u = Lt ->
              String.compare s u = Lt.
Proof.
  induction s as [|a s IH]; intros [|b t] [|c u]; simpl;
    try discriminate; auto.
  destruct (Ascii.compare a b) eqn:Hab; try discriminate;
    destruct (Ascii.compare b c) eqn:Hbc; try discriminate; intros H1 H2.
  - apply Ascii.compare_eq_iff in Hab, Hbc. subst.
    assert (Ascii.compare c c = Eq) as ->
        by (unfold Ascii.compare; apply N.compare_refl).
    eauto.
  - apply Ascii.compare_eq_iff in Hab. subst. now rewrite Hbc.
  - apply Ascii.compare_eq_iff in Hbc. subst. now rewrite Hab.
  - now rewrite (Ascii_compare_lt_trans _ _ _ Hab Hbc).
Qed.

Lemma String_ltb_asym (s t : string) :
  String.ltb s t = true -> String.ltb t s = false.
Proof.
  unfold String.ltb. rewrite (String.compare_antisym s t).
  now destruct (String.compare t s).
Qed.

Lemma String_ltb_cotrans (s t u : string) :
  String.ltb s u = true -> String.ltb t u = true \/ String.ltb s t = true.
Proof.
  unfold String.ltb. intros H.
  destruct (String.compare s u) eqn:Hsu; try discriminate.
  destruct (String.compare s t) eqn:Hst; [|now right|].
  - apply String.compare_eq_iff in Hst. subst. left. now rewrite Hsu.
  - left. rewrite String.compare_antisym in Hst.
    destruct (String.compare t s) eqn:Hts; try discriminate.
    now rewrite (String_compare_lt_trans _ _ _ Hts Hsu).
Qed.

Section KindOfValues.
Variable kind : value -> bool.
Hypothesis kind_asym :
  forall a b, kind a = true -> kind b = true ->
              lessThan a b = true -> lessThan b a = false.
Hypothesis kind_cotrans :
  forall a b c, kind a = true -> kind b = true -> kind c = true ->
                lessThan a c = true ->
                lessThan b c = true \/ lessThan a b = true.

Lemma column_in_order (data : list DataTable.DataTableRow) (k : string)
  (d : DataTable.SortDirection) :
  Notions.columnOf kind k data = true ->
  StronglySorted (Notions.inDirection d k)
                 (DataTable.sortedData data (sortedOn k d)).
Proof.
  intros Hcol. unfold DataTable.sortedData, sortedOn. simpl.
  apply Array_sort_ordered
    with (ok := fun r => missing k r || kind (DataTable.field r k) = true).
  - intros x e Hx He. unfold DataTable.compareRows, DataTable.compareValues,
      Notions.inDirection, missing, greaterThan in *.
    destruct (isNullish (DataTable.field x k)) eqn:Nx; [lia|].
    destruct (isNullish (DataTable.field e k)) eqn:Ne; [now left|].
    intros Hc. right. split; [reflexivity|]. split; [reflexivity|].
    destruct (lessThan (DataTable.field x k) (DataTable.field e k)) eqn:L1.
    + destruct d; [|lia]. apply kind_asym; auto.
    + destruct (lessThan (DataTable.field e k) (DataTable.field x k)) eqn:L2;
        destruct d; try lia; reflexivity.
  - intros x e Hx He. unfold DataTable.compareRows, DataTable.compareValues,
      Notions.inDirection, missing, greaterThan in *.
    destruct (isNullish (DataTable.field x k)) eqn:Nx; [now left|].
    destruct (isNullish (DataTable.field e k)) eqn:Ne; [lia|].
    intros Hc. right. split; [reflexivity|]. split; [reflexivity|].
    destruct (lessThan (DataTable.field x k) (DataTable.field e k)) eqn:L1.
    + destruct d; [lia|]. apply kind_asym; auto.
    + destruct (lessThan (DataTable.field e k) (DataTable.field x k)) eqn:L2;
        destruct d; try lia; reflexivity.
  - intros x y z Hx Hy Hz. unfold Notions.inDirection, missing in *.
    intros [Hxy|[Px [Py Lxy]]] [Hyz|[Py' [Pz Lyz]]]; try (now left);
      try congruence.
    right. split; [assumption|]. split; [assumption|].
    rewrite Px in Hx. rewrite Py in Hy. rewrite Pz in Hz. simpl in Hx, Hy, Hz.
    destruct d.
    + destruct (lessThan (DataTable.field z k) (DataTable.field x k)) eqn:L;
        [|reflexivity].
      destruct (kind_cotrans _ (DataTable.field y k) _ Hz Hy Hx L); congruence.
    + destruct (lessThan (DataTable.field x k) (DataTable.field z k)) eqn:L;
        [|reflexivity].
      destruct (kind_cotrans _ (DataTable.field y k) _ Hx Hy Hz L); congruence.
  - unfold Notions.columnOf in Hcol. rewrite forallb_forall in Hcol.
    apply Forall_forall. exact Hcol.
Qed.
End KindOfValues.

(** X3.  When every record holds a string under the sort key, or every
    record an integer (records that miss the field apart), the sorted
    column is in order: ascending, no value is followed by a smaller one,
    descending, none by a larger one, strings compared by code units; the
    records that miss the field come last. *)
Theorem homogeneous_column_in_order (data : list DataTable.DataTableRow)
  (k : string) (d : DataTable.SortDirection) :
  Notions.columnOf Notions.isText k data = true
  \/ Notions.columnOf Notions.isInteger k data = true ->
  StronglySorted (Notions.inDirection d k)
                 (DataTable.sortedData data (sortedOn k d)).
Proof.
  intros [H|H].
  - apply (column_in_order Notions.isText); try exact H.
    + intros [] []; try discriminate. intros _ _. apply String_ltb_asym.
    + intros [] [] []; try discriminate. intros _ _ _.
      apply String_ltb_cotrans.
  - apply (column_in_order Notions.isInteger); try exact H.
    + intros [| | |[]|] [| | |[]|]; try discriminate. intros _ _.
      unfold lessThan, ToNumber, numeric_denote.
      rewrite !number_lt_ofZ, Z.ltb_lt, Z.ltb_ge. lia.
    + intros [| | |[]|] [| | |[]|] [| | |[]|]; try discriminate.
      intros _ _ _. unfold lessThan, ToNumber, numeric_denote.
      rewrite !number_lt_ofZ, !Z.ltb_lt. lia.
Qed.

Lemma homogeneous_column_in_order_witness :
  StronglySorted (Notions.inDirection DataTable.desc "p")
                 (DataTable.sortedData priorityRows (sortedOn "p" DataTable.desc)).
Proof.
  apply (homogeneous_column_in_order priorityRows "p" DataTable.desc).
  left. reflexivity.
Defined.

(* ===================================================================== *)
(** * Substrings, case and blanks *)
(* ===================================================================== *)

Lemma append_nil_r (s : string) : (s ++ "")%string = s.
Proof. induction s as [|c s IH]; simpl; [reflexivity|now rewrite IH]. Qed.

Lemma append_assoc (a b c : string) :
  ((a ++ b) ++ c)%string = (a ++ (b ++ c))%string.
Proof. induction a as [|x a IH]; simpl; [reflexivity|now rewrite IH]. Qed.

Lemma prefix_iff (t s : string) :
  prefix t s = true <-> exists post, s = (t ++ post)%string.
Proof.
  revert s. induction t as [|c t IH]; intros s; simpl.
  - split; [intros _; now exists s|now destruct s].
  - destruct s as [|c' s]; simpl.
    + split; [discriminate|]. intros [post H]. discriminate.
    + destruct (ascii_dec c c') as [->|Hc].
      * rewrite IH. split; intros [post H]; exists post.
        -- now rewrite H.
        -- now inversion H.
      * split; [discriminate|]. intros [post H]. inversion H. congruence.
Qed.

Lemma indexOfFrom_none (s t : string) :
  forall pos, (0 <= pos)%Z ->
    indexOfFrom s t pos = (-1)%Z
    <-> forall pre post, s <> (pre ++ t ++ post)%string.
Proof.
  induction s as [|c s IH]; intros pos Hpos.
  - destruct t as [|c t]; simpl.
    + split; [lia|]. intros H. exfalso. now apply (H "" "").
    + split; [|reflexivity]. intros _ [|c' pre] post H; discriminate.
  - unfold indexOfFrom; fold indexOfFrom.
    destruct (prefix t (String c s)) eqn:Hp.
    + apply prefix_iff in Hp. destruct Hp as [post Hp].
      split; [lia|]. intros H. exfalso. apply (H "" post). exact Hp.
    + rewrite (IH (pos + 1)%Z) by lia. split.
      * intros H pre post Heq. destruct pre as [|c' pre].
        -- simpl in Heq.
           assert (prefix t (String c s) = true) by (apply prefix_iff; eauto).
           congruence.
        -- inversion Heq. now apply (H pre post).
      * intros H pre post Heq. apply (H (String c pre) post).
        simpl. now rewrite Heq.
Qed.

Lemma indexOfFrom_some (s t : string) :
  forall pos, (0 <= pos)%Z -> indexOfFrom s t pos <> (-1)%Z ->
    exists pre post, s = (pre ++ t ++ post)%string.
Proof.
  induction s as [|c s IH]; intros pos Hpos.
  - destruct t as [|c t]; simpl; intros H; [now exists "", ""|congruence].
  - unfold indexOfFrom; fold indexOfFrom.
    destruct (prefix t (String c s)) eqn:Hp; intros H.
    + apply prefix_iff in Hp. destruct Hp as [post Hp]. now exists "", post.
    + destruct (IH (pos + 1)%Z ltac:(lia) H) as [pre [post Heq]].
      exists (String c pre), post. simpl. now rewrite Heq.
Qed.

(** [includes] is the occurrence of one string in the other. *)
Lemma includes_iff (s t : string) :
  includes s t = true <-> exists pre post, s = (pre ++ t ++ post)%string.
Proof.
  unfold includes, indexOf. rewrite negb_true_iff, Z.eqb_neq. split.
  - apply indexOfFrom_some. lia.
  - intros [pre [post H]] E.
    pose proof (proj1 (indexOfFrom_none s t 0 ltac:(lia)) E) as Hn.
    now apply (Hn pre post).
Qed.

Lemma includes_trans (a b c : string) :
  includes a b = true -> includes b c = true -> includes a c = true.
Proof.
  rewrite !includes_iff. intros [p1 [q1 H1]] [p2 [q2 H2]].
  exists (p1 ++ p2)%string, (q2 ++ q1)%string.
  now rewrite H1, H2, !append_assoc.
Qed.

Lemma toLowerCase_app (a b : string) :
  toLowerCase (a ++ b) = (toLowerCase a ++ toLowerCase b)%string.
Proof. induction a as [|c a IH]; simpl; [reflexivity|now rewrite IH]. Qed.

Lemma truthy_toLowerCase (s : string) : truthy (toLowerCase s) = truthy s.
Proof. now destruct s. Qed.

Lemma isWhiteSpace_lowerChar (c : ascii) :
  isWhiteSpace (lowerChar c) = isWhiteSpace c.
Proof. destruct c as [[] [] [] [] [] [] [] []]; reflexivity. Qed.

Lemma trimStart_toLowerCase (s : string) :
  trimStart (toLowerCase s) = toLowerCase (trimStart s).
Proof.
  induction s as [|c s IH]; [reflexivity|].
  simpl. rewrite isWhiteSpace_lowerChar.
  destruct (isWhiteSpace c); [exact IH|reflexivity].
Qed.

Lemma trimEnd_keeps_ink (c : ascii) (s : string) :
  isWhiteSpace c = false -> truthy (trimEnd (String c s)) = true.
Proof.
  intros H. simpl. destruct (trimEnd s); [now rewrite H|reflexivity].
Qed.

(** A string is blank when nothing is left of it after [trimStart]. *)
Lemma truthy_trim (s : string) : truthy (trim s) = truthy (trimStart s).
Proof.
  unfold trim. induction s as [|c s IH]; [reflexivity|].
  simpl. destruct (isWhiteSpace c) eqn:Hc; [exact IH|].
  now rewrite trimEnd_keeps_ink.
Qed.

Lemma truthy_trimStart_app (a b : string) :
  truthy (trimStart (a ++ b))
  = truthy (trimStart a) || truthy (trimStart b).
Proof.
  induction a as [|c a IH]; [reflexivity|].
  simpl. destruct (isWhiteSpace c); [exact IH|reflexivity].
Qed.

Lemma blank_ignores_case (s s' : string) :
  toLowerCase s = toLowerCase s' -> truthy (trim s) = truthy (trim s').
Proof.
  intros H.
  rewrite !truthy_trim, <- (truthy_toLowerCase (trimStart s)),
    <- (truthy_toLowerCase (trimStart s')), <- !trimStart_toLowerCase.
  now rewrite H.
Qed.

Lemma ink_in_larger (s s' : string) :
  includes (toLowerCase s') (toLowerCase s) = true ->
  truthy (trim s) = true -> truthy (trim s') = true.
Proof.
  rewrite includes_iff, !truthy_trim. intros [pre [post H]] Hs.
  rewrite <- truthy_toLowerCase, <- trimStart_toLowerCase, H.
  rewrite !truthy_trimStart_app, trimStart_toLowerCase, truthy_toLowerCase, Hs.
  now rewrite orb_true_r.
Qed.

(* ===================================================================== *)
(** * Search and filters of the data table *)
(* ===================================================================== *)

Lemma rejects_ignores_case (row : DataTable.DataTableRow) (k v v' : string) :
  toLowerCase v = toLowerCase v' ->
  DataTable.rejects row (k, v) = DataTable.rejects row (k, v').
Proof.
  intros H. unfold DataTable.rejects.
  now rewrite <- (truthy_toLowerCase v), <- (truthy_toLowerCase v'), H.
Qed.

Lemma setProperty_ignores_case (row : DataTable.DataTableRow)
  (F : object string) (k v v' : string) :
  toLowerCase v = toLowerCase v' ->
  existsb (DataTable.rejects row) (DataTableState.setProperty F k v)
  = existsb (DataTable.rejects row) (DataTableState.setProperty F k v').
Proof.
  intros H.
  induction F as [|[k0 v0] F IH]; cbn [DataTableState.setProperty existsb].
  - now rewrite (rejects_ignores_case row k v v' H).
  - destruct (k0 =? k)%string; cbn [existsb].
    + now rewrite (rejects_ignores_case row k v v' H).
    + now rewrite IH.
Qed.

Lemma filter_ext_all {A : Type} (f g : A -> bool) (l : list A) :
  (forall x, f x = g x) -> filter f l = filter g l.
Proof.
  intros H. induction l as [|x l IH]; simpl; [reflexivity|].
  now rewrite H, IH.
Qed.

(** X4.  The search term and the value typed into a column filter are
    matched without regard to case: two terms, and two filter values, that
    differ only in the case of their letters show the same rows. *)
Theorem table_query_ignores_case (data : list DataTable.DataTableRow)
  (F : object string) (k v v' s s' : string)
  (columns : list DataTable.DataTableColumn) :
  toLowerCase s = toLowerCase s' ->
  toLowerCase v = toLowerCase v' ->
  DataTable.filteredData data (DataTableState.handleFilter F k v) s columns
  = DataTable.filteredData data (DataTableState.handleFilter F k v') s' columns.
Proof.
  intros Hs Hv. unfold DataTable.filteredData, DataTableState.handleFilter.
  apply filter_ext_all. intros row. unfold DataTable.keeps.
  rewrite (setProperty_ignores_case row F k v v' Hv).
  rewrite <- (truthy_toLowerCase s), <- (truthy_toLowerCase s'), Hs.
  unfold DataTable.matchesSearch. now rewrite Hs.
Qed.

Lemma table_query_ignores_case_witness :
  DataTable.filteredData people
    (DataTableState.handleFilter [] "city" "ROME") "AL"
    [column "name"; column "city"]
  = DataTable.filteredData people
      (DataTableState.handleFilter [] "city" "rome") "al"
      [column "name"; column "city"].
Proof.
  apply (table_query_ignores_case people [] "city" "ROME" "rome" "AL" "al").
  - reflexivity.
  - reflexivity.
Defined.

Lemma matchesSearch_iff (columns : list DataTable.DataTableColumn)
  (s : string) (row : DataTable.DataTableRow) :
  DataTable.matchesSearch columns s row = true
  <-> exists col, In col columns
        /\ includes (toLowerCase (ToString (DataTable.field row (DataTable.key col))))
                    (toLowerCase s) = true.
Proof.
  unfold DataTable.matchesSearch. rewrite existsb_exists. reflexivity.
Qed.

(** X5.  A longer search term never shows more: if the new term contains
    the old one (case apart), every row shown for the new term is shown
    for the old one. *)
Theorem longer_term_narrows (data : list DataTable.DataTableRow)
  (F : object string) (s s' : string)
  (columns : list DataTable.DataTableColumn) :
  includes (toLowerCase s') (toLowerCase s) = true ->
  forall row,
    In row (DataTable.filteredData data F s' columns) ->
    In row (DataTable.filteredData data F s columns).
Proof.
  intros Hinc row. unfold DataTable.filteredData.
  rewrite !filter_In, !keeps_spec. intros [Hin [Hf Hs']].
  split; [assumption|]. split; [assumption|]. intros Hs.
  assert (Ht : truthy s' = true).
  { apply includes_iff in Hinc. destruct Hinc as [pre [post Heq]].
    rewrite <- truthy_toLowerCase, Heq.
    rewrite <- truthy_toLowerCase in Hs.
    destruct pre; [|reflexivity]. simpl.
    now destruct (toLowerCase s). }
  apply matchesSearch_iff in Hs'; [|exact Ht].
  apply matchesSearch_iff. destruct Hs' as [col [Hc Hm]].
  exists col. split; [assumption|]. now apply includes_trans with (toLowerCase s').
Qed.

Lemma longer_term_narrows_witness :
  In [("name", VString "Alice"); ("city", VString "Paris")]
     (DataTable.filteredData people [] "al" [column "name"; column "city"]).
Proof.
  apply (longer_term_narrows people [] "al" "Ali"
           [column "name"; column "city"]).
  - reflexivity.
  - left. reflexivity.
Defined.

Lemma others_absent (k : string) (F : object string) :
  ~ In k (map fst F) -> Notions.others k F = F.
Proof.
  unfold Notions.others. induction F as [|[k0 v0] F IH]; simpl; intros H.
  - reflexivity.
  - destruct (k0 =? k)%string eqn:E.
    + apply String.eqb_eq in E. tauto.
    + simpl. rewrite IH; [reflexivity|tauto].
Qed.

Lemma setProperty_rejects (row : DataTable.DataTableRow) (F : object string)
  (k v : string) :
  NoDup (map fst F) ->
  existsb (DataTable.rejects row) (DataTableState.setProperty F k v)
  = DataTable.rejects row (k, v)
    || existsb (DataTable.rejects row) (Notions.others k F).
Proof.
  induction F as [|[k0 v0] F IH];
    cbn [DataTableState.setProperty existsb map fst]; intros Hnd.
  - unfold Notions.others. cbn [filter existsb]. now rewrite orb_false_r.
  - inversion Hnd as [|? ? Hnot Hnd']; subst.
    unfold Notions.others in *. cbn [filter fst].
    destruct (k0 =? k)%string eqn:E; cbn [negb existsb].
    + apply String.eqb_eq in E. subst k0.
      fold (Notions.others k F). now rewrite others_absent.
    + rewrite IH by assumption.
      destruct (DataTable.rejects row (k0, v0)),
               (DataTable.rejects row (k, v)); reflexivity.
Qed.

(** X6.  A value typed into the filter of a column replaces the value that
    the filter held: afterwards the rows are those that pass the new value
    on that column and the filters of the other columns.  A filter that is
    cleared constrains nothing any more. *)
Theorem filter_value_replaces (data : list DataTable.DataTableRow)
  (F : object string) (k v s : string)
  (columns : list DataTable.DataTableColumn) :
  NoDup (map fst F) ->
  DataTable.filteredData data (DataTableState.handleFilter F k v) s columns
  = DataTable.filteredData data ((k, v) :: Notions.others k F) s columns
  /\ DataTable.filteredData data (DataTableState.handleFilter F k "") s columns
     = DataTable.filteredData data (Notions.others k F) s columns
  /\ NoDup (map fst (DataTableState.handleFilter F k v)).
Proof.
  intros Hnd. split; [|split].
  - unfold DataTable.filteredData, DataTableState.handleFilter.
    apply filter_ext_all. intros row. unfold DataTable.keeps.
    now rewrite setProperty_rejects.
  - unfold DataTable.filteredData, DataTableState.handleFilter.
    apply filter_ext_all. intros row. unfold DataTable.keeps.
    now rewrite setProperty_rejects.
  - unfold DataTableState.handleFilter.
    induction F as [|[k0 v0] F IH]; simpl.
    + constructor; [intros []|constructor].
    + inversion Hnd as [|? ? Hnot Hnd']; subst.
      destruct (k0 =? k)%string eqn:E; simpl.
      * apply String.eqb_eq in E. subst. now constructor.
      * constructor; [|now apply IH].
        intros Hin. apply Hnot.
        assert (Hkeys : forall G, In k0 (map fst (DataTableState.setProperty G k v))
                                  -> In k0 (map fst G)).
        { induction G as [|[k1 v1] G IHG]; simpl.
          - intros [H|[]]. subst. now rewrite String.eqb_refl in E.
          - destruct (k1 =? k)%string eqn:E1; simpl.
            + intros [H|H]; [|now right]. subst.
              now rewrite String.eqb_refl in E.
            + intros [H|H]; [now left|right; now apply IHG]. }
        now apply Hkeys.
Qed.

Lemma filter_value_replaces_witness :
  DataTable.filteredData people
    (DataTableState.handleFilter [("city", "paris")] "city" "") ""
    [column "name"; column "city"]
  = DataTable.filteredData people (Notions.others "city" [("city", "paris")]) ""
      [column "name"; column "city"].
Proof.
  apply (filter_value_replaces people [("city", "paris")] "city" "" ""
           [column "name"; column "city"]).
  repeat constructor. intros [].
Defined.

(* ===================================================================== *)
(** * Search of the task list *)
(* ===================================================================== *)

(** X7.  The search of the task list takes no account of case: two
    queries that differ only in the case of their letters return the same
    tasks. *)
Theorem task_search_ignores_case (tasks : list TaskList.Task) (q q' : string) :
  toLowerCase q = toLowerCase q' ->
  TaskList.filterTasks tasks q = TaskList.filterTasks tasks q'.
Proof.
  intros H. unfold TaskList.filterTasks.
  now rewrite (blank_ignores_case q q' H), H.
Qed.

Lemma task_search_ignores_case_witness :
  TaskList.filterTasks fiveTasks "DESIGN" = TaskList.filterTasks fiveTasks "design".
Proof.
  apply (task_search_ignores_case fiveTasks "DESIGN" "design"). reflexivity.
Defined.

Lemma optIncludes_narrows (x : option string) (q q' : string) :
  includes q' q = true ->
  TaskList.optIncludes x q' = true -> TaskList.optIncludes x q = true.
Proof.
  intros Hq. unfold TaskList.optIncludes. destruct x as [s|]; [|discriminate].
  rewrite !andb_true_iff. intros [H1 H2]. split; [assumption|].
  now apply includes_trans with q'.
Qed.

Lemma matchesQuery_narrows (q q' : string) (t : TaskList.Task) :
  includes q' q = true ->
  TaskList.matchesQuery q' t = true -> TaskList.matchesQuery q t = true.
Proof.
  intros Hq. unfold TaskList.matchesQuery.
  rewrite !orb_true_iff. intros [[[[H|H]|H]|H]|H].
  - left. left. left. left. now apply includes_trans with q'.
  - left. left. left. right. now apply optIncludes_narrows with q'.
  - left. left. right. now apply optIncludes_narrows with q'.
  - left. right. now apply optIncludes_narrows with q'.
  - right. destruct (TaskList.tags t) as [ts|]; [|discriminate].
    apply existsb_exists in H. destruct H as [tag [Hin Hm]].
    apply existsb_exists. exists tag. split; [assumption|].
    now apply includes_trans with q'.
Qed.

(** X8.  A longer query never returns more tasks: if the new query
    contains the old one (case apart), every task it returns is returned
    for the old one. *)
Theorem longer_query_narrows (tasks : list TaskList.Task) (q q' : string) :
  includes (toLowerCase q') (toLowerCase q) = true ->
  forall t,
    In t (TaskList.filterTasks tasks q') -> In t (TaskList.filterTasks tasks q).
Proof.
  intros Hinc t. unfold TaskList.filterTasks.
  destruct (truthy (trim q)) eqn:Hq; simpl.
  - rewrite (ink_in_larger q q' Hinc Hq). simpl.
    rewrite !filter_In. intros [Hin Hm]. split; [assumption|].
    now apply matchesQuery_narrows with (toLowerCase q').
  - destruct (negb (truthy (trim q'))); [auto|].
    intros H. now apply filter_In in H.
Qed.

Lemma longer_query_narrows_witness :
  In (boardTask "task-1" "Design homepage mockup" "in-progress" "high"
        "Website Redesign")
     (TaskList.filterTasks fiveTasks "des").
Proof.
  apply (longer_query_narrows fiveTasks "des" "Design").
  - reflexivity.
  - left. reflexivity.
Defined.

(* ===================================================================== *)
(** * The buttons of the pagination footer *)
(* ===================================================================== *)

Lemma number_ge_ofZ (a b : Z) :
  DataTable.number_ge (ofZ a) (ofZ b) = (b <=? a)%Z.
Proof.
  unfold DataTable.number_ge. change (ofZ a) with (Finite (inject_Z a)).
  change (ofZ b) with (Finite (inject_Z b)). cbv iota.
  change (Finite (inject_Z a)) with (ofZ a).
  change (Finite (inject_Z b)) with (ofZ b).
  rewrite number_lt_ofZ.
  destruct (a <? b)%Z eqn:E1, (b <=? a)%Z eqn:E2; try reflexivity;
    [apply Z.ltb_lt in E1; apply Z.leb_le in E2
    |apply Z.ltb_ge in E1; apply Z.leb_gt in E2]; lia.
Qed.

(** X9.  The footer shows the page it was given.  For a page size above 0
    and a total of at least 0, the page count it shows is the ceiling of
    total / pageSize, Next is disabled exactly from that page on, which is
    exactly when no record lies beyond the current page
    ([total <= page * pageSize]), and Previous is disabled exactly on
    page 1.  With a page size of 0 and records to show, the count shown
    is Infinity and Next is never disabled. *)
Theorem footer_buttons (p : DataTable.Pagination) :
  (0 <= DataTable.total p)%Z ->
  exists footer,
    DataTable.paginationFooter (Some p) = Normal (Some footer)
    /\ DataTable.shownPage footer = DataTable.page p
    /\ (DataTable.previousDisabled footer = true <-> DataTable.page p = 1%Z)
    /\ ((0 < DataTable.pageSize p)%Z ->
        exists n,
          DataTable.shownPages footer = ofZ n
          /\ ((n - 1) * DataTable.pageSize p < DataTable.total p
              <= n * DataTable.pageSize p)%Z
          /\ (DataTable.nextDisabled footer = true
              <-> (n <= DataTable.page p)%Z)
          /\ (DataTable.nextDisabled footer = true
              <-> (DataTable.total p
                   <= DataTable.page p * DataTable.pageSize p)%Z))
    /\ (DataTable.pageSize p = 0%Z -> (0 < DataTable.total p)%Z ->
        DataTable.shownPages footer = PosInfinity
        /\ DataTable.nextDisabled footer = false).
Proof.
  intros Ht.
  exists {| DataTable.shownPage := DataTable.page p;
            DataTable.shownPages := DataTable.totalPages p;
            DataTable.previousDisabled := (DataTable.page p =? 1)%Z;
            DataTable.nextDisabled :=
              DataTable.number_ge (ofZ (DataTable.page p))
                                  (DataTable.totalPages p) |}.
  split; [reflexivity|].
  cbn [DataTable.shownPage DataTable.shownPages DataTable.previousDisabled
       DataTable.nextDisabled].
  split; [reflexivity|]. split; [|split].
  - apply Z.eqb_eq.
  - intros Hs.
    exists (- ((- DataTable.total p) / DataTable.pageSize p))%Z.
    rewrite totalPages_nonzero by lia.
    rewrite number_ge_ofZ, Z.leb_le.
    pose proof (Z.div_mod (- DataTable.total p) (DataTable.pageSize p)
                  ltac:(lia)) as Hdm.
    pose proof (Z.mod_pos_bound (- DataTable.total p) (DataTable.pageSize p)
                  Hs) as Hb.
    split; [reflexivity|]. split; [nia|]. split; [reflexivity|].
    split; intros H; nia.
  - intros Hs Hpos.
    assert (E : DataTable.totalPages p = PosInfinity).
    { unfold DataTable.totalPages, number_div, ofZ.
      change (Qnum (inject_Z (DataTable.pageSize p)))
        with (DataTable.pageSize p).
      change (Qnum (inject_Z (DataTable.total p))) with (DataTable.total p).
      rewrite Hs. simpl.
      destruct (DataTable.total p =? 0)%Z eqn:E; [apply Z.eqb_eq in E; lia|].
      destruct (0 <? DataTable.total p)%Z eqn:E'; [reflexivity|].
      apply Z.ltb_ge in E'. lia. }
    rewrite E. split; reflexivity.
Qed.

Lemma footer_buttons_witness :
  exists footer,
    DataTable.paginationFooter
      (Some {| DataTable.page := 4; DataTable.pageSize := 3;
               DataTable.total := 10 |}) = Normal (Some footer)
    /\ DataTable.shownPages footer = ofZ 4
    /\ DataTable.nextDisabled footer = true.
Proof.
  destruct (footer_buttons {| DataTable.page := 4; DataTable.pageSize := 3;
                              DataTable.total := 10 |})
    as [footer [H1 [_ [_ [H3 _]]]]].
  - simpl. lia.
  - exists footer. split; [exact H1|].
    destruct H3 as [n [E [Hn [_ Hd]]]]; [simpl; lia|].
    simpl in Hn. assert (n = 4%Z) by lia. subst n.
    split; [exact E|]. apply Hd. simpl. lia.
Defined.

(* ===================================================================== *)
(** * Outcome of a grouping reduction *)
(* ===================================================================== *)

Section GroupingOutcome.
Context {T : Type}.
Variable label : T -> string.

Lemma getOwn_pushed (g : object (list T)) (k k' : string) (x : T) :
  getOwn (pushed g k x) k'
  = if (k =? k')%string then Some (bucket g k ++ [x]) else getOwn g k'.
Proof.
  unfold pushed, bucket.
  destruct (getOwn g k) as [b|] eqn:Hg.
  - rewrite getOwn_update.
    destruct (k =? k')%string eqn:E; [|reflexivity].
    apply String.eqb_eq in E. subst k'. now rewrite Hg.
  - rewrite getOwn_app_new.
    destruct (k =? k')%string eqn:E.
    + apply String.eqb_eq in E. subst k'. now rewrite Hg.
    + now destruct (getOwn g k').
Qed.

(** No own key of the object is the name of a member of
    [Object.prototype]. *)
Lemma pushed_keeps_own_keys_clean (g : object (list T)) (k : string) (x : T) :
  inherited k = false ->
  (forall k', getOwn g k' <> None -> inherited k' = false) ->
  forall k', getOwn (pushed g k x) k' <> None -> inherited k' = false.
Proof.
  intros Hk Hg k'. rewrite getOwn_pushed.
  destruct (k =? k')%string eqn:E; [|apply Hg].
  apply String.eqb_eq in E. now subst.
Qed.

Lemma reduce_throws (l : list T) (g : object (list T)) :
  (forall k, getOwn g k <> None -> inherited k = false) ->
  Notions.someInherited label l = true ->
  reduce (fun g x => pushInto g (label x) x) l g
  = Throw (TypeError "groups[key].push is not a function").
Proof.
  revert g. induction l as [|x l IH]; intros g Hg; [discriminate|].
  unfold Notions.someInherited in *. simpl.
  destruct (inherited (label x)) eqn:Hx; simpl.
  - intros _. rewrite pushInto_inherited; [reflexivity|assumption|].
    destruct (getOwn g (label x)) eqn:E; [|reflexivity].
    assert (inherited (label x) = false) by (apply Hg; congruence).
    congruence.
  - intros H. rewrite pushInto_ok by assumption. simpl.
    apply IH; [|assumption].
    now apply pushed_keeps_own_keys_clean.
Qed.

Lemma map_fst_update (g : object (list T)) (k : string)
  (f : list T -> list T) :
  map fst (update g k f) = map fst g.
Proof.
  induction g as [|[k0 b0] g IH]; simpl; [reflexivity|].
  destruct (k0 =? k)%string; simpl; [reflexivity|now rewrite IH].
Qed.

Lemma getOwn_none_iff (g : object (list T)) (k : string) :
  getOwn g k = None <-> existsb (String.eqb k) (map fst g) = false.
Proof.
  induction g as [|[k0 b0] g IH]; simpl; [tauto|].
  rewrite (String.eqb_sym k k0).
  destruct (k0 =? k)%string; simpl; [split; discriminate|exact IH].
Qed.

Lemma map_fst_pushed (g : object (list T)) (k : string) (x : T) :
  map fst (pushed g k x)
  = if existsb (String.eqb k) (map fst g) then map fst g
    else map fst g ++ [k].
Proof.
  unfold pushed. destruct (getOwn g k) as [b|] eqn:Hg.
  - rewrite map_fst_update.
    destruct (existsb (String.eqb k) (map fst g)) eqn:E; [reflexivity|].
    apply getOwn_none_iff in E. congruence.
  - apply getOwn_none_iff in Hg. rewrite Hg.
    now rewrite map_app.
Qed.

Lemma map_fst_fold (l : list T) (g : object (list T)) :
  map fst (fold_left (fun g x => pushed g (label x) x) l g)
  = fold_left (fun seen k => if existsb (String.eqb k) seen then seen
                             else seen ++ [k])
              (map label l) (map fst g).
Proof.
  revert g. induction l as [|x l IH]; intros g; [reflexivity|].
  simpl. now rewrite IH, map_fst_pushed.
Qed.

(** A grouping reduction throws when some label is the name of a member
    of [Object.prototype].  When none is, it returns the labels as keys, in
    the order in which they first occur, each with the records of that
    label in input order. *)
Lemma reduce_outcome (l : list T) :
  (Notions.someInherited label l = true ->
   reduce (fun g x => pushInto g (label x) x) l []
   = Throw (TypeError "groups[key].push is not a function"))
  /\ (Notions.someInherited label l = false ->
      exists groups,
        reduce (fun g x => pushInto g (label x) x) l [] = Normal groups
        /\ map fst groups = Notions.firstOccurrences (map label l)
        /\ (forall k, bucket groups k
                      = filter (fun x => (label x =? k)%string) l)
        /\ Permutation (allBuckets groups) l).
Proof.
  split.
  - apply reduce_throws. intros k H. now elim H.
  - intros H.
    assert (Hall : forall x, In x l -> inherited (label x) = false).
    { intros x Hx. unfold Notions.someInherited in H.
      destruct (inherited (label x)) eqn:E; [|reflexivity].
      assert (existsb (fun x => inherited (label x)) l = true)
        by (apply existsb_exists; eauto).
      congruence. }
    eexists. split; [now apply reduce_pushed|]. split; [|split].
    + apply (map_fst_fold l []).
    + intros k. apply (bucket_fold label l [] k).
    + apply (allBuckets_fold label l []).
Qed.
End GroupingOutcome.

(* ===================================================================== *)
(** * What the grouped views render *)
(* ===================================================================== *)

Lemma insertIndex_perm (i : Z) (k : string) (l : list (Z * string)) :
  Permutation (insertIndex i k l) ((i, k) :: l).
Proof.
  induction l as [|[j k'] l IH]; simpl; [apply Permutation_refl|].
  destruct (i <? j)%Z; [apply Permutation_refl|].
  eapply perm_trans; [apply perm_skip, IH|apply perm_swap].
Qed.

(** [Object.keys] lists every own key once. *)
Lemma Object_keys_perm {V : Type} (o : object V) :
  Permutation (Object_keys o) (map fst o).
Proof.
  unfold Object_keys.
  induction o as [|[k v] o IH]; simpl; [apply Permutation_refl|].
  destruct (arrayIndex k) as [i|].
  - eapply perm_trans.
    + apply Permutation_app_tail, Permutation_map, insertIndex_perm.
    + simpl. now apply perm_skip.
  - eapply perm_trans; [apply Permutation_sym, Permutation_middle|].
    now apply perm_skip.
Qed.

Lemma firstOccurrences_NoDup (keys seen : list string) :
  NoDup seen ->
  NoDup (fold_left (fun seen k => if existsb (String.eqb k) seen then seen
                                  else seen ++ [k]) keys seen).
Proof.
  revert seen. induction keys as [|k keys IH]; intros seen H; [exact H|].
  simpl. apply IH.
  destruct (existsb (String.eqb k) seen) eqn:E; [exact H|].
  apply NoDup_app; [exact H|repeat constructor; intros []|].
  intros x Hx [Hk|[]]. subst x.
  assert (existsb (String.eqb k) seen = true).
  { apply existsb_exists. exists k. split; [assumption|apply String.eqb_refl]. }
  congruence.
Qed.

Section Buckets.
Context {T : Type}.

Lemma bucket_cons_other (g : object (list T)) (k k' : string) (b : list T) :
  k <> k' -> bucket ((k, b) :: g) k' = bucket g k'.
Proof.
  intros H. unfold bucket. simpl.
  apply String.eqb_neq in H. now rewrite H.
Qed.

(** Reading the buckets key by key gives all the buckets. *)
Lemma buckets_by_key (g : object (list T)) :
  NoDup (map fst g) -> flat_map (bucket g) (map fst g) = allBuckets g.
Proof.
  unfold allBuckets. induction g as [|[k b] g IH]; simpl; intros H.
  - reflexivity.
  - inversion H as [|? ? Hnot Hnd]; subst.
    unfold bucket at 1. simpl. rewrite String.eqb_refl. f_equal.
    rewrite <- IH by assumption.
    clear IH H Hnd. induction (map fst g) as [|k' ks IHk]; [reflexivity|].
    simpl. rewrite bucket_cons_other.
    + f_equal. apply IHk. intros Hin. apply Hnot. now right.
    + intros E. apply Hnot. now left.
Qed.

Lemma buckets_in_any_order (g : object (list T)) (keys : list string) :
  NoDup (map fst g) -> Permutation keys (map fst g) ->
  Permutation (flat_map (bucket g) keys) (allBuckets g).
Proof.
  intros Hnd Hp. rewrite <- buckets_by_key by assumption.
  now apply Permutation_flat_map.
Qed.

Variable label : T -> string.

(** What a grouping reduction returns, when it returns: distinct keys, and
    in its buckets the input records. *)
Lemma reduce_returns (l : list T) (groups : object (list T)) :
  reduce (fun g x => pushInto g (label x) x) l [] = Normal groups ->
  NoDup (map fst groups) /\ Permutation (allBuckets groups) l.
Proof.
  intros H.
  destruct (reduce_outcome label l) as [H1 H2].
  destruct (Notions.someInherited label l) eqn:E.
  - rewrite (H1 eq_refl) in H. discriminate.
  - destruct (H2 eq_refl) as [gr [E1 [E2 [_ E4]]]].
    rewrite E1 in H. inversion H; subst gr. split; [|exact E4].
    rewrite E2. apply firstOccurrences_NoDup. constructor.
Qed.
End Buckets.

Lemma groupTasks_returns (tasks : list TaskList.Task) (g : TaskList.GroupBy)
  (groups : object (list TaskList.Task)) :
  TaskList.groupTasks tasks g = Normal groups ->
  NoDup (map fst groups) /\ Permutation (allBuckets groups) tasks.
Proof.
  destruct g; try apply (reduce_returns (taskLabel _)).
  simpl. intros H. inversion H; subst. split.
  - repeat constructor. intros [].
  - unfold allBuckets. simpl. rewrite app_nil_r. apply Permutation_refl.
Qed.

(** X12.  When the task list renders, it renders every group once, and
    under the group headers, whatever their order, the tasks that pass the
    search, each once. *)
Theorem task_list_renders_filtered_tasks
  (localeCompare : string -> string -> Z) (tasks : list TaskList.Task)
  (groupByProp : TaskList.GroupBy) (state : option TaskList.TaskListState)
  (view : TaskList.View) :
  TaskList.derive localeCompare tasks groupByProp state = Normal view ->
  NoDup (TaskList.sortedGroupKeys view)
  /\ Permutation
       (flat_map (bucket (TaskList.groupedTasks view))
                 (TaskList.sortedGroupKeys view))
       (TaskList.filteredTasks view)
  /\ TaskList.filteredTasks view
     = TaskList.filterTasks tasks
         (match state with Some st => TaskList.searchQuery st | None => "" end).
Proof.
  unfold TaskList.derive.
  set (filtered := TaskList.filterTasks tasks _).
  set (g := match state with Some st => TaskList.groupBy st | None => _ end).
  destruct (TaskList.groupTasks filtered g) as [groups|e] eqn:Hg; simpl;
    [|discriminate].
  intros H. inversion H; subst view; clear H. simpl.
  destruct (groupTasks_returns filtered g groups Hg) as [Hnd Hp].
  assert (Hkeys : Permutation
            (Array_sort (TaskList.compareGroupKeys localeCompare
                           (option_map TaskList.groupBy state))
                        (Object_keys groups))
            (map fst groups)).
  { eapply perm_trans; [apply Array_sort_perm|apply Object_keys_perm]. }
  split; [|split].
  - eapply Permutation_NoDup; [apply Permutation_sym, Hkeys|exact Hnd].
  - eapply perm_trans; [now apply buckets_in_any_order|exact Hp].
  - reflexivity.
Qed.

Lemma task_list_renders_filtered_tasks_witness :
  match TaskList.derive (fun _ _ => 0%Z) fiveTasks TaskList.byPriority
                        (groupedBy TaskList.byPriority) with
  | Normal view => NoDup (TaskList.sortedGroupKeys view)
  | Throw _ => False
  end.
Proof.
  destruct (TaskList.derive (fun _ _ => 0%Z) fiveTasks TaskList.byPriority
                            (groupedBy TaskList.byPriority)) as [view|e] eqn:E.
  - apply (task_list_renders_filtered_tasks _ _ _ _ _ E).
  - vm_compute in E. discriminate.
Defined.

(* ===================================================================== *)
(** * The keys of a grouping, as [Object.keys] lists them *)
(* ===================================================================== *)

Lemma nameKeys_filter {V : Type} (o : object V) :
  nameKeys o = filter (fun k => negb (Notions.isArrayIndex k)) (map fst o).
Proof.
  induction o as [|[k v] o IH]; [reflexivity|].
  simpl. unfold Notions.isArrayIndex.
  destruct (arrayIndex k); simpl; now rewrite IH.
Qed.

Lemma insertIndex_sorted (i : Z) (k : string) (l : list (Z * string)) :
  StronglySorted (fun a b => (fst a <= fst b)%Z) l ->
  StronglySorted (fun a b => (fst a <= fst b)%Z) (insertIndex i k l).
Proof.
  induction 1 as [|[j k'] l Hs IH Hall]; simpl.
  - constructor; constructor.
  - destruct (Z.ltb_spec i j).
    + constructor; [now constructor|].
      constructor; [simpl; lia|].
      eapply Forall_impl; [|exact Hall]. simpl. intros a Ha. lia.
    + constructor; [exact IH|].
      eapply Permutation_Forall; [apply Permutation_sym, insertIndex_perm|].
      constructor; [simpl; lia|exact Hall].
Qed.

Lemma indexKeys_sorted {V : Type} (o : object V) :
  StronglySorted (fun a b => (fst a <= fst b)%Z) (indexKeys o).
Proof.
  induction o as [|[k v] o IH]; simpl; [constructor|].
  destruct (arrayIndex k); [now apply insertIndex_sorted|exact IH].
Qed.

Lemma indexKeys_indices {V : Type} (o : object V) :
  Forall (fun p => arrayIndex (snd p) = Some (fst p)) (indexKeys o).
Proof.
  induction o as [|[k v] o IH]; simpl; [constructor|].
  destruct (arrayIndex k) as [i|] eqn:E; [|exact IH].
  eapply Permutation_Forall; [apply Permutation_sym, insertIndex_perm|].
  now constructor.
Qed.

Lemma indexKeys_perm {V : Type} (o : object V) :
  Permutation (map snd (indexKeys o))
              (filter Notions.isArrayIndex (map fst o)).
Proof.
  induction o as [|[k v] o IH]; simpl; [constructor|].
  unfold Notions.isArrayIndex at 1.
  destruct (arrayIndex k) as [i|]; [|exact IH].
  eapply perm_trans; [apply Permutation_map, insertIndex_perm|].
  simpl. now apply perm_skip.
Qed.

Lemma sorted_by_index (l : list (Z * string)) :
  Forall (fun p => arrayIndex (snd p) = Some (fst p)) l ->
  StronglySorted (fun a b => (fst a <= fst b)%Z) l ->
  StronglySorted (fun a b => (Notions.indexValue a <= Notions.indexValue b)%Z)
                 (map snd l).
Proof.
  intros Hi Hs. induction Hs as [|[i k] l Hs IH Hall]; simpl; [constructor|].
  inversion Hi as [|? ? Hk Hl]; subst. simpl in Hk.
  constructor; [now apply IH|].
  rewrite Forall_map. rewrite Forall_forall in *.
  intros [j k'] Hin. simpl. unfold Notions.indexValue.
  pose proof (Hl _ Hin) as Hk'. simpl in Hk'.
  rewrite Hk, Hk'. exact (Hall _ Hin).
Qed.

Lemma firstOccurrences_from_filter (p : string -> bool)
  (keys seen : list string) :
  filter p (fold_left (fun seen k => if existsb (String.eqb k) seen then seen
                                     else seen ++ [k]) keys seen)
  = fold_left (fun seen k => if existsb (String.eqb k) seen then seen
                             else seen ++ [k]) (filter p keys) (filter p seen).
Proof.
  revert seen. induction keys as [|k keys IH]; intros seen; [reflexivity|].
  simpl. rewrite IH.
  assert (Hex : p k = true ->
                existsb (String.eqb k) (filter p seen)
                = existsb (String.eqb k) seen).
  { intros Hp. induction seen as [|x seen IHs]; [reflexivity|].
    simpl. destruct (p x) eqn:Hx; simpl; rewrite IHs; [reflexivity|].
    destruct (String.eqb_spec k x); [congruence|reflexivity]. }
  destruct (p k) eqn:Hp; simpl.
  - rewrite (Hex eq_refl).
    destruct (existsb (String.eqb k) seen); [reflexivity|].
    rewrite filter_app. simpl. now rewrite Hp.
  - destruct (existsb (String.eqb k) seen); [reflexivity|].
    rewrite filter_app. simpl. rewrite Hp. now rewrite app_nil_r.
Qed.

Lemma filter_firstOccurrences (p : string -> bool) (keys : list string) :
  filter p (Notions.firstOccurrences keys)
  = Notions.firstOccurrences (filter p keys).
Proof. apply (firstOccurrences_from_filter p keys []). Qed.

(** The keys of an object made by a grouping reduction, in the order in
    which [Object.keys] lists them. *)
Lemma Object_keys_of_grouping {V : Type} (o : object V)
  (labels : list string) :
  map fst o = Notions.firstOccurrences labels ->
  Notions.keysInOrder labels (Object_keys o).
Proof.
  intros H. exists (map snd (indexKeys o)). split; [|split].
  - unfold Object_keys. f_equal.
    now rewrite nameKeys_filter, H, filter_firstOccurrences.
  - rewrite <- filter_firstOccurrences, <- H. apply indexKeys_perm.
  - apply sorted_by_index; [apply indexKeys_indices|apply indexKeys_sorted].
Qed.

(** X10.  Grouped by status, priority, assignee or project, [groupTasks]
    throws a TypeError when the label of some task is the name of a member
    of [Object.prototype], and only then.  Otherwise the object has one
    key for each label; [Object.keys] lists the labels that are array
    indices first, in ascending order, and then the other labels in the
    order in which they first occur; and the bucket of a label holds the
    tasks of that label in input order. *)
Theorem groupTasks_outcome (tasks : list TaskList.Task) (g : TaskList.GroupBy) :
  g <> TaskList.none ->
  (Notions.someInherited (taskLabel g) tasks = true ->
   TaskList.groupTasks tasks g
   = Throw (TypeError "groups[key].push is not a function"))
  /\ (Notions.someInherited (taskLabel g) tasks = false ->
      exists groups,
        TaskList.groupTasks tasks g = Normal groups
        /\ Notions.keysInOrder (map (taskLabel g) tasks) (Object_keys groups)
        /\ (forall k, bucket groups k
                      = filter (fun t => (taskLabel g t =? k)%string) tasks)).
Proof.
  intros Hg.
  destruct (reduce_outcome (taskLabel g) tasks) as [H1 H2].
  destruct g; try contradiction; (split; [exact H1|]); intros H;
    destruct (H2 H) as [gr [E1 [E2 [E3 _]]]]; exists gr;
    (split; [exact E1|]); (split; [|exact E3]);
    now apply Object_keys_of_grouping.
Qed.

Lemma groupTasks_outcome_witness :
  exists groups,
    TaskList.groupTasks Instances.numberedProjects TaskList.byProject
    = Normal groups
    /\ Object_keys groups = ["9"; "10"; "b"]
    /\ map TaskList.id (bucket groups "b") = ["task-1"; "task-4"].
Proof.
  destruct (groupTasks_outcome Instances.numberedProjects TaskList.byProject)
    as [_ H].
  - discriminate.
  - destruct H as [groups [H1 [_ H3]]]; [reflexivity|].
    exists groups. split; [exact H1|]. split.
    + vm_compute in H1. injection H1 as <-. reflexivity.
    + rewrite H3. reflexivity.
Defined.

(** X11.  Grouped by anything but "none", [groupIssues] throws a TypeError
    when the label of some issue is the name of a member of
    [Object.prototype], and only then.  Otherwise the object has one key
    for each label; [Object.keys] lists the labels that are array indices
    first, in ascending order, and then the other labels in the order in
    which they first occur, each with the issues of that label in input
    order; an issue without project goes under "No Project", one without
    assignee under "Unassigned". *)
Theorem groupIssues_outcome (issues : list LinearIssueList.LinearIssueProps)
  (groupBy : string) :
  groupBy <> "none" ->
  (Notions.someInherited (LinearIssueList.groupKey groupBy) issues = true ->
   LinearIssueList.groupIssues issues groupBy
   = Throw (TypeError "groups[key].push is not a function"))
  /\ (Notions.someInherited (LinearIssueList.groupKey groupBy) issues = false ->
      exists groups,
        LinearIssueList.groupIssues issues groupBy = Normal groups
        /\ Notions.keysInOrder
             (map (LinearIssueList.groupKey groupBy) issues)
             (Object_keys groups)
        /\ (forall k, bucket groups k
                      = filter (fun i => (LinearIssueList.groupKey groupBy i
                                          =? k)%string) issues))
  /\ (forall i, LinearIssueList.project i = None ->
                LinearIssueList.groupKey "project" i = "No Project")
  /\ (forall i, LinearIssueList.assignee i = None ->
                LinearIssueList.groupKey "assignee" i = "Unassigned").
Proof.
  intros Hg. unfold LinearIssueList.groupIssues.
  apply String.eqb_neq in Hg. rewrite Hg.
  destruct (reduce_outcome (LinearIssueList.groupKey groupBy) issues)
    as [H1 H2].
  split; [exact H1|]. split.
  - intros H. destruct (H2 H) as [gr [E1 [E2 [E3 _]]]]. exists gr.
    split; [exact E1|]. split; [|exact E3].
    now apply Object_keys_of_grouping.
  - split; intros i Hi; unfold LinearIssueList.groupKey; simpl;
      now rewrite Hi.
Qed.

Lemma groupIssues_outcome_witness :
  exists groups,
    LinearIssueList.groupIssues Instances.numberedStatuses "status"
    = Normal groups
    /\ Object_keys groups = ["0"; "9"; "10"; "b"]
    /\ map LinearIssueList.id (bucket groups "9") = ["i-3"].
Proof.
  destruct (groupIssues_outcome Instances.numberedStatuses "status")
    as [_ [H _]].
  - discriminate.
  - destruct H as [groups [H1 [_ H3]]]; [reflexivity|].
    exists groups. split; [exact H1|]. split.
    + vm_compute in H1. injection H1 as <-. reflexivity.
    + rewrite H3. reflexivity.
Defined.

(* ===================================================================== *)
(** * The kanban board with a column list of its own *)
(* ===================================================================== *)

Lemma fold_keeps_own_keys_clean {T : Type} (label : T -> string) (l : list T)
  (g : object (list T)) :
  (forall x, In x l -> inherited (label x) = false) ->
  (forall k, getOwn g k <> None -> inherited k = false) ->
  forall k, getOwn (fold_left (fun g x => pushed g (label x) x) l g) k <> None
            -> inherited k = false.
Proof.
  revert g. induction l as [|x l IH]; intros g Hl Hg; [exact Hg|].
  simpl. apply IH.
  - intros y Hy. apply Hl. now right.
  - apply pushed_keeps_own_keys_clean; [|exact Hg]. apply Hl. now left.
Qed.

Lemma tasksByColumn_own_keys (tasks : list KanbanBoard.Task) :
  exists byColumn,
    KanbanBoard.tasksByColumn tasks = Normal byColumn
    /\ (forall column, bucket byColumn column = inColumn column tasks)
    /\ (forall k, getOwn byColumn k <> None -> inherited k = false).
Proof.
  eexists. split; [|split].
  - apply (reduce_pushed
             (fun t => KanbanBoard.statusToColumn (TaskList.status t))).
    intros t _. apply statusToColumn_own.
  - intros column.
    apply (bucket_fold
             (fun t => KanbanBoard.statusToColumn (TaskList.status t))
             tasks [] column).
  - apply fold_keeps_own_keys_clean.
    + intros t _. apply statusToColumn_own.
    + intros k H. now elim H.
Qed.

Lemma renderColumn_member (byColumn : object (list KanbanBoard.Task))
  (column : string) :
  (forall k, getOwn byColumn k <> None -> inherited k = false) ->
  inherited column = true ->
  KanbanBoard.renderColumn byColumn column
  = if Notions.throwsAsColumn column
    then Throw (TypeError "columnTasks.map is not a function")
    else Normal {| KanbanBoard.columnName := column;
                   KanbanBoard.count := VNumber (NInt 0);
                   KanbanBoard.cards := [] |}.
Proof.
  intros Hclean Hc.
  unfold KanbanBoard.renderColumn, KanbanBoard.columnTasks, Get,
    Notions.throwsAsColumn.
  destruct (getOwn byColumn column) eqn:E.
  - assert (inherited column = false) by (apply Hclean; congruence).
    congruence.
  - rewrite Hc. simpl.
    destruct (KanbanBoard.memberLength column) as [| | |[|z|]|] eqn:Hm;
      try reflexivity.
    destruct z; reflexivity.
Qed.

Lemma mapM_renderColumn_throws (byColumn : object (list KanbanBoard.Task))
  (columns : list string) :
  (forall k, getOwn byColumn k <> None -> inherited k = false) ->
  existsb Notions.throwsAsColumn columns = true ->
  KanbanBoard.mapM (KanbanBoard.renderColumn byColumn) columns
  = Throw (TypeError "columnTasks.map is not a function").
Proof.
  intros Hclean. induction columns as [|c columns IH]; [discriminate|].
  simpl. intros H.
  destruct (inherited c) eqn:Hc.
  - rewrite renderColumn_member by assumption.
    destruct (Notions.throwsAsColumn c); [reflexivity|].
    simpl in *. now rewrite IH.
  - rewrite renderColumn_bucket by assumption. simpl.
    assert (Notions.throwsAsColumn c = false)
      by (unfold Notions.throwsAsColumn; now rewrite Hc).
    rewrite H0 in H. simpl in H. now rewrite IH.
Qed.

Lemma mapM_renderColumn_buckets (byColumn : object (list KanbanBoard.Task))
  (columns : list string) :
  forallb (fun c => negb (inherited c)) columns = true ->
  KanbanBoard.mapM (KanbanBoard.renderColumn byColumn) columns
  = Normal (map (fun column =>
                   {| KanbanBoard.columnName := column;
                      KanbanBoard.count :=
                        VNumber (NInt (Z.of_nat
                                   (List.length (bucket byColumn column))));
                      KanbanBoard.cards := bucket byColumn column |})
                columns).
Proof.
  induction columns as [|c columns IH]; [reflexivity|].
  simpl. rewrite andb_true_iff, negb_true_iff. intros [Hc H].
  rewrite renderColumn_bucket by assumption. simpl.
  now rewrite IH.
Qed.

(** X13.  With a column list of its own the board shows, for every name in
    the list that is not the name of a member of [Object.prototype], the
    tasks whose status maps to that name, so a name outside "To Do",
    "In Progress", "In Review" and "Done" gives an empty column, and a
    task whose column is not in the list is shown nowhere.  A name that is
    a member of [Object.prototype] with a [length] other than 0 (such as
    "constructor") makes the board throw. *)
Theorem board_with_custom_columns (tasks : list TaskList.Task)
  (columns : list string) :
  (forallb (fun c => negb (inherited c)) columns = true ->
   KanbanBoard.KanbanBoard tasks (Some columns)
   = Normal (map (fun column => shownColumn column tasks) columns))
  /\ (existsb Notions.throwsAsColumn columns = true ->
      KanbanBoard.KanbanBoard tasks (Some columns)
      = Throw (TypeError "columnTasks.map is not a function"))
  /\ (forall column, ~ In column KanbanBoard.defaultColumns ->
                     inColumn column tasks = [])
  /\ (forall t, ~ In (KanbanBoard.statusToColumn (TaskList.status t)) columns ->
                ~ In t (flat_map (fun column => inColumn column tasks) columns)).
Proof.
  split; [|split; [|split]].
  - destruct (tasksByColumn_own_keys tasks) as [byColumn [H1 [H2 H3]]].
    intros H. unfold KanbanBoard.KanbanBoard. rewrite H1. simpl.
    rewrite mapM_renderColumn_buckets by assumption.
    f_equal. apply map_ext. intros c. unfold shownColumn. now rewrite H2.
  - destruct (tasksByColumn_own_keys tasks) as [byColumn [H1 [H2 H3]]].
    intros H. unfold KanbanBoard.KanbanBoard. rewrite H1. simpl.
    now apply mapM_renderColumn_throws.
  - intros column Hc. unfold inColumn.
    induction tasks as [|t tasks IH]; [reflexivity|].
    simpl.
    destruct (KanbanBoard.statusToColumn (TaskList.status t) =? column)%string
      eqn:E.
    + apply String.eqb_eq in E. exfalso. apply Hc. rewrite <- E.
      destruct (statusToColumn_cases (TaskList.status t)) as [H|[H|[H|H]]];
        rewrite H; simpl; auto.
    + apply IH.
  - intros t Ht Hin. apply in_flat_map in Hin.
    destruct Hin as [c [Hc Hin]]. unfold inColumn in Hin.
    apply filter_In in Hin. destruct Hin as [_ E].
    apply String.eqb_eq in E. apply Ht. now rewrite E.
Qed.

Lemma board_with_custom_columns_witness :
  KanbanBoard.KanbanBoard fiveTasks (Some ["To Do"; "Blocked"; "Done"])
  = Normal (map (fun column => shownColumn column fiveTasks)
                ["To Do"; "Blocked"; "Done"]).
Proof.
  apply (proj1 (board_with_custom_columns fiveTasks ["To Do"; "Blocked"; "Done"])).
  reflexivity.
Defined.

(* ===================================================================== *)
(** * The issue list: the limit on the items and the grouped view *)
(* ===================================================================== *)

Lemma firstn_all_iff {A : Type} (l : list A) (n : nat) :
  firstn n l = l <-> (List.length l <= n)%nat.
Proof.
  split.
  - intros H. apply (f_equal (@List.length A)) in H.
    rewrite length_firstn in H. lia.
  - apply firstn_all2.
Qed.

(** X14.  The limit [maxItems] of the issue list, for an integer [m] and
    [n] issues.  A positive [m] shows the first [m] issues, and the line
    "Showing m of n issues" appears exactly when some issue is left out.
    A negative [m] leaves out the last [-m] issues and, when there is an
    issue at all, the line reads "Showing m of n issues" with the negative
    number.  With [m = 0] every issue is shown and the text 0 is rendered
    in place of the line. *)
Theorem max_items_window {A : Type} (issues : list A) (m : Z) :
  ((0 < m)%Z ->
   LinearIssueListView.displayIssues issues (Some m)
   = firstn (Z.to_nat m) issues
   /\ (LinearIssueListView.showMore issues (Some m)
       = LinearIssueListView.NoIndicator
       <-> LinearIssueListView.displayIssues issues (Some m) = issues)
   /\ (LinearIssueListView.showMore issues (Some m)
       <> LinearIssueListView.NoIndicator
       -> LinearIssueListView.showMore issues (Some m)
          = LinearIssueListView.ShowingOf m (Z.of_nat (List.length issues))))
  /\ ((m < 0)%Z ->
      LinearIssueListView.displayIssues issues (Some m)
      = firstn (List.length issues - Z.to_nat (- m)) issues
      /\ (issues <> [] ->
          LinearIssueListView.showMore issues (Some m)
          = LinearIssueListView.ShowingOf m (Z.of_nat (List.length issues))))
  /\ (m = 0%Z ->
      LinearIssueListView.displayIssues issues (Some m) = issues
      /\ LinearIssueListView.showMore issues (Some m)
         = LinearIssueListView.TextZero).
Proof.
  unfold LinearIssueListView.displayIssues, LinearIssueListView.showMore,
    LinearIssueListView.slice0.
  split; [|split].
  - intros Hm.
    destruct (Z.eqb_spec m 0); [lia|].
    destruct (Z.ltb_spec m 0); [lia|].
    assert (E : firstn (Z.to_nat (Z.min m (Z.of_nat (List.length issues))))
                       issues
                = firstn (Z.to_nat m) issues).
    { destruct (Z.le_ge_cases m (Z.of_nat (List.length issues))).
      - now rewrite Z.min_l.
      - rewrite Z.min_r by assumption. rewrite Nat2Z.id.
        rewrite firstn_all. symmetry. apply firstn_all2. lia. }
    rewrite E. split; [reflexivity|]. rewrite firstn_all_iff.
    destruct (Z.ltb_spec m (Z.of_nat (List.length issues))).
    + split; [split; [discriminate|lia]|reflexivity].
    + split; [split; [lia|reflexivity]|]. intros H1. now elim H1.
  - intros Hm.
    destruct (Z.eqb_spec m 0); [lia|].
    destruct (Z.ltb_spec m 0); [|lia].
    split.
    + f_equal. lia.
    + intros Hi.
      destruct (Z.ltb_spec m (Z.of_nat (List.length issues))); [reflexivity|].
      lia.
  - intros ->. simpl. split; reflexivity.
Qed.

Lemma max_items_window_witness :
  LinearIssueListView.displayIssues [1; 2; 3; 4; 5]%Z (Some (-2)%Z)
  = [1; 2; 3]%Z
  /\ LinearIssueListView.showMore [1; 2; 3; 4; 5]%Z (Some (-2)%Z)
     = LinearIssueListView.ShowingOf (-2) 5.
Proof.
  destruct (proj1 (proj2 (max_items_window [1; 2; 3; 4; 5]%Z (-2)%Z)))
    as [H1 H2]; [lia|].
  split; [exact H1|]. apply H2. discriminate.
Defined.

(** X15.  When the issue list renders with a grouping other than "none",
    it shows every group once and, under the group headers, the issues
    that the limit lets through, each once. *)
Theorem issue_list_groups_displayed_issues
  (issues : list LinearIssueList.LinearIssueProps) (groupBy : string)
  (maxItems : option Z) (view : LinearIssueListView.View) :
  groupBy <> "none" ->
  LinearIssueListView.LinearIssueList issues (Some groupBy) maxItems
  = Normal view ->
  exists groups,
    LinearIssueListView.body view = LinearIssueListView.Groups groups
    /\ NoDup (map fst groups)
    /\ Permutation (flat_map snd groups)
                   (LinearIssueListView.displayIssues issues maxItems)
    /\ LinearIssueListView.more view
       = LinearIssueListView.showMore issues maxItems.
Proof.
  intros Hg. unfold LinearIssueListView.LinearIssueList,
    LinearIssueList.groupIssues.
  apply String.eqb_neq in Hg. rewrite Hg.
  destruct (reduce _ _ _) as [grouped|e] eqn:E; [|discriminate].
  simpl. intros H. inversion H; subst view; clear H. simpl.
  destruct (reduce_returns (LinearIssueList.groupKey groupBy) _ _ E)
    as [Hnd Hp].
  eexists. split; [reflexivity|]. split; [|split; [|reflexivity]].
  - rewrite map_map. simpl. rewrite map_id.
    eapply Permutation_NoDup;
      [apply Permutation_sym, Object_keys_perm|exact Hnd].
  - rewrite flat_map_concat_map, map_map. simpl.
    rewrite <- flat_map_concat_map.
    eapply perm_trans; [|exact Hp].
    apply buckets_in_any_order; [exact Hnd|apply Object_keys_perm].
Qed.

Lemma issue_list_groups_displayed_issues_witness :
  match LinearIssueListView.LinearIssueList
          [constructorIssue; constructorIssue] (Some "project") (Some 1%Z) with
  | Normal view =>
      exists groups,
        LinearIssueListView.body view = LinearIssueListView.Groups groups
        /\ Permutation (flat_map snd groups) [constructorIssue]
  | Throw _ => False
  end.
Proof.
  destruct (LinearIssueListView.LinearIssueList
              [constructorIssue; constructorIssue] (Some "project")
              (Some 1%Z)) as [view|e] eqn:E.
  - assert (Hg : "project" <> "none") by discriminate.
    destruct (issue_list_groups_displayed_issues _ _ _ _ Hg E)
      as [groups [H1 [_ [H3 _]]]].
    exists groups. split; [exact H1|exact H3].
  - vm_compute in E. discriminate.
Defined.

(* ===================================================================== *)
(** * [getTasks]: which tasks it returns, and in which order the ties *)
(* ===================================================================== *)

Lemma filter_true {A : Type} (l : list A) : filter (fun _ => true) l = l.
Proof. induction l as [|x l IH]; simpl; congruence. Qed.

Lemma filter_filter {A : Type} (p q : A -> bool) (l : list A) :
  filter q (filter p l) = filter (fun x => p x && q x) l.
Proof.
  induction l as [|x l IH]; [reflexivity|].
  simpl. destruct (p x); simpl; [destruct (q x)|]; now rewrite IH.
Qed.

Lemma narrow_filter {F : Type} (f : option F) (active : F -> bool)
  (test : F -> TaskStore.StoredTask -> bool)
  (tasks : list TaskStore.StoredTask) :
  TaskStore.narrow f active test tasks
  = filter (fun t => match f with
                     | Some v => negb (active v) || test v t
                     | None => true
                     end) tasks.
Proof.
  unfold TaskStore.narrow.
  destruct f as [v|]; [|now rewrite filter_true].
  destruct (active v); simpl; [reflexivity|now rewrite filter_true].
Qed.

(** The overdue test of [getTasks] is the one of the task card. *)
Lemma isOverdue_in_getTasks (Date_parse : string -> number)
  (t : TaskStore.StoredTask) (now : Z) :
  match TaskStore.dueDate t with
  | Some d =>
      truthy d
      && number_lt (Date_parse d) (ofZ now)
      && negb (TaskStore.hasStatus t ProjectManagement.done)
  | None => false
  end
  = TaskCard.isOverdue Date_parse (TaskStore.dueDate t)
      (option_map Notions.statusName (TaskStore.status t)) now.
Proof.
  unfold TaskCard.isOverdue, TaskStore.hasStatus.
  destruct (TaskStore.dueDate t) as [d|]; [|reflexivity].
  destruct (truthy d); simpl; [|reflexivity].
  destruct (TaskStore.status t) as [[| | |]|]; simpl;
    now rewrite ?andb_true_r, ?andb_false_r.
Qed.

Lemma getTasks_unsorted (Date_parse : string -> number)
  (store : list TaskStore.StoredTask) (now : Z)
  (f : ProjectManagement.Filters) :
  TaskStore.getTasks Date_parse store now (Some f)
  = match ProjectManagement.sortBy f with
    | Some by_ =>
        Array_sort (TaskStore.compareTasks Date_parse by_
                      (ProjectManagement.sortOrder f))
                   (filter (Notions.selects Date_parse now f) store)
    | None => filter (Notions.selects Date_parse now f) store
    end.
Proof.
  unfold TaskStore.getTasks.
  rewrite !narrow_filter, !filter_filter.
  assert (E : forall p q : TaskStore.StoredTask -> bool,
             (forall t, p t = q t) -> filter p store = filter q store)
    by (intros p q H; now apply filter_ext).
  rewrite (E _ (Notions.selects Date_parse now f)); [reflexivity|].
  intros t. unfold Notions.selects.
  rewrite <- isOverdue_in_getTasks.
  destruct (ProjectManagement.forStatus f), (ProjectManagement.forPriority f),
    (ProjectManagement.forAssignee f), (ProjectManagement.forProject f),
    (ProjectManagement.overdue f) as [[|]|];
    simpl; rewrite ?andb_assoc, ?andb_true_r; reflexivity.
Qed.

(** X16.  Whatever the host makes of a date string, [getTasks] returns the
    tasks of the store that pass every filter that is given and truthy (an
    assignee or project filter that is the empty string, and
    [overdue: false], select nothing), the overdue test being the one of
    the task card: in the order of the store when no sort key is given,
    and as a rearrangement of them otherwise.  Without filters it returns
    the store. *)
Theorem getTasks_returns_the_selected (Date_parse : string -> number)
  (store : list TaskStore.StoredTask) (now : Z)
  (f : ProjectManagement.Filters) :
  (ProjectManagement.sortBy f = None ->
   TaskStore.getTasks Date_parse store now (Some f)
   = filter (Notions.selects Date_parse now f) store)
  /\ Permutation (TaskStore.getTasks Date_parse store now (Some f))
                 (filter (Notions.selects Date_parse now f) store)
  /\ TaskStore.getTasks Date_parse store now None = store.
Proof.
  rewrite getTasks_unsorted. split; [|split].
  - now intros ->.
  - destruct (ProjectManagement.sortBy f);
      [apply Array_sort_perm|apply Permutation_refl].
  - reflexivity.
Qed.

Lemma getTasks_returns_the_selected_witness :
  map TaskStore.id
      (TaskStore.getTasks ProjectManagement.Date_parse_UTC Instances.store
         1710720000000 (Some Instances.overdueInRedesign))
  = ["task-1"].
Proof.
  rewrite (proj1 (getTasks_returns_the_selected
                    ProjectManagement.Date_parse_UTC Instances.store
                    1710720000000 Instances.overdueInRedesign) eq_refl).
  vm_compute. reflexivity.
Defined.

Lemma sameValue_not_lt (v a b : number) :
  Notions.sameValue a v = true -> Notions.sameValue b v = true ->
  number_lt a b = false.
Proof.
  destruct v, a; try discriminate; destruct b; try discriminate;
    try reflexivity.
  simpl. intros Ha Hb.
  apply Qeq_bool_iff in Ha. apply Qeq_bool_iff in Hb.
  destruct (Qltb q0 q1) eqn:E; [|reflexivity].
  apply Qltb_lt in E. rewrite Ha, Hb in E.
  now apply Qlt_irrefl in E.
Qed.

(** X17.  When the sort value of every task of the store is a number (every
    date that is read parses, every task has a priority), [getTasks]
    returns the selected tasks in the order of their sort values, and its
    sort is stable: the tasks with one and the same sort value come out in
    the order they have in the store, in both directions. *)
Theorem getTasks_keeps_ties_in_store_order (Date_parse : string -> number)
  (store : list TaskStore.StoredTask) (now : Z)
  (f : ProjectManagement.Filters) (by_ : ProjectManagement.SortBy)
  (v : number) :
  ProjectManagement.sortBy f = Some by_ ->
  Forall (fun t => TaskStore.sortValue Date_parse by_ t <> NaN) store ->
  StronglySorted (Notions.inOrder Date_parse by_ (ProjectManagement.sortOrder f))
                 (TaskStore.getTasks Date_parse store now (Some f))
  /\ filter (fun t => Notions.sameValue
                        (TaskStore.sortValue Date_parse by_ t) v)
            (TaskStore.getTasks Date_parse store now (Some f))
     = filter (fun t => Notions.sameValue
                          (TaskStore.sortValue Date_parse by_ t) v)
              (filter (Notions.selects Date_parse now f) store).
Proof.
  intros Hby Hvalid. split; [now apply getTasks_in_order|].
  rewrite getTasks_unsorted, Hby.
  apply Array_sort_filter.
  intros x y Hx Hy. unfold TaskStore.compareTasks.
  rewrite (sameValue_not_lt v _ _ Hy Hx), (sameValue_not_lt v _ _ Hx Hy).
  lia.
Qed.

Lemma getTasks_keeps_ties_in_store_order_witness :
  map TaskStore.id
      (filter (fun t => Notions.sameValue
                          (TaskStore.sortValue ProjectManagement.Date_parse_UTC
                             ProjectManagement.byPriority t) (ofZ 2))
              (TaskStore.getTasks ProjectManagement.Date_parse_UTC
                 Instances.store 0 (Some Instances.byPriorityDescending)))
  = ["task-3"; "task-4"].
Proof.
  rewrite (proj2 (getTasks_keeps_ties_in_store_order
                    ProjectManagement.Date_parse_UTC Instances.store 0
                    Instances.byPriorityDescending
                    ProjectManagement.byPriority (ofZ 2) eq_refl
                    ltac:(repeat constructor; vm_compute; discriminate))).
  vm_compute. reflexivity.
Defined.

(* ===================================================================== *)
(** * The store: [updateTaskStatus], its tool, and [createTask] *)
(* ===================================================================== *)

Lemma findIndexFrom_none {A : Type} (test : A -> bool) (l : list A) (i : Z) :
  existsb test l = false -> TaskStore.findIndexFrom test l i = (-1)%Z.
Proof.
  revert i. induction l as [|x l IH]; intros i; [reflexivity|].
  simpl. destruct (test x); [discriminate|]. simpl. apply IH.
Qed.

Lemma findIndexFrom_first {A : Type} (test : A -> bool) (l : list A) (i : Z) :
  existsb test l = true ->
  exists pre t post,
    l = pre ++ t :: post /\ test t = true /\ existsb test pre = false
    /\ TaskStore.findIndexFrom test l i = (i + Z.of_nat (List.length pre))%Z.
Proof.
  revert i. induction l as [|x l IH]; intros i; [discriminate|].
  simpl. destruct (test x) eqn:E.
  - intros _. exists [], x, l. simpl. repeat split; [exact E|lia].
  - simpl. intros H. destruct (IH (i + 1)%Z H) as [pre [t [post [H1 [H2 [H3 H4]]]]]].
    exists (x :: pre), t, post. simpl. rewrite E. subst l.
    repeat split; try assumption. rewrite H4. lia.
Qed.

Lemma nth_error_middle {A : Type} (pre post : list A) (t : A) :
  nth_error (pre ++ t :: post) (List.length pre) = Some t.
Proof. induction pre as [|x pre IH]; [reflexivity|exact IH]. Qed.

Lemma assignAt_middle {A : Type} (pre post : list A) (t x : A) :
  TaskStore.assignAt (pre ++ t :: post) (List.length pre) x = pre ++ x :: post.
Proof.
  induction pre as [|y pre IH]; [reflexivity|]. simpl. now rewrite IH.
Qed.

Lemma updateTaskStatus_unknown (store : list TaskStore.StoredTask)
  (taskId : string) (updates : TaskStore.Updates) (now : string) :
  existsb (fun t => (TaskStore.id t =? taskId)%string) store = false ->
  TaskStore.updateTaskStatus store taskId updates now
  = (TaskStore.Rejected ("Task with ID " ++ taskId ++ " not found"), store).
Proof.
  intros H. unfold TaskStore.updateTaskStatus, TaskStore.findIndex.
  now rewrite findIndexFrom_none.
Qed.

Lemma updateTaskStatus_first (pre post : list TaskStore.StoredTask)
  (t : TaskStore.StoredTask) (updates : TaskStore.Updates) (now : string) :
  existsb (fun x => (TaskStore.id x =? TaskStore.id t)%string) pre = false ->
  TaskStore.updateTaskStatus (pre ++ t :: post) (TaskStore.id t) updates now
  = (TaskStore.Fulfilled (TaskStore.updated t updates now),
     pre ++ TaskStore.updated t updates now :: post).
Proof.
  intros Hpre. unfold TaskStore.updateTaskStatus, TaskStore.findIndex.
  assert (Hex : existsb (fun x => (TaskStore.id x =? TaskStore.id t)%string)
                        (pre ++ t :: post) = true).
  { rewrite existsb_app. simpl. rewrite String.eqb_refl.
    now rewrite orb_true_r. }
  destruct (findIndexFrom_first _ _ 0%Z Hex)
    as [pre' [t' [post' [H1 [H2 [H3 H4]]]]]].
  assert (Hsame : pre' = pre /\ t' = t /\ post' = post).
  { clear H4 Hex. revert pre' H1 H3.
    induction pre as [|x pre IH]; intros pre' H1 H3.
    - destruct pre' as [|y pre']; simpl in *.
      + inversion H1. auto.
      + inversion H1; subst y. rewrite String.eqb_refl in H3. discriminate.
    - destruct pre' as [|y pre']; simpl in *.
      + inversion H1; subst t'. rewrite H2 in Hpre. discriminate.
      + injection H1 as Hy Hrest. subst y.
        apply orb_false_iff in Hpre. apply orb_false_iff in H3.
        destruct (IH (proj2 Hpre) pre' Hrest (proj2 H3)) as [-> [-> ->]].
        auto. }
  destruct Hsame as [-> [-> ->]].
  rewrite H4. simpl Z.add.
  destruct (Z.eqb_spec (Z.of_nat (List.length pre)) (-1)); [lia|].
  rewrite Nat2Z.id, nth_error_middle, assignAt_middle. reflexivity.
Qed.

(** X18.  [updateTaskStatus] rejects, with the message "Task with ID <id>
    not found" and the store as it was, exactly when no task of the store
    has the id.  Otherwise it replaces the first task with the id, and
    only that one, by the task it returns: the same task with the given
    keys of the update written over and the update time set. *)
Theorem update_reaches_the_first_match (store : list TaskStore.StoredTask)
  (taskId : string) (updates : TaskStore.Updates) (now : string) :
  (existsb (fun t => (TaskStore.id t =? taskId)%string) store = false ->
   TaskStore.updateTaskStatus store taskId updates now
   = (TaskStore.Rejected ("Task with ID " ++ taskId ++ " not found"), store))
  /\ (existsb (fun t => (TaskStore.id t =? taskId)%string) store = true ->
      exists pre t post,
        store = pre ++ t :: post
        /\ TaskStore.id t = taskId
        /\ existsb (fun x => (TaskStore.id x =? taskId)%string) pre = false
        /\ TaskStore.updateTaskStatus store taskId updates now
           = (TaskStore.Fulfilled (TaskStore.updated t updates now),
              pre ++ TaskStore.updated t updates now :: post)).
Proof.
  split; [apply updateTaskStatus_unknown|].
  intros H.
  destruct (findIndexFrom_first _ _ 0%Z H)
    as [pre [t [post [H1 [H2 [H3 _]]]]]].
  apply String.eqb_eq in H2.
  exists pre, t, post. subst store taskId.
  repeat split; try assumption.
  now apply updateTaskStatus_first.
Qed.

Lemma update_reaches_the_first_match_witness :
  TaskStore.updateTaskStatus Instances.store "task-9" Instances.reassign
                             "2024-03-15T12:00:00.000Z"
  = (TaskStore.Rejected "Task with ID task-9 not found", Instances.store).
Proof.
  apply (proj1 (update_reaches_the_first_match Instances.store "task-9"
                  Instances.reassign "2024-03-15T12:00:00.000Z")).
  reflexivity.
Defined.

(** X19.  The tool [updateTaskStatus] passes all four keys to the store,
    so when it succeeds the status, priority, assignee and due date of the
    returned task are the parameters of the call: a parameter that was
    left out erases what the task had.  The returned task has the id asked
    for and the new update time, is in the store, and the store has as
    many tasks as before. *)
Theorem tool_writes_all_four_fields (store store' : list TaskStore.StoredTask)
  (params : TaskStore.UpdateParams) (now : string)
  (task : TaskStore.StoredTask) :
  TaskStore.updateTaskStatusTool store params now
  = (TaskStore.Fulfilled task, store') ->
  TaskStore.id task = TaskStore.taskId params
  /\ TaskStore.status task = TaskStore.toStatus params
  /\ TaskStore.priority task = TaskStore.toPriority params
  /\ TaskStore.assignee task = TaskStore.toAssignee params
  /\ TaskStore.dueDate task = TaskStore.toDueDate params
  /\ TaskStore.updatedDate task = now
  /\ In task store'
  /\ List.length store' = List.length store.
Proof.
  unfold TaskStore.updateTaskStatusTool.
  destruct (existsb (fun t => (TaskStore.id t =? TaskStore.taskId params)%string)
                    store) eqn:E.
  - destruct (findIndexFrom_first _ _ 0%Z E)
      as [pre [t [post [H1 [H2 [H3 _]]]]]].
    apply String.eqb_eq in H2. subst store. rewrite <- H2 in *.
    rewrite updateTaskStatus_first by assumption.
    intros H. inversion H; subst task store'; clear H. simpl.
    repeat split.
    + apply in_or_app. right. now left.
    + rewrite !length_app. reflexivity.
  - rewrite updateTaskStatus_unknown by assumption. discriminate.
Qed.

Lemma tool_writes_all_four_fields_witness :
  match TaskStore.updateTaskStatusTool Instances.store Instances.markDone
          "2024-03-15T12:00:00.000Z" with
  | (TaskStore.Fulfilled task, _) =>
      TaskStore.assignee task = None /\ TaskStore.dueDate task = None
  | (TaskStore.Rejected _, _) => False
  end.
Proof.
  destruct (TaskStore.updateTaskStatusTool Instances.store Instances.markDone
              "2024-03-15T12:00:00.000Z") as [[task|message] store'] eqn:E.
  - destruct (tool_writes_all_four_fields _ _ _ _ _ E)
      as [_ [_ [_ [H1 [H2 _]]]]].
    split; [exact H1|exact H2].
  - vm_compute in E. discriminate.
Defined.



Lemma Number_toString_integer_inj (a b : Z) :
  Number_toString (NInt a) = Number_toString (NInt b) -> a = b.
Proof.
  unfold Number_toString. intros H.
  apply Stdlib.Numbers.DecimalZ.to_int_inj.
  assert (Hn : forall z, Z.to_int z <> Decimal.Pos Decimal.Nil
                         /\ Z.to_int z <> Decimal.Neg Decimal.Nil).
  { intros [|p|p]; split; try discriminate; intros E; injection E;
      apply Stdlib.Numbers.DecimalPos.Unsigned.to_uint_nonnil. }
  assert (E : Some (Z.to_int a) = Some (Z.to_int b)).
  { rewrite <- (NilZero.isi (Z.to_int a)) by apply Hn.
    rewrite <- (NilZero.isi (Z.to_int b)) by apply Hn.
    now rewrite H. }
  now injection E.
Qed.

(** X21.  The id that [createTask] gives is "task-" followed by the
    decimal digits of the clock reading in milliseconds, so two created
    tasks have the same id exactly when they were created in the same
    millisecond, whatever their data. *)
Theorem created_ids_follow_the_clock (store store' : list TaskStore.StoredTask)
  (taskData taskData' : TaskStore.TaskData) (clock clock' : TaskStore.Clock) :
  TaskStore.id (fst (TaskStore.createTask store taskData clock))
  = TaskStore.id (fst (TaskStore.createTask store' taskData' clock'))
  <-> TaskStore.nowMs clock = TaskStore.nowMs clock'.
Proof.
  simpl. split.
  - intros H. apply Number_toString_integer_inj.
    now injection H.
  - now intros ->.
Qed.

(* ===================================================================== *)
(** * The list of insights *)
(* ===================================================================== *)

Lemma SortCompare_sub_lt (x y : number) :
  (SortCompare (number_sub x y) < 0)%Z <-> number_lt x y = true.
Proof.
  destruct x as [| |p|], y as [| |q|];
    try (cbn; split; [lia|discriminate]);
    try (cbn; split; [reflexivity|lia]).
  cbn [number_sub SortCompare number_lt].
  rewrite sgn_Qnum_Qred, Qltb_lt.
  unfold Qlt, Qminus, Qplus, Qopp. cbn [Qnum Qden].
  assert (Hsgn : forall n, (Z.sgn n < 0 <-> n < 0)%Z)
    by (intros n; destruct n; simpl; lia).
  rewrite Hsgn. lia.
Qed.

Section ByRank.
Context {A : Type}.
Variable rank : A -> Z.

(** A list in descending order of a rank from 1 to 3 is its elements of
    rank 3, then those of rank 2, then those of rank 1. *)
Lemma descending_three (l : list A) :
  Forall (fun x => (1 <= rank x <= 3)%Z) l ->
  StronglySorted (fun a b => (rank b <= rank a)%Z) l ->
  l = filter (fun x => (rank x =? 3)%Z) l
      ++ filter (fun x => (rank x =? 2)%Z) l
      ++ filter (fun x => (rank x =? 1)%Z) l.
Proof.
  intros Hr Hs. induction Hs as [|x l Hs IH Hall]; [reflexivity|].
  inversion Hr as [|? ? Hx Hl]; subst.
  specialize (IH Hl).
  assert (Hnone : forall r, (rank x < r)%Z ->
                            filter (fun y => (rank y =? r)%Z) l = []).
  { intros r Hlt. clear IH Hs Hl Hr.
    induction l as [|y l IHl]; [reflexivity|].
    inversion Hall; subst. simpl.
    destruct (Z.eqb_spec (rank y) r); [lia|]. now apply IHl. }
  simpl.
  destruct (Z.eqb_spec (rank x) 3) as [E3|E3].
  - destruct (Z.eqb_spec (rank x) 2); [lia|].
    destruct (Z.eqb_spec (rank x) 1); [lia|].
    simpl. now rewrite <- IH.
  - rewrite (Hnone 3%Z) in * by lia. simpl in *.
    destruct (Z.eqb_spec (rank x) 2) as [E2|E2].
    + destruct (Z.eqb_spec (rank x) 1); [lia|].
      simpl. now rewrite <- IH.
    + rewrite (Hnone 2%Z) in * by lia. simpl in *.
      destruct (Z.eqb_spec (rank x) 1); [|lia].
      now rewrite <- IH.
Qed.
End ByRank.

(** X22.  Sorted by impact and without a limit, the list of insights shows
    the insights of high impact, then those of medium impact, then those
    of low impact, each group in the order of the input. *)
Theorem insights_by_impact (localeCompare : string -> string -> Z)
  (insights : list InsightList.InsightCardData) :
  InsightList.sortedInsights localeCompare insights
    (Some InsightList.byImpact) None
  = filter (Notions.ofImpact InsightList.high) insights
    ++ filter (Notions.ofImpact InsightList.medium) insights
    ++ filter (Notions.ofImpact InsightList.low) insights.
Proof.
  unfold InsightList.sortedInsights.
  set (cmp := InsightList.compareInsights localeCompare InsightList.byImpact).
  set (rank := fun c => InsightList.impactOrder (InsightList.impact c)).
  assert (Hcmp : forall a b, cmp a b = Z.sgn (rank b - rank a)).
  { intros a b. unfold cmp, rank. simpl. apply SortCompare_sub. }
  assert (Hsorted : StronglySorted (fun a b => (rank b <= rank a)%Z)
                                   (Array_sort cmp insights)).
  { apply Array_sort_ordered with (ok := fun _ => True).
    - intros x e _ _. rewrite Hcmp. lia.
    - intros x e _ _. rewrite Hcmp. lia.
    - intros x y z _ _ _. lia.
    - apply Forall_forall. auto. }
  assert (Hrank : Forall (fun x => (1 <= rank x <= 3)%Z)
                         (Array_sort cmp insights)).
  { apply Forall_forall. intros c _. unfold rank.
    destruct (InsightList.impact c); simpl; lia. }
  rewrite (descending_three rank _ Hrank Hsorted).
  assert (Hclass : forall i r, InsightList.impactOrder i = r ->
            filter (fun x => (rank x =? r)%Z) (Array_sort cmp insights)
            = filter (Notions.ofImpact i) insights).
  { intros i r Hi.
    rewrite (Array_sort_filter cmp (fun x => (rank x =? r)%Z)).
    - apply filter_ext. intros c. unfold rank, Notions.ofImpact. subst r.
      destruct i, (InsightList.impact c); reflexivity.
    - intros x y Hx Hy. rewrite Hcmp.
      apply Z.eqb_eq in Hx. apply Z.eqb_eq in Hy. lia. }
  now rewrite (Hclass InsightList.high 3%Z), (Hclass InsightList.medium 2%Z),
    (Hclass InsightList.low 1%Z).
Qed.

(** X23.  Sorted by confidence, which is also what the list does when no
    sort key is given, and with no confidence that is NaN, the insights
    come out with no insight before one of greater confidence, and
    insights of one and the same confidence in the order of the input.
    The limit then keeps a prefix of that list. *)
Theorem insights_by_confidence (localeCompare : string -> string -> Z)
  (insights : list InsightList.InsightCardData) (v : number)
  (maxItems : option Z) :
  Forall (fun c => InsightList.confidence c <> NaN) insights ->
  let sorted := InsightList.sortedInsights localeCompare insights None None in
  sorted = InsightList.sortedInsights localeCompare insights
             (Some InsightList.byConfidence) None
  /\ Permutation sorted insights
  /\ StronglySorted
       (fun a b => number_lt (InsightList.confidence a)
                             (InsightList.confidence b) = false) sorted
  /\ filter (fun c => Notions.sameValue (InsightList.confidence c) v) sorted
     = filter (fun c => Notions.sameValue (InsightList.confidence c) v)
              insights
  /\ exists n,
       InsightList.sortedInsights localeCompare insights None maxItems
       = firstn n sorted.
Proof.
  intros Hvalid sorted. unfold sorted, InsightList.sortedInsights.
  set (cmp := InsightList.compareInsights localeCompare
                InsightList.byConfidence).
  split; [reflexivity|]. split; [apply Array_sort_perm|].
  split; [|split].
  - apply Array_sort_ordered
      with (ok := fun c => InsightList.confidence c <> NaN);
      [| | |exact Hvalid].
    + intros x e _ _ H. unfold cmp in H. simpl in H.
      apply SortCompare_sub_lt in H. now apply number_lt_asym.
    + intros x e _ _ H. unfold cmp in H. simpl in H.
      rewrite SortCompare_sub_lt in H.
      now destruct (number_lt (InsightList.confidence e)
                              (InsightList.confidence x)).
    + intros x y z Hx Hy Hz. now apply number_ge_trans.
  - apply Array_sort_filter. intros x y Hx Hy. unfold cmp. simpl.
    destruct (Z.lt_ge_cases
                (SortCompare (number_sub (InsightList.confidence y)
                                         (InsightList.confidence x))) 0)
      as [H|H]; [|exact H].
    apply SortCompare_sub_lt in H.
    rewrite (sameValue_not_lt v _ _ Hy Hx) in H. discriminate.
  - destruct maxItems as [m|].
    + destruct (m =? 0)%Z.
      * exists (List.length (Array_sort cmp insights)).
        now rewrite firstn_all.
      * eexists. reflexivity.
    + exists (List.length (Array_sort cmp insights)). now rewrite firstn_all.
Qed.

Lemma insights_by_confidence_witness :
  map InsightList.title
      (InsightList.sortedInsights (fun _ _ => 0%Z) Instances.insights None None)
  = ["signups"; "revenue"; "churn"; "latency"]
  /\ Permutation
       (InsightList.sortedInsights (fun _ _ => 0%Z) Instances.insights
                                   None None)
       Instances.insights.
Proof.
  split; [reflexivity|].
  refine (proj1 (proj2 (insights_by_confidence (fun _ _ => 0%Z)
                          Instances.insights NaN None _))).
  repeat constructor; discriminate.
Defined.

(* ===================================================================== *)
(** * The overdue mark of the task card *)
(* ===================================================================== *)

Lemma number_lt_below_later (x : number) (now later : Z) :
  (now <= later)%Z ->
  number_lt x (ofZ now) = true -> number_lt x (ofZ later) = true.
Proof.
  intros Hl. destruct x as [| |q|]; try discriminate; [reflexivity|].
  unfold ofZ. simpl. rewrite !Qltb_lt. intros H.
  eapply Qlt_le_trans; [exact H|]. now rewrite <- Zle_Qle.
Qed.

(** X24.  Whatever the host makes of a date string, a task card is marked
    overdue only when the task has a due date that is not empty and that
    the host reads as a time before the present, and a status other than
    "done"; and a card that is marked overdue stays so at every later
    time. *)
Theorem overdue_mark (Date_parse : string -> number)
  (dueDate status : option string) (now later : Z) :
  TaskCard.isOverdue Date_parse dueDate status now = true ->
  (exists d,
      dueDate = Some d /\ d <> ""
      /\ number_lt (Date_parse d) (ofZ now) = true)
  /\ status <> Some "done"
  /\ ((now <= later)%Z ->
      TaskCard.isOverdue Date_parse dueDate status later = true).
Proof.
  unfold TaskCard.isOverdue.
  destruct dueDate as [d|]; [|discriminate].
  destruct (truthy d) eqn:Ht; [|discriminate]. simpl.
  destruct (ProjectManagement.isString status "done") eqn:Hs; [discriminate|].
  intros H. split; [|split].
  - exists d. repeat split; [|exact H]. intros ->. discriminate.
  - intros ->. simpl in Hs. discriminate.
  - intros Hl. now apply number_lt_below_later with now.
Qed.

Lemma overdue_mark_witness :
  TaskCard.isOverdue ProjectManagement.Date_parse_UTC
    (Some "2024-03-15T10:53:20Z") (Some "in-progress") 1710720000000 = true
  /\ TaskCard.isOverdue ProjectManagement.Date_parse_UTC
       (Some "2024-03-15T10:53:20Z") (Some "in-progress") 1800000000000
     = true.
Proof.
  assert (H : TaskCard.isOverdue ProjectManagement.Date_parse_UTC
                (Some "2024-03-15T10:53:20Z") (Some "in-progress")
                1710720000000 = true) by reflexivity.
  split; [exact H|].
  apply (proj2 (proj2 (overdue_mark _ _ _ _ 1800000000000 H))). lia.
Defined.

(* ===================================================================== *)
(** * The order that ECMAScript fixes and the order of V8 *)
(* ===================================================================== *)

Section EnginesAgree.
Context {A : Type}.
Variable comparefn : A -> A -> Z.
Variable all : list A.
Hypothesis order : Notions.strictWeakOrder comparefn all.

Lemma below_dec (x y : A) :
  {Notions.below comparefn x y} + {~ Notions.below comparefn x y}.
Proof. unfold Notions.below. apply Z_lt_dec. Qed.

Lemma below_ltb (x y : A) :
  (comparefn x y <? 0)%Z = true <-> Notions.below comparefn x y.
Proof. apply Z.ltb_lt. Qed.

Lemma below_asym (x y : A) :
  In x all -> In y all ->
  Notions.below comparefn x y -> ~ Notions.below comparefn y x.
Proof.
  destruct order as [Hirr [Htr _]]. intros Hx Hy H1 H2.
  exact (Hirr x Hx (Htr x y x Hx Hy Hx H1 H2)).
Qed.

(** The place of a pivot among sorted elements: the elements it is not
    below, then the elements it is below. *)
Lemma sorted_splits (pivot : A) (sorted : list A) :
  In pivot all -> incl sorted all ->
  StronglySorted (fun a b => ~ Notions.below comparefn b a) sorted ->
  exists s1 s2,
    sorted = s1 ++ s2
    /\ Forall (fun e => ~ Notions.below comparefn pivot e) s1
    /\ Forall (Notions.below comparefn pivot) s2.
Proof.
  destruct order as [_ [_ Hneg]].
  intros Hp Hin Hs. induction Hs as [|a s Hs IH Hall].
  - exists [], []. repeat split; constructor.
  - assert (Ha : In a all) by (apply Hin; now left).
    assert (Hin' : incl s all) by (intros e He; apply Hin; now right).
    destruct (below_dec pivot a) as [Hb|Hb].
    + exists [], (a :: s). split; [reflexivity|]. split; [constructor|].
      constructor; [exact Hb|].
      rewrite Forall_forall in *. intros e He.
      destruct (below_dec pivot e) as [H|H]; [exact H|].
      exfalso. exact (Hneg pivot e a Hp (Hin' e He) Ha H (Hall e He) Hb).
    + destruct (IH Hin') as [s1 [s2 [E [H1 H2]]]].
      exists (a :: s1), s2. subst s. split; [reflexivity|].
      split; [now constructor|exact H2].
Qed.

Lemma insertPivot_at (pivot : A) (s1 s2 : list A) :
  Forall (fun e => ~ Notions.below comparefn pivot e) s1 ->
  Forall (Notions.below comparefn pivot) s2 ->
  insertPivot comparefn pivot (rev (s1 ++ s2)) = rev (s1 ++ pivot :: s2).
Proof.
  intros H1 H2. rewrite !rev_app_distr. simpl rev.
  apply Forall_rev in H2. apply Forall_rev in H1.
  induction H2 as [|e r He _ IH]; simpl.
  - destruct H1 as [|e r He _]; [reflexivity|].
    simpl. apply below_ltb in He || idtac.
    destruct (comparefn pivot e <? 0)%Z eqn:E; [|reflexivity].
    apply below_ltb in E. contradiction.
  - apply below_ltb in He. rewrite He. rewrite <- app_assoc in *. simpl in *.
    now rewrite IH.
Qed.

Lemma insertionPoint_at (pivot : A) (s1 s2 : list A) :
  Forall (fun e => ~ Notions.below comparefn pivot e) s1 ->
  Forall (Notions.below comparefn pivot) s2 ->
  forall steps left right,
    (left <= List.length s1 <= right)%nat ->
    (right <= List.length (s1 ++ s2))%nat ->
    (right - left < steps)%nat ->
    insertionPoint comparefn steps pivot (s1 ++ s2) left right
    = List.length s1.
Proof.
  intros H1 H2. induction steps as [|steps IH]; intros left right Hl Hr Hs;
    [lia|].
  simpl. destruct (Nat.ltb_spec left right) as [Hlt|Hge]; [|lia].
  pose proof (Nat.div2_div (right - left)) as Hd.
  assert (Hmid : (Nat.div2 (right - left) < right - left)%nat)
    by (apply Nat.lt_div2; lia).
  set (mid := (left + Nat.div2 (right - left))%nat) in *.
  destruct (Nat.lt_ge_cases mid (List.length s1)) as [Hm|Hm].
  - rewrite nth_error_app1 by exact Hm.
    destruct (nth_error s1 mid) as [e|] eqn:E;
      [|apply nth_error_None in E; lia].
    rewrite Forall_forall in H1.
    destruct (comparefn pivot e <? 0)%Z eqn:Hc.
    + apply below_ltb in Hc. exfalso.
      exact (H1 e (nth_error_In _ _ E) Hc).
    + apply IH; lia.
  - rewrite nth_error_app2 by exact Hm.
    rewrite length_app in Hr.
    destruct (nth_error s2 (mid - List.length s1)) as [e|] eqn:E;
      [|apply nth_error_None in E; lia].
    rewrite Forall_forall in H2.
    pose proof (H2 e (nth_error_In _ _ E)) as Hc.
    apply below_ltb in Hc. rewrite Hc.
    apply IH; try lia. rewrite length_app. lia.
Qed.

Lemma insertSorted_at (pivot : A) (s1 s2 : list A) :
  Forall (fun e => ~ Notions.below comparefn pivot e) s1 ->
  Forall (Notions.below comparefn pivot) s2 ->
  insertSorted comparefn (s1 ++ s2) pivot = s1 ++ pivot :: s2.
Proof.
  intros H1 H2. unfold insertSorted.
  rewrite (insertionPoint_at pivot s1 s2 H1 H2); try lia.
  - rewrite firstn_app, skipn_app, Nat.sub_diag, firstn_all, skipn_all.
    simpl. now rewrite app_nil_r.
  - rewrite length_app. lia.
Qed.

Lemma StronglySorted_insert (R : A -> A -> Prop) (s1 s2 : list A) (x : A) :
  StronglySorted R (s1 ++ s2) ->
  Forall (fun e => R e x) s1 -> Forall (R x) s2 ->
  StronglySorted R (s1 ++ x :: s2).
Proof.
  induction s1 as [|a s1 IH]; simpl; intros Hs H1 H2.
  - now constructor.
  - inversion Hs as [|? ? Hs' Hall]; subst.
    inversion H1 as [|? ? Hax H1']; subst.
    constructor; [now apply IH|].
    apply Forall_app in Hall. destruct Hall as [Ha1 Ha2].
    apply Forall_app. split; [exact Ha1|]. now constructor.
Qed.

(** Bisection and the linear scan put a pivot at the same place. *)
Lemma insertions_agree (rest sorted : list A) :
  incl rest all -> incl sorted all ->
  StronglySorted (fun a b => ~ Notions.below comparefn b a) sorted ->
  BinaryInsertionSort comparefn sorted rest
  = rev (sortInto comparefn (rev sorted) rest).
Proof.
  unfold BinaryInsertionSort, sortInto.
  revert sorted. induction rest as [|pivot rest IH]; intros sorted Hr Hi Hs.
  - simpl. now rewrite rev_involutive.
  - simpl.
    assert (Hp : In pivot all) by (apply Hr; now left).
    destruct (sorted_splits pivot sorted Hp Hi Hs) as [s1 [s2 [E [H1 H2]]]].
    subst sorted.
    rewrite insertSorted_at, insertPivot_at by assumption.
    apply IH.
    + intros e He. apply Hr. now right.
    + intros e He. apply in_app_or in He.
      destruct He as [He|[He|He]]; [apply Hi, in_or_app; now left
                                   |now subst e
                                   |apply Hi, in_or_app; now right].
    + apply StronglySorted_insert; [exact Hs|exact H1|].
      rewrite Forall_forall in *. intros e He.
      apply below_asym; [exact Hp| |now apply H2].
      apply Hi, in_or_app. now right.
Qed.

(** What [continueRun] returns: the array is the run followed by the
    rest, and each element of the run continues the run. *)
Lemma continueRun_spec (isDescending : bool) (l : list A) :
  forall previousElement run rest,
    continueRun comparefn isDescending previousElement l = (run, rest) ->
    l = run ++ rest
    /\ Sorted (fun x y => if isDescending then Notions.below comparefn y x
                          else ~ Notions.below comparefn y x)
              (previousElement :: run).
Proof.
  induction l as [|c l IH]; intros prev run rest; simpl.
  - intros H. inversion H; subst. split; [reflexivity|].
    repeat constructor.
  - destruct (if isDescending then (0 <=? comparefn c prev)%Z
              else (comparefn c prev <? 0)%Z) eqn:Hstop.
    + intros H. inversion H; subst. split; [reflexivity|].
      repeat constructor.
    + destruct (continueRun comparefn isDescending c l) as [run' rest'] eqn:E.
      intros H. inversion H; subst.
      destruct (IH c run' rest E) as [El Hchain].
      split; [simpl; now rewrite El|].
      constructor; [exact Hchain|]. constructor. unfold Notions.below.
      destruct isDescending;
        [apply Z.leb_gt in Hstop; exact Hstop
        |apply Z.ltb_ge in Hstop; lia].
Qed.

(** A chain under a relation that is transitive on the elements is
    sorted. *)
Lemma chain_sorted (R : A -> A -> Prop) (l : list A) :
  (forall x y z, In x all -> In y all -> In z all -> R x y -> R y z -> R x z) ->
  incl l all -> Sorted R l -> StronglySorted R l.
Proof.
  intros Htr Hin Hs. induction Hs as [|a l Hs IH Hhd]; [constructor|].
  assert (Hin' : incl l all) by (intros e He; apply Hin; now right).
  specialize (IH Hin').
  constructor; [exact IH|].
  destruct Hhd as [|b l Hab]; [constructor|].
  constructor; [exact Hab|].
  inversion IH as [|? ? _ Hall]; subst.
  rewrite Forall_forall in *. intros e He.
  apply (Htr a b e); auto.
  - apply Hin. now left.
  - apply Hin'. now left.
  - apply Hin'. now right.
Qed.

(** The linear scan leaves an ascending chain as it is. *)
Lemma ascending_fold (run : list A) :
  forall previousElement placed,
    Sorted (fun x y => ~ Notions.below comparefn y x)
           (previousElement :: run) ->
    sortInto comparefn (previousElement :: placed) run
    = rev run ++ previousElement :: placed.
Proof.
  unfold sortInto.
  induction run as [|c run IH]; intros prev placed Hs; [reflexivity|].
  inversion Hs as [|? ? Hs' Hhd]; subst.
  inversion Hhd as [|? ? Hc]; subst.
  simpl.
  destruct (comparefn c prev <? 0)%Z eqn:E;
    [apply below_ltb in E; contradiction|].
  rewrite IH by exact Hs'. now rewrite <- app_assoc.
Qed.

Lemma StronglySorted_before (R : A -> A -> Prop) (l1 l2 : list A) (x : A) :
  StronglySorted R (l1 ++ x :: l2) -> Forall (fun a => R a x) l1.
Proof.
  induction l1 as [|a l1 IH]; simpl; intros Hs; [constructor|].
  inversion Hs as [|? ? Hs' Hall]; subst.
  constructor; [|now apply IH].
  apply Forall_app in Hall. destruct Hall as [_ Hall].
  now inversion Hall.
Qed.

Lemma insertPivot_past_all (pivot : A) (placed : list A) :
  Forall (Notions.below comparefn pivot) placed ->
  insertPivot comparefn pivot placed = placed ++ [pivot].
Proof.
  induction 1 as [|e placed He _ IH]; [reflexivity|].
  simpl. apply below_ltb in He. now rewrite He, IH.
Qed.

(** The linear scan turns a strictly descending chain round. *)
Lemma descending_fold (run placed : list A) :
  StronglySorted (fun x y => Notions.below comparefn y x) (placed ++ run) ->
  sortInto comparefn placed run = placed ++ run.
Proof.
  unfold sortInto. revert placed.
  induction run as [|c run IH]; intros placed Hs; simpl.
  - now rewrite app_nil_r.
  - rewrite insertPivot_past_all
      by exact (StronglySorted_before _ _ _ _ Hs).
    rewrite IH; rewrite <- app_assoc; [reflexivity|exact Hs].
Qed.

Lemma StronglySorted_weaken (R R' : A -> A -> Prop) (l : list A) :
  (forall a b, In a l -> In b l -> R a b -> R' a b) ->
  StronglySorted R l -> StronglySorted R' l.
Proof.
  intros Himp Hs. induction Hs as [|a l Hs IH Hall]; [constructor|].
  constructor.
  - apply IH. intros x y Hx Hy. apply Himp; now right.
  - rewrite Forall_forall in *. intros e He.
    apply Himp; [now left|now right|now apply Hall].
Qed.

(** The run that [CountAndMakeRun] makes is the part of the array that
    the linear scan has sorted when it reaches the rest. *)
Lemma CountAndMakeRun_spec (l run rest : list A) :
  incl l all ->
  CountAndMakeRun comparefn l = (run, rest) ->
  StronglySorted (fun a b => ~ Notions.below comparefn b a) run
  /\ incl run all /\ incl rest all
  /\ sortInto comparefn [] l = sortInto comparefn (rev run) rest.
Proof.
  destruct order as [Hirr [Htr Hneg]].
  intros Hin. unfold CountAndMakeRun.
  destruct l as [|a0 [|a1 l]].
  - intros H. inversion H; subst. repeat split; try constructor;
      intros e [].
  - intros H. inversion H; subst.
    repeat split; try (repeat constructor); try exact Hin. intros e [].
  - destruct (continueRun comparefn (comparefn a1 a0 <? 0)%Z a1 l)
      as [r rest'] eqn:E.
    intros H.
    destruct (continueRun_spec _ _ _ _ _ E) as [El Hchain].
    assert (Hwhole : incl (a0 :: a1 :: r) all).
    { intros e He. apply Hin. subst l.
      destruct He as [He|[He|He]]; [now left|right; now left|].
      right. right. apply in_or_app. now left. }
    assert (Hrest : incl rest' all).
    { intros e He. apply Hin. subst l. right. right.
      apply in_or_app. now right. }
    assert (Hfold : sortInto comparefn [] (a0 :: a1 :: l)
                    = sortInto comparefn
                        (sortInto comparefn [] (a0 :: a1 :: r)) rest').
    { unfold sortInto. subst l.
      change (a0 :: a1 :: r ++ rest') with ((a0 :: a1 :: r) ++ rest').
      now rewrite fold_left_app. }
    rewrite Hfold. clear Hfold.
    destruct (comparefn a1 a0 <? 0)%Z eqn:Hd;
      injection H as Hrun Hrest'; subst rest run.
    + (* a descending run, turned round *)
      apply below_ltb in Hd.
      assert (Hs : StronglySorted (fun x y => Notions.below comparefn y x)
                                  (a0 :: a1 :: r)).
      { apply chain_sorted; [|exact Hwhole|].
        - intros x y z Hx Hy Hz Hxy Hyz. exact (Htr z y x Hz Hy Hx Hyz Hxy).
        - constructor; [exact Hchain|]. now constructor. }
      split; [|split; [|split]].
      * apply (StronglySorted_weaken (fun a b => Notions.below comparefn a b)).
        -- intros a b Ha Hb Hab.
           apply below_asym; [| |exact Hab];
             apply Hwhole; now apply in_rev.
        -- exact (StronglySorted_rev _ _ Hs).
      * intros e He. apply Hwhole. now apply in_rev.
      * exact Hrest.
      * change ((rev r ++ [a1]) ++ [a0]) with (rev (a0 :: a1 :: r)).
        rewrite rev_involutive. f_equal.
        exact (descending_fold (a0 :: a1 :: r) [] Hs).
    + (* an ascending run *)
      assert (Hd' : ~ Notions.below comparefn a1 a0)
        by (intros C; apply below_ltb in C; congruence).
      assert (Hc : Sorted (fun x y => ~ Notions.below comparefn y x)
                          (a0 :: a1 :: r))
        by (constructor; [exact Hchain|now constructor]).
      split; [|split; [|split]].
      * apply chain_sorted; [|exact Hwhole|exact Hc].
        intros x y z Hx Hy Hz Hxy Hyz. exact (Hneg z y x Hz Hy Hx Hyz Hxy).
      * exact Hwhole.
      * exact Hrest.
      * f_equal.
        change (sortInto comparefn [] (a0 :: a1 :: r))
          with (sortInto comparefn [a0] (a1 :: r)).
        rewrite (ascending_fold (a1 :: r) a0 [] Hc).
        simpl. now rewrite <- !app_assoc.
Qed.

(** On an array of fewer than 64 elements on which the test of the
    comparator is a strict weak order, V8 returns the order that
    ECMAScript fixes. *)
Lemma ArrayTimSort_Array_sort (l : list A) :
  incl l all ->
  (List.length l < 64)%nat ->
  ArrayTimSort comparefn l = Some (Array_sort comparefn l).
Proof.
  intros Hin Hlen. unfold ArrayTimSort, Array_sort.
  destruct (Nat.ltb_spec (List.length l) 64) as [_|H]; [|lia].
  destruct (CountAndMakeRun comparefn l) as [run rest] eqn:E.
  destruct (CountAndMakeRun_spec l run rest Hin E)
    as [Hs [Hrun [Hrest Hfold]]].
  rewrite Hfold. f_equal. now apply insertions_agree.
Qed.
End EnginesAgree.

(* ===================================================================== *)
(** * Columns and stores on which every engine gives the same order *)
(* ===================================================================== *)

Section KindOrder.
Variable kind : value -> bool.
Hypothesis kind_asym :
  forall a b, kind a = true -> kind b = true ->
              lessThan a b = true -> lessThan b a = false.
Hypothesis kind_cotrans :
  forall a b c, kind a = true -> kind b = true -> kind c = true ->
                lessThan a c = true ->
                lessThan b c = true \/ lessThan a b = true.


End KindOrder.










Lemma number_lt_trans (x y z : number) :
  number_lt x y = true -> number_lt y z = true -> number_lt x z = true.
Proof.
  destruct x, y, z; simpl; try discriminate; try reflexivity.
  rewrite !Qltb_lt. apply Qlt_trans.
Qed.

(** When the comparator of [getTasks] sends one task before another. *)
Lemma compareTasks_below_iff (Date_parse : string -> number)
  (by_ : ProjectManagement.SortBy) (o : option ProjectManagement.SortOrder)
  (x e : TaskStore.StoredTask) :
  Notions.below (TaskStore.compareTasks Date_parse by_ o) x e
  <-> match o with
      | Some ProjectManagement.desc =>
          number_lt (TaskStore.sortValue Date_parse by_ e)
                    (TaskStore.sortValue Date_parse by_ x) = true
      | _ =>
          number_lt (TaskStore.sortValue Date_parse by_ x)
                    (TaskStore.sortValue Date_parse by_ e) = true
      end.
Proof.
  unfold Notions.below, TaskStore.compareTasks.
  destruct (number_lt (TaskStore.sortValue Date_parse by_ e)
                      (TaskStore.sortValue Date_parse by_ x)) eqn:E1;
    destruct (number_lt (TaskStore.sortValue Date_parse by_ x)
                        (TaskStore.sortValue Date_parse by_ e)) eqn:E2;
    try (apply number_lt_asym in E1; congruence);
    destruct o as [[|]|]; intuition (lia || congruence).
Qed.

Lemma compareTasks_strictWeakOrder (Date_parse : string -> number)
  (by_ : ProjectManagement.SortBy) (o : option ProjectManagement.SortOrder)
  (store : list TaskStore.StoredTask) :
  Forall (fun t => TaskStore.sortValue Date_parse by_ t <> NaN) store ->
  Notions.strictWeakOrder (TaskStore.compareTasks Date_parse by_ o) store.
Proof.
  intros Hvalid. rewrite Forall_forall in Hvalid.
  assert (Hge : forall a b, number_lt a b <> true <-> number_lt a b = false)
    by (intros a b; destruct (number_lt a b); intuition congruence).
  split; [|split].
  - intros x _ Hb. apply compareTasks_below_iff in Hb.
    assert (H : number_lt (TaskStore.sortValue Date_parse by_ x)
                          (TaskStore.sortValue Date_parse by_ x) = true)
      by (destruct o as [[|]|]; exact Hb).
    pose proof (number_lt_asym _ _ H). congruence.
  - intros x y z _ _ _ Hxy Hyz.
    apply compareTasks_below_iff in Hxy. apply compareTasks_below_iff in Hyz.
    apply compareTasks_below_iff.
    destruct o as [[|]|]; eauto using number_lt_trans.
  - intros x y z Hx Hy Hz Hxy Hyz Hxz.
    rewrite compareTasks_below_iff in Hxy, Hyz, Hxz.
    pose proof (Hvalid x Hx) as Nx. pose proof (Hvalid y Hy) as Ny.
    pose proof (Hvalid z Hz) as Nz.
    destruct o as [[|]|]; apply Hge in Hxy; apply Hge in Hyz;
      first [pose proof (number_ge_trans _ _ _ Nx Ny Nz Hxy Hyz)
            |pose proof (number_ge_trans _ _ _ Nz Ny Nx Hyz Hxy)];
      congruence.
Qed.

(** X26.  On a store of fewer than 64 tasks whose sort values are all
    numbers (every date that is read parses, every task has a priority),
    V8 returns the selected tasks in exactly the order of [getTasks]: the
    test of the comparator is a strict weak order there, and the order of
    the result does not depend on the engine. *)
Theorem getTasks_order_in_V8 (Date_parse : string -> number)
  (store : list TaskStore.StoredTask) (now : Z)
  (f : ProjectManagement.Filters) (by_ : ProjectManagement.SortBy) :
  ProjectManagement.sortBy f = Some by_ ->
  Forall (fun t => TaskStore.sortValue Date_parse by_ t <> NaN) store ->
  (List.length store < 64)%nat ->
  ArrayTimSort (TaskStore.compareTasks Date_parse by_
                  (ProjectManagement.sortOrder f))
               (filter (Notions.selects Date_parse now f) store)
  = Some (TaskStore.getTasks Date_parse store now (Some f)).
Proof.
  intros Hby Hvalid Hlen. rewrite getTasks_unsorted, Hby.
  apply (ArrayTimSort_Array_sort _ store).
  - now apply compareTasks_strictWeakOrder.
  - intros t Ht. now apply filter_In in Ht.
  - pose proof (filter_length_le (Notions.selects Date_parse now f) store).
    lia.
Qed.

Lemma getTasks_order_in_V8_witness :
  ArrayTimSort (TaskStore.compareTasks ProjectManagement.Date_parse_UTC
                  ProjectManagement.byPriority (Some ProjectManagement.desc))
               (filter (Notions.selects ProjectManagement.Date_parse_UTC 0
                          Instances.byPriorityDescending) Instances.store)
  = Some (TaskStore.getTasks ProjectManagement.Date_parse_UTC Instances.store
            0 (Some Instances.byPriorityDescending)).
Proof.
  apply (getTasks_order_in_V8 ProjectManagement.Date_parse_UTC Instances.store
           0 Instances.byPriorityDescending ProjectManagement.byPriority).
  - reflexivity.
  - repeat constructor; vm_compute; discriminate.
  - simpl. lia.
Defined.

(* ===================================================================== *)
(** * Elements that a comparator sends to the end, in the sort of V8 *)
(* ===================================================================== *)

Section LastInV8.
Context {A : Type}.
Variable comparefn : A -> A -> Z.
Variable last : A -> bool.
Hypothesis last_stays :
  forall x e, last x = true -> (comparefn x e <? 0)%Z = false.
Hypothesis others_pass :
  forall x e, last x = false -> last e = true ->
              (comparefn x e <? 0)%Z = true.











End LastInV8.

(* ===================================================================== *)
(** * Records that miss the sort field: the table and the task service *)
(* ===================================================================== *)




